(** * Using Qdrant for Embeddings Search: the notebook as a traced program

    A shallow embedding of
    [examples/vector_databases/qdrant/Using_Qdrant_for_embeddings_search.ipynb].

    The notebook is a straight-line script over third-party libraries
    (wget, zipfile, pandas, ast, qdrant_client, openai).  The libraries are
    not part of the repository: they are taken as an environment [Env],
    a record of functions over an abstract state [W] of the outside world
    (file system, network, Qdrant server, embeddings API).  What the
    notebook itself contributes is modelled in full: which calls are made,
    with which arguments, in which order, and what happens to the
    exceptions they raise.  A run produces a trace of events, which is what
    the theorems below are about. *)

From Stdlib Require Import List String ZArith Lia Bool Arith.
From Stdlib Require Import Floats.SpecFloat.
From Stdlib Require Import Sorting.Sorted.
From Stdlib Require Import Numbers.DecimalString.
Import ListNotations.
Local Open Scope string_scope.
Local Open Scope list_scope.

Set Implicit Arguments.
Set Warnings "-register-all".

(* ================================================================== *)
(** ** Python values, exceptions and outcomes *)

(** The values a dataframe cell holds in this notebook.  A float is the
    IEEE-754 datum; nothing here computes with it. *)
Inductive pyval : Type :=
| PyNone
| PyBool (b : bool)
| PyInt (z : Z)
| PyFloat (f : spec_float)
| PyStr (s : string)
| PyList (xs : list pyval).

(** Every Python exception derives from [BaseException]; the ordinary ones
    derive from its subclass [Exception], while [KeyboardInterrupt],
    [SystemExit] and [GeneratorExit] do not. *)
Inductive exc_root : Type :=
| FromException
| FromBaseException.

Record exn : Type := mkExn {
  exn_type : string;
  exn_root : exc_root;
  exn_msg : string
}.

(** [isinstance(e, Exception)], the test an [except Exception] clause makes. *)
Definition isinstance_Exception (e : exn) : bool :=
  match exn_root e with
  | FromException => true
  | FromBaseException => false
  end.

Definition KeyError (key : string) : exn := mkExn "KeyError" FromException key.
Definition AttributeError (name : string) : exn :=
  mkExn "AttributeError" FromException name.
Definition IndexError (msg : string) : exn := mkExn "IndexError" FromException msg.
Definition TypeError (msg : string) : exn := mkExn "TypeError" FromException msg.
Definition KeyboardInterrupt : exn := mkExn "KeyboardInterrupt" FromBaseException "".

Inductive outcome (A : Type) : Type :=
| Returned (a : A)
| Raised (e : exn).
Arguments Returned {A} a.
Arguments Raised {A} e.

(** The builtin [len] on a cell value. *)
Definition py_len (v : pyval) : outcome Z :=
  match v with
  | PyStr s => Returned (Z.of_nat (String.length s))
  | PyList xs => Returned (Z.of_nat (List.length xs))
  | _ => Raised (TypeError "object has no len()")
  end.

(* ================================================================== *)
(** ** Dataframes *)

(** A pandas [DataFrame] with a [RangeIndex]: the number of rows and the
    columns in order, each a name and its values. *)
Record DataFrame : Type := mkDF {
  df_index : nat;
  df_columns : list (string * list pyval)
}.

(** A row as [iterrows] yields it: a [Series] indexed by the column names. *)
Definition Series : Type := list (string * pyval).

Fixpoint assoc {A : Type} (key : string) (l : list (string * A)) : option A :=
  match l with
  | [] => None
  | (k, a) :: rest => if String.eqb k key then Some a else assoc key rest
  end.

(** [len(df)] *)
Definition df_len (df : DataFrame) : nat := df_index df.

(** [df.columns] *)
Definition column_names (df : DataFrame) : list string :=
  map fst (df_columns df).

(** [df[name]] *)
Definition getitem (df : DataFrame) (name : string) : outcome (list pyval) :=
  match assoc name (df_columns df) with
  | Some col => Returned col
  | None => Raised (KeyError name)
  end.

(** [df.name] *)
Definition getattr (df : DataFrame) (name : string) : outcome (list pyval) :=
  match assoc name (df_columns df) with
  | Some col => Returned col
  | None => Raised (AttributeError name)
  end.

(** [df[name] = values]: an existing column is replaced where it stands, a
    new one is appended. *)
Fixpoint set_column (name : string) (values : list pyval)
    (cols : list (string * list pyval)) : list (string * list pyval) :=
  match cols with
  | [] => [(name, values)]
  | (k, old) :: rest =>
      if String.eqb k name then (k, values) :: rest
      else (k, old) :: set_column name values rest
  end.

Definition setitem (df : DataFrame) (name : string) (values : list pyval)
    : DataFrame :=
  mkDF (df_index df) (set_column name values (df_columns df)).

(** [series[label]] on a column, by row label. *)
Definition column_at (col : list pyval) (k : nat) : outcome pyval :=
  match nth_error col k with
  | Some v => Returned v
  | None => Raised (KeyError "row label")
  end.

(** [v[name]] on a row. *)
Definition row_getitem (v : Series) (name : string) : outcome pyval :=
  match assoc name v with
  | Some x => Returned x
  | None => Raised (KeyError name)
  end.

(** Row [k] of the frame.  In a frame as [read_csv] builds it every column
    has a value at every label below [df_index]; the default is never
    reached there. *)
Definition row_at (df : DataFrame) (k : nat) : Series :=
  map (fun c => (fst c, nth k (snd c) PyNone)) (df_columns df).

(** [df.iterrows()]: the pairs of row label and row, in index order. *)
Definition iterrows (df : DataFrame) : list (nat * Series) :=
  map (fun k => (k, row_at df k)) (seq 0 (df_len df)).

(** [df.head()]: the first five rows. *)
Definition head (df : DataFrame) : DataFrame :=
  mkDF (Nat.min 5 (df_index df))
       (map (fun c => (fst c, firstn 5 (snd c))) (df_columns df)).

(** What [df.info(show_counts=True)] reports per column. *)
Inductive dtype : Type := int64 | float64 | object.

Definition is_null (v : pyval) : bool :=
  match v with
  | PyNone => true
  | PyFloat (S754_nan) => true
  | _ => false
  end.

Definition is_int (v : pyval) : bool :=
  match v with PyInt _ => true | _ => false end.

Definition is_float (v : pyval) : bool :=
  match v with PyFloat _ => true | _ => false end.

Definition column_dtype (col : list pyval) : dtype :=
  if forallb is_int col then int64
  else if forallb (fun v => is_int v || is_float v) col then float64
  else object.

Definition info (df : DataFrame) : list (string * nat * dtype) :=
  map (fun c => (fst c,
                 List.length (filter (fun v => negb (is_null v)) (snd c)),
                 column_dtype (snd c)))
      (df_columns df).

(** The header of the embedded-articles CSV, as the notebook's recorded
    [info] output lists it. *)
Definition article_columns : list string :=
  ["id"; "url"; "title"; "text"; "title_vector"; "content_vector"; "vector_id"].


(* ================================================================== *)
(** ** Objects of the client libraries *)

(** [qdrant_client.QdrantClient(host=..., port=...)] *)
Record QdrantClient : Type := mkClient {
  host : string;
  port : Z
}.

(** [rest.Distance] *)
Inductive Distance : Type := COSINE | EUCLID | DOT | MANHATTAN.

(** [rest.VectorParams(distance=..., size=...)] *)
Record VectorParams : Type := mkVectorParams {
  distance : Distance;
  size : Z
}.

(** [PointStruct(id=..., vector={...}, payload={...})]; the two dicts keep
    their keys in the order written. *)
Record PointStruct : Type := mkPoint {
  id : pyval;
  vector : list (string * pyval);
  payload : list (string * pyval)
}.

(** A search filter of the client library; the notebook never builds one. *)
Record Filter : Type := mkFilter {
  must : list (string * pyval)
}.

(** One hit of [qdrant.search]. *)
Record ScoredPoint : Type := mkScored {
  sp_id : pyval;
  score : spec_float;
  sp_payload : list (string * pyval)
}.

(** [openai.embeddings.create(...)] answers with [.data], a list of objects
    each carrying an [.embedding]. *)
Record Embedding : Type := mkEmbedding {
  embedding : list spec_float
}.

Record CreateEmbeddingResponse : Type := mkResponse {
  data : list Embedding
}.

(* ================================================================== *)
(** ** Calls, output and traces *)

(** The calls the notebook makes into its libraries. *)
Inductive call : Type :=
| Shell (cmd : string)
| wget_download (url : string)
| ZipFile_extractall (archive path : string)
| pd_read_csv (path : string)
| ast_literal_eval (cell : pyval)
| get_collections (qdrant : QdrantClient)
| recreate_collection (qdrant : QdrantClient) (collection_name : string)
    (vectors_config : list (string * VectorParams))
| PointStruct_init (p : PointStruct)
| upsert (qdrant : QdrantClient) (collection_name : string)
    (points : list PointStruct)
| count (qdrant : QdrantClient) (collection_name : string)
| embeddings_create (input model : string)
| search (qdrant : QdrantClient) (collection_name : string)
    (query_vector : string * list spec_float) (limit : Z)
    (query_filter : option Filter).

(** The pieces of an f-string handed to [print]: literal text and the
    objects formatted into it. *)
Inductive fragment : Type :=
| Lit (s : string)
| Fmt (v : pyval)
| FmtRow (v : Series)
| FmtExn (e : exn).

(** A value a cell leaves as its result, shown under the cell. *)
Inductive shown : Type :=
| ShowStr (s : string)
| ShowBool (b : bool)
| ShowFrame (df : DataFrame)
| ShowInfo (summary : list (string * nat * dtype))
| ShowCollections (names : list string)
| ShowCount (n : Z).

Inductive event : Type :=
| Invoke (c : call)                       (* a library call is entered *)
| Finish (c : call) (raised : option exn) (* it returns, or raises *)
| Print (line : list fragment)
| Display (v : shown).

Definition trace : Type := list event.

(* ================================================================== *)
(** ** The environment *)

(** What the libraries and the services behind them do.  [W] is the state
    of the outside world; a call that reaches it may change it and may
    raise.  [literal_eval], [str], [round] and the validation a
    [PointStruct] runs on its fields are functions of their arguments. *)
Record Env (W : Type) : Type := mkEnv {
  env_shell : string -> W -> W;
  env_wget_download : string -> W -> outcome string * W;
  env_extractall : string -> string -> W -> outcome unit * W;
  env_read_csv : string -> W -> outcome DataFrame * W;
  env_literal_eval : pyval -> outcome pyval;
  env_str : pyval -> string;
  env_round : spec_float -> Z -> spec_float;
  env_get_collections : QdrantClient -> W -> outcome (list string) * W;
  env_recreate_collection :
    QdrantClient -> string -> list (string * VectorParams) -> W ->
    outcome bool * W;
  env_validate : PointStruct -> option exn;
  env_upsert : QdrantClient -> string -> list PointStruct -> W -> outcome unit * W;
  env_count : QdrantClient -> string -> W -> outcome Z * W;
  env_embeddings_create : string -> string -> W -> outcome CreateEmbeddingResponse * W;
  env_search :
    QdrantClient -> string -> string * list spec_float -> Z -> option Filter ->
    W -> outcome (list ScoredPoint) * W
}.

(* ================================================================== *)
(** ** The monad of notebook code *)

(** A computation starts from a world, ends with a value or a raised
    exception, and leaves a world and the trace of what it did. *)
Definition M (W A : Type) : Type := W -> outcome A * W * trace.

Definition ret {W A : Type} (a : A) : M W A :=
  fun w => (Returned a, w, []).

Definition raise {W A : Type} (e : exn) : M W A :=
  fun w => (Raised e, w, []).

Definition bind {W A B : Type} (m : M W A) (f : A -> M W B) : M W B :=
  fun w =>
    match m w with
    | (Returned a, w1, t1) =>
        match f a w1 with
        | (r, w2, t2) => (r, w2, t1 ++ t2)
        end
    | (Raised e, w1, t1) => (Raised e, w1, t1)
    end.

(** [try: body / except Exception as e: handler e].  An exception that is
    not an instance of [Exception] passes through the clause. *)
Definition try_except_Exception {W A : Type} (body : M W A)
    (handler : exn -> M W A) : M W A :=
  fun w =>
    match body w with
    | (Returned a, w1, t1) => (Returned a, w1, t1)
    | (Raised e, w1, t1) =>
        if isinstance_Exception e then
          match handler e w1 with
          | (r, w2, t2) => (r, w2, t1 ++ t2)
          end
        else (Raised e, w1, t1)
    end.

(** A value computed without a library call, or the exception it raises. *)
Definition lift {W A : Type} (o : outcome A) : M W A :=
  fun w => (o, w, []).

Definition emit {W : Type} (e : event) : M W unit :=
  fun w => (Returned tt, w, [e]).

Definition raised_of {A : Type} (o : outcome A) : option exn :=
  match o with
  | Returned _ => None
  | Raised e => Some e
  end.

(** A library call that reaches the outside world: entered, answered. *)
Definition invoke {W A : Type} (c : call) (f : W -> outcome A * W) : M W A :=
  fun w =>
    match f w with
    | (o, w1) => (o, w1, [Invoke c; Finish c (raised_of o)])
    end.

(** A library call that is a function of its arguments. *)
Definition invoke_pure {W A : Type} (c : call) (o : outcome A) : M W A :=
  fun w => (o, w, [Invoke c; Finish c (raised_of o)]).

Declare Scope nb_scope.
Delimit Scope nb_scope with nb.
Notation "x <- m ;; k" := (bind m (fun x => k))
  (at level 100, m at next level, right associativity) : nb_scope.
Notation "m ;;; k" := (bind m (fun _ => k))
  (at level 100, right associativity) : nb_scope.
Local Open Scope nb_scope.

(** [for x in xs: body x] *)
Fixpoint for_each {W A : Type} (xs : list A) (body : A -> M W unit) : M W unit :=
  match xs with
  | [] => ret tt
  | x :: rest => body x ;;; for_each rest body
  end.

(** [series.apply(f)]: [f] on each value in index order. *)
Fixpoint apply {W : Type} (f : pyval -> M W pyval) (col : list pyval)
    : M W (list pyval) :=
  match col with
  | [] => ret []
  | v :: rest =>
      y <- f v ;;
      ys <- apply f rest ;;
      ret (y :: ys)
  end.

(** [xs[i]] on a list. *)
Definition list_getitem {A : Type} (xs : list A) (i : nat) : outcome A :=
  match nth_error xs i with
  | Some x => Returned x
  | None => Raised (IndexError "list index out of range")
  end.

(** [d[key]] on a dict. *)
Definition dict_getitem (d : list (string * pyval)) (key : string) : outcome pyval :=
  match assoc key d with
  | Some x => Returned x
  | None => Raised (KeyError key)
  end.

(** [enumerate(xs)] *)
Definition enumerate {A : Type} (xs : list A) : list (nat * A) :=
  combine (seq 0 (List.length xs)) xs.

(* ================================================================== *)
(** ** The notebook *)

Definition EMBEDDING_MODEL : string := "text-embedding-ada-002".

Definition embeddings_url : string :=
  "https://cdn.openai.com/API/examples/data/vector_database_wikipedia_articles_embedded.zip".

(** [qdrant = qdrant_client.QdrantClient(host="localhost", port=6333)] *)
Definition qdrant : QdrantClient := mkClient "localhost" 6333.

Section Notebook.

Context {W : Type} (env : Env W).

(** A [!command] line: the shell runs it; its exit status raises nothing. *)
Definition shell (cmd : string) : M W unit :=
  invoke (Shell cmd) (fun w => (Returned tt, env_shell env cmd w)).

(** *** Load data *)

(** [wget.download(embeddings_url)]; the cell shows the file name it gets. *)
Definition download_data : M W unit :=
  name <- invoke (wget_download embeddings_url)
            (env_wget_download env embeddings_url) ;;
  emit (Display (ShowStr name)).

(** [with zipfile.ZipFile(..., "r") as zip_ref: zip_ref.extractall("../data")] *)
Definition extract_data : M W unit :=
  invoke (ZipFile_extractall "vector_database_wikipedia_articles_embedded.zip" "../data")
    (env_extractall env "vector_database_wikipedia_articles_embedded.zip" "../data").

(** [article_df = pd.read_csv(...)] *)
Definition load_data : M W DataFrame :=
  invoke (pd_read_csv "../data/vector_database_wikipedia_articles_embedded.csv")
    (env_read_csv env "../data/vector_database_wikipedia_articles_embedded.csv").

Definition literal_eval (cell : pyval) : M W pyval :=
  invoke_pure (ast_literal_eval cell) (env_literal_eval env cell).

Definition str (cell : pyval) : M W pyval :=
  ret (PyStr (env_str env cell)).

(** The cell that reads the vectors back from strings and turns
    [vector_id] into a string. *)
Definition parse_vectors (article_df : DataFrame) : M W DataFrame :=
  col <- lift (getattr article_df "title_vector") ;;
  parsed <- apply literal_eval col ;;
  let article_df := setitem article_df "title_vector" parsed in
  col <- lift (getattr article_df "content_vector") ;;
  parsed <- apply literal_eval col ;;
  let article_df := setitem article_df "content_vector" parsed in
  col <- lift (getitem article_df "vector_id") ;;
  strs <- apply str col ;;
  ret (setitem article_df "vector_id" strs).

(** *** Index data *)

(** The vector configuration both [recreate_collection] cells write out. *)
Definition vectors_config_of (vector_size : Z) : list (string * VectorParams) :=
  [("title", mkVectorParams COSINE vector_size);
   ("content", mkVectorParams COSINE vector_size)].

(** [vector_size = len(article_df['content_vector'][0])], then
    [qdrant.recreate_collection(collection_name='Articles', ...)]; the cell
    shows what the call returns. *)
Definition create_collection (article_df : DataFrame) : M W unit :=
  col <- lift (getitem article_df "content_vector") ;;
  first <- lift (column_at col 0) ;;
  vector_size <- lift (py_len first) ;;
  ok <- invoke (recreate_collection qdrant "Articles" (vectors_config_of vector_size))
          (env_recreate_collection env qdrant "Articles" (vectors_config_of vector_size)) ;;
  emit (Display (ShowBool ok)).

(** The point the loop body writes for row [k], built from the row's
    fields in the order the source evaluates them. *)
Definition point_of_row (k : nat) (v : Series) : outcome PointStruct :=
  match row_getitem v "title_vector" with
  | Raised e => Raised e
  | Returned title_vector =>
  match row_getitem v "content_vector" with
  | Raised e => Raised e
  | Returned content_vector =>
  match row_getitem v "id" with
  | Raised e => Raised e
  | Returned row_id =>
  match row_getitem v "title" with
  | Raised e => Raised e
  | Returned title =>
  match row_getitem v "url" with
  | Raised e => Raised e
  | Returned url =>
      Returned (mkPoint (PyInt (Z.of_nat k))
                  [("title", title_vector); ("content", content_vector)]
                  [("id", row_id); ("title", title); ("url", url)])
  end end end end end.

Definition validation (p : PointStruct) : outcome unit :=
  match env_validate env p with
  | None => Returned tt
  | Some e => Raised e
  end.

(** The body of the [try]: build the point, upsert it alone. *)
Definition upsert_row (k : nat) (v : Series) : M W unit :=
  p <- lift (point_of_row k v) ;;
  invoke_pure (PointStruct_init p) (validation p) ;;;
  invoke (upsert qdrant "Articles" [p]) (env_upsert env qdrant "Articles" [p]).

(** The [except Exception as e] clause: two lines of output. *)
Definition report_failure (k : nat) (v : Series) (e : exn) : M W unit :=
  emit (Print [Lit "Failed to upsert row "; Fmt (PyInt (Z.of_nat k)); Lit ": "; FmtRow v]) ;;;
  emit (Print [Lit "Exception: "; FmtExn e]).

(** [for k, v in tqdm(article_df.iterrows(), ...)]: the progress bar goes to
    stderr and is not part of the trace. *)
Definition index_articles (article_df : DataFrame) : M W unit :=
  for_each (iterrows article_df)
    (fun kv => try_except_Exception (upsert_row (fst kv) (snd kv))
                 (report_failure (fst kv) (snd kv))).

(** *** Search data *)

(** [def query_qdrant(query, collection_name, vector_name='title', top_k=20)];
    an argument left out is [None] here and takes its default. *)
Definition query_qdrant (query collection_name : string)
    (vector_name : option string) (top_k : option Z) : M W (list ScoredPoint) :=
  let vector_name := match vector_name with Some n => n | None => "title" end in
  let top_k := match top_k with Some k => k | None => 20%Z end in
  response <- invoke (embeddings_create query EMBEDDING_MODEL)
                (env_embeddings_create env query EMBEDDING_MODEL) ;;
  first <- lift (list_getitem (data response) 0) ;;
  let embedded_query := embedding first in
  query_results <- invoke (search qdrant collection_name (vector_name, embedded_query) top_k None)
                     (env_search env qdrant collection_name (vector_name, embedded_query) top_k None) ;;
  ret query_results.

(** One line of the result listing. *)
Definition print_result (i : nat) (article : ScoredPoint) : M W unit :=
  title <- lift (dict_getitem (sp_payload article) "title") ;;
  url <- lift (dict_getitem (sp_payload article) "url") ;;
  emit (Print [Fmt (PyInt (Z.of_nat i + 1)); Lit ". "; Fmt title; Lit ", URL: "; Fmt url;
               Lit " (Score: "; Fmt (PyFloat (env_round env (score article) 3)); Lit ")"]).

(** A search cell: query, then one line per result. *)
Definition search_cell (query vector_name : string) : M W unit :=
  query_results <- query_qdrant query "Articles" (Some vector_name) None ;;
  for_each (enumerate query_results) (fun ia => print_result (fst ia) (snd ia)).

(** *** The cells in order *)

Definition notebook : M W unit :=
  shell "pip install qdrant-client" ;;;
  download_data ;;;
  extract_data ;;;
  article_df <- load_data ;;
  emit (Display (ShowFrame (head article_df))) ;;;
  article_df <- parse_vectors article_df ;;
  emit (Display (ShowInfo (info article_df))) ;;;
  shell "docker compose up -d" ;;;
  names <- invoke (get_collections qdrant) (env_get_collections env qdrant) ;;
  emit (Display (ShowCollections names)) ;;;
  create_collection article_df ;;;
  create_collection article_df ;;;
  index_articles article_df ;;;
  n <- invoke (count qdrant "Articles") (env_count env qdrant "Articles") ;;
  emit (Display (ShowCount n)) ;;;
  search_cell "modern art in Europe" "title" ;;;
  search_cell "Famous battles in Scottish history" "content".

End Notebook.

(* ================================================================== *)
(** ** Reading a run *)

Definition result_of {W A : Type} (x : outcome A * W * trace) : outcome A :=
  fst (fst x).

Definition world_of {W A : Type} (x : outcome A * W * trace) : W :=
  snd (fst x).

Definition trace_of {W A : Type} (x : outcome A * W * trace) : trace :=
  snd x.

(** The upsert requests of a trace, in the order issued. *)
Fixpoint upsert_requests (t : trace) : list (QdrantClient * string * list PointStruct) :=
  match t with
  | [] => []
  | Invoke (upsert q c ps) :: rest => (q, c, ps) :: upsert_requests rest
  | _ :: rest => upsert_requests rest
  end.

(** The calls of a trace, entered and answered, without what was printed
    or shown. *)
Definition is_call_event (e : event) : bool :=
  match e with
  | Invoke _ | Finish _ _ => true
  | Print _ | Display _ => false
  end.

Definition calls (t : trace) : trace := filter is_call_event t.

(** Calls entered and not yet answered at the end of a trace, and the most
    there ever were along it, starting from [cur]. *)
Definition delta (e : event) : Z :=
  match e with
  | Invoke _ => 1
  | Finish _ _ => -1
  | _ => 0
  end.

Fixpoint in_flight (cur : Z) (t : trace) : Z :=
  match t with
  | [] => cur
  | e :: rest => in_flight (cur + delta e) rest
  end.

Fixpoint peak_in_flight (cur : Z) (t : trace) : Z :=
  match t with
  | [] => cur
  | e :: rest => Z.max cur (peak_in_flight (cur + delta e) rest)
  end.

(** The one loop iteration of the indexing cell. *)
Definition attempt {W : Type} (env : Env W) (kv : nat * Series) : M W unit :=
  try_except_Exception (upsert_row env (fst kv) (snd kv))
    (report_failure (fst kv) (snd kv)).

(** The request an iteration issues, when it gets as far as issuing one. *)
Definition requested {W : Type} (env : Env W) (kv : nat * Series)
    : list (QdrantClient * string * list PointStruct) :=
  match point_of_row (fst kv) (snd kv) with
  | Returned p =>
      match env_validate env p with
      | None => [(qdrant, "Articles", [p])]
      | Some _ => []
      end
  | Raised _ => []
  end.

(** [df[name][k]] without the exceptions: the cell of a column that exists. *)
Definition cell (df : DataFrame) (name : string) (k : nat) : pyval :=
  match assoc name (df_columns df) with
  | Some col => nth k col PyNone
  | None => PyNone
  end.

(** The point of row [k] of a frame that has the five columns read. *)
Definition article_point (df : DataFrame) (k : nat) : PointStruct :=
  mkPoint (PyInt (Z.of_nat k))
    [("title", cell df "title_vector" k); ("content", cell df "content_vector" k)]
    [("id", cell df "id" k); ("title", cell df "title" k); ("url", cell df "url" k)].

Definition has_column (df : DataFrame) (name : string) : Prop :=
  In name (column_names df).

(** The two lines the handler prints. *)
Definition failure_lines (k : nat) (v : Series) (e : exn) : trace :=
  [Print [Lit "Failed to upsert row "; Fmt (PyInt (Z.of_nat k)); Lit ": "; FmtRow v];
   Print [Lit "Exception: "; FmtExn e]].

(** The events of a [try] body that got as far as the upsert call. *)
Definition upsert_events (p : PointStruct) (raised : option exn) : trace :=
  [Invoke (PointStruct_init p); Finish (PointStruct_init p) None;
   Invoke (upsert qdrant "Articles" [p]); Finish (upsert qdrant "Articles" [p]) raised].


(** A property of traces that every run of [m] has. *)
Definition always {W A : Type} (P : trace -> Prop) (m : M W A) : Prop :=
  forall w, P (trace_of (m w)).

(** One call at a time: no call is left unanswered at the end, and never
    is more than one entered and unanswered. *)
Definition serial (t : trace) : Prop :=
  in_flight 0 t = 0%Z /\ (peak_in_flight 0 t <= 1)%Z.

(** The calls made inside the [try] of the indexing loop; no other call of
    the notebook has a handler around it. *)
Definition in_try (c : call) : bool :=
  match c with
  | PointStruct_init _ | upsert _ _ _ => true
  | _ => false
  end.

(** An exception raised by call [c] meets a handler that takes it. *)
Definition caught (c : call) (e : exn) : bool :=
  in_try c && isinstance_Exception e.

Definition handled (ev : event) : Prop :=
  match ev with
  | Finish c (Some e) => caught c e = true
  | _ => True
  end.

(** Every exception a call of the trace raised was caught. *)
Definition clean (t : trace) : Prop := Forall handled t.

(** A run in which no exception is lost: what a call raised was caught,
    unless it is the last thing that happened and the outcome of the run. *)
Definition propagates {A : Type} (r : outcome A) (t : trace) : Prop :=
  clean t \/
  exists c e pre,
    t = pre ++ [Finish c (Some e)] /\ clean pre /\ caught c e = false /\
    r = Raised e.

Definition propagating {W A : Type} (m : M W A) : Prop :=
  forall w, propagates (result_of (m w)) (trace_of (m w)).

(** The steps of the pipeline, in the order its description lists them. *)
Inductive step : Type :=
| Download
| Extract
| Parse
| CreateCollection
| UpsertRows
| Query
| PrintResults.

Definition rank (s : step) : nat :=
  match s with
  | Download => 1
  | Extract => 2
  | Parse => 3
  | CreateCollection => 4
  | UpsertRows => 5
  | Query => 6
  | PrintResults => 7
  end.

(** The step an event belongs to.  Reading the CSV and evaluating its
    vector strings is parsing; building a point, upserting it and the
    handler's two lines are the upsert step; embedding the query text and
    searching is the query step; a printed line that starts with the
    result number is a result line.  Shell commands, counting, listing
    the collections and what cells show belong to no step. *)
Definition step_of (e : event) : option step :=
  match e with
  | Invoke c | Finish c _ =>
      match c with
      | wget_download _ => Some Download
      | ZipFile_extractall _ _ => Some Extract
      | pd_read_csv _ | ast_literal_eval _ => Some Parse
      | recreate_collection _ _ _ => Some CreateCollection
      | PointStruct_init _ | upsert _ _ _ => Some UpsertRows
      | embeddings_create _ _ | search _ _ _ _ _ => Some Query
      | Shell _ | get_collections _ | count _ _ => None
      end
  | Print (Lit _ :: _) => Some UpsertRows
  | Print (_ :: _) => Some PrintResults
  | Print [] => None
  | Display _ => None
  end.

Definition steps (t : trace) : list step :=
  flat_map (fun e => match step_of e with Some s => [s] | None => [] end) t.

(** Each step of the list stands in relation [R] to the one after it. *)
Fixpoint in_order (R : step -> step -> bool) (l : list step) : bool :=
  match l with
  | [] => true
  | a :: rest =>
      match rest with
      | [] => true
      | b :: _ => R a b && in_order R rest
      end
  end.

(** No later step before an earlier one. *)
Definition never_back (a b : step) : bool := Nat.leb (rank a) (rank b).

(** The one way back: from printing results to the next query. *)
Definition next_query (a b : step) : bool :=
  match a, b with
  | PrintResults, Query => true
  | _, _ => false
  end.

Definition back_only_to_query (a b : step) : bool :=
  never_back a b || next_query a b.

(** The events of a trace belong to no step, or to a step in [S]. *)
Definition only (S : step -> bool) (t : trace) : Prop :=
  Forall (fun e => match step_of e with Some s => S s = true | None => True end) t.

Definition is_step (s : step) (x : step) : bool := Nat.eqb (rank s) (rank x).

Definition no_step (x : step) : bool := false.

Definition query_or_print (x : step) : bool :=
  match x with
  | Query | PrintResults => true
  | _ => false
  end.

(** The steps of a trace lie between two ranks and are in order, going
    back only from printing to the next query. *)
Definition staged (lo hi : nat) (t : trace) : Prop :=
  Forall (fun s => lo <= rank s <= hi) (steps t) /\
  in_order back_only_to_query (steps t) = true.

(** The values of a column, none when the frame has no such column. *)
Definition column (df : DataFrame) (name : string) : list pyval :=
  match assoc name (df_columns df) with
  | Some col => col
  | None => []
  end.

(** A cell that holds a list of floats. *)
Definition is_float_list (v : pyval) : Prop :=
  exists fs : list spec_float, v = PyList (map PyFloat fs).

(** A cell that holds a string. *)
Definition is_str (v : pyval) : Prop := exists s : string, v = PyStr s.

(** The events of [literal_eval] over a column that parses. *)
Definition literal_eval_events (col : list pyval) : trace :=
  flat_map (fun v => [Invoke (ast_literal_eval v); Finish (ast_literal_eval v) None]) col.

(** A search service that returns no more hits than the limit it is given. *)
Definition honours_limit {W : Type} (env : Env W) : Prop :=
  forall q c qv limit f w results w1,
    env_search env q c qv limit f w = (Returned results, w1) ->
    (Z.of_nat (List.length results) <= limit)%Z.

(* ================================================================== *)
(** ** A simulated environment

    An in-memory stand-in for the libraries, used to run the notebook on
    concrete data: the world is the content of the one collection. *)

Module Sim.

Definition half : spec_float := S754_finite false 1 (-1).
Definition quarter : spec_float := S754_finite false 1 (-2).

(** Three rows of the dataset, as the CSV has them before parsing. *)
Definition sample_csv : DataFrame :=
  mkDF 3
    [("id", [PyInt 1; PyInt 2; PyInt 6]);
     ("url", [PyStr "https://simple.wikipedia.org/wiki/April";
              PyStr "https://simple.wikipedia.org/wiki/August";
              PyStr "https://simple.wikipedia.org/wiki/Art"]);
     ("title", [PyStr "April"; PyStr "August"; PyStr "Art"]);
     ("text", [PyStr "April is the fourth month of the year";
               PyStr "August is the eighth month of the year";
               PyStr "Art is a creative activity"]);
     ("title_vector", [PyStr "[0.5, 0.25]"; PyStr "[0.25, 0.5]"; PyStr "[0.5, 0.5]"]);
     ("content_vector", [PyStr "[0.25, 0.25]"; PyStr "[0.5, 0.25]"; PyStr "[0.25, 0.5]"]);
     ("vector_id", [PyInt 0; PyInt 1; PyInt 2])].

Definition ValueError (msg : string) : exn := mkExn "ValueError" FromException msg.

(** [literal_eval] on the strings of the sample. *)
Definition literal_eval (v : pyval) : outcome pyval :=
  match v with
  | PyStr s =>
      if String.eqb s "[0.5, 0.25]" then Returned (PyList [PyFloat half; PyFloat quarter])
      else if String.eqb s "[0.25, 0.5]" then Returned (PyList [PyFloat quarter; PyFloat half])
      else if String.eqb s "[0.5, 0.5]" then Returned (PyList [PyFloat half; PyFloat half])
      else if String.eqb s "[0.25, 0.25]" then Returned (PyList [PyFloat quarter; PyFloat quarter])
      else Raised (ValueError "malformed node or string")
  | _ => Raised (ValueError "malformed node or string")
  end.

Definition str (v : pyval) : string :=
  match v with
  | PyInt z => NilZero.string_of_int (Z.to_int z)
  | PyStr s => s
  | _ => ""
  end.

Definition scored (p : PointStruct) : ScoredPoint :=
  mkScored (id p) half (payload p).

(** The environment; [fault] says which points the server refuses to
    upsert, and with what exception. *)
Definition env (fault : PointStruct -> option exn) : Env (list PointStruct) :=
  {| env_shell := fun _ w => w;
     env_wget_download := fun _ w =>
       (Returned "vector_database_wikipedia_articles_embedded.zip", w);
     env_extractall := fun _ _ w => (Returned tt, w);
     env_read_csv := fun _ w => (Returned sample_csv, w);
     env_literal_eval := literal_eval;
     env_str := str;
     env_round := fun x _ => x;
     env_get_collections := fun _ w => (Returned ["Articles"], w);
     env_recreate_collection := fun _ _ _ _ => (Returned true, []);
     env_validate := fun _ => None;
     env_upsert := fun _ _ ps w =>
       match ps with
       | p :: _ =>
           match fault p with
           | Some e => (Raised e, w)
           | None => (Returned tt, w ++ ps)
           end
       | [] => (Returned tt, w)
       end;
     env_count := fun _ _ w => (Returned (Z.of_nat (List.length w)), w);
     env_embeddings_create := fun _ _ w =>
       (Returned (mkResponse [mkEmbedding [half; quarter]]), w);
     env_search := fun _ _ _ limit _ w =>
       if (0 <? limit)%Z
       then (Returned (firstn (Z.to_nat limit) (map scored w)), w)
       else (Raised (ValueError "limit"), w) |}.

(** A server that takes everything. *)
Definition no_fault (p : PointStruct) : option exn := None.

(** A server that refuses the point of row 0 with [e]. *)
Definition fault_on_first (e : exn) (p : PointStruct) : option exn :=
  match id p with
  | PyInt 0 => Some e
  | _ => None
  end.

Definition ConnectionError : exn := mkExn "ConnectionError" FromException "refused".

(** The sample after the parsing cell. *)
Definition sample_df : DataFrame :=
  mkDF 3
    [("id", [PyInt 1; PyInt 2; PyInt 6]);
     ("url", [PyStr "https://simple.wikipedia.org/wiki/April";
              PyStr "https://simple.wikipedia.org/wiki/August";
              PyStr "https://simple.wikipedia.org/wiki/Art"]);
     ("title", [PyStr "April"; PyStr "August"; PyStr "Art"]);
     ("text", [PyStr "April is the fourth month of the year";
               PyStr "August is the eighth month of the year";
               PyStr "Art is a creative activity"]);
     ("title_vector", [PyList [PyFloat half; PyFloat quarter];
                       PyList [PyFloat quarter; PyFloat half];
                       PyList [PyFloat half; PyFloat half]]);
     ("content_vector", [PyList [PyFloat quarter; PyFloat quarter];
                         PyList [PyFloat half; PyFloat quarter];
                         PyList [PyFloat quarter; PyFloat half]]);
     ("vector_id", [PyStr "0"; PyStr "1"; PyStr "2"])].

(** Title vectors of another length than the content vectors. *)
Definition short_titles : list pyval :=
  [PyList [PyFloat half]; PyList [PyFloat quarter]; PyList [PyFloat half]].

Definition mismatched_df : DataFrame := setitem sample_df "title_vector" short_titles.

(** Other values for the vector_id column. *)
Definition other_vector_ids : list pyval := [PyStr "a"; PyStr "b"; PyStr "c"].

(** A collection that holds the three points of the sample. *)
Definition indexed : list PointStruct :=
  [article_point sample_df 0; article_point sample_df 1; article_point sample_df 2].

End Sim.

(* ================================================================== *)
(** ** Further readings of a run *)

(** How many events of a trace pass a test. *)
Definition count_if (f : event -> bool) (t : trace) : nat :=
  List.length (filter f t).

(** An upsert that was answered without an exception. *)
Definition is_upserted (e : event) : bool :=
  match e with
  | Finish (upsert _ _ _) None => true
  | _ => false
  end.

(** The first of the two lines the handler prints. *)
Definition is_failure_report (e : event) : bool :=
  match e with
  | Print (Lit s :: _) => String.eqb s "Failed to upsert row "
  | _ => false
  end.

(** [article.payload[key]] for a key the payload has. *)
Definition payload_entry (article : ScoredPoint) (key : string) : pyval :=
  match assoc key (sp_payload article) with
  | Some x => x
  | None => PyNone
  end.

(** The line a search cell prints for the hit at position [i]. *)
Definition result_line {W : Type} (env : Env W) (i : nat) (article : ScoredPoint) : event :=
  Print [Fmt (PyInt (Z.of_nat i + 1)); Lit ". "; Fmt (payload_entry article "title");
         Lit ", URL: "; Fmt (payload_entry article "url");
         Lit " (Score: "; Fmt (PyFloat (env_round env (score article) 3)); Lit ")"].

(** A hit whose payload has the two keys a search cell prints. *)
Definition printable (article : ScoredPoint) : Prop :=
  In "title" (map fst (sp_payload article)) /\ In "url" (map fst (sp_payload article)).

(** The collection and the vector names a call to Qdrant goes to. *)
Definition on_articles (c : call) : Prop :=
  match c with
  | get_collections q => q = qdrant
  | recreate_collection q name cfg =>
      q = qdrant /\ name = "Articles" /\ map fst cfg = ["title"; "content"]
  | upsert q name _ => q = qdrant /\ name = "Articles"
  | count q name => q = qdrant /\ name = "Articles"
  | search q name qv _ _ =>
      q = qdrant /\ name = "Articles" /\ In (fst qv) ["title"; "content"]
  | _ => True
  end.

Definition targets_articles (e : event) : Prop :=
  match e with
  | Invoke c | Finish c _ => on_articles c
  | _ => True
  end.

(** The files a call reads or writes. *)
Definition on_fixed_files (c : call) : Prop :=
  match c with
  | wget_download url => url = embeddings_url
  | ZipFile_extractall archive path =>
      archive = "vector_database_wikipedia_articles_embedded.zip" /\ path = "../data"
  | pd_read_csv path =>
      path = "../data/vector_database_wikipedia_articles_embedded.csv"
  | _ => True
  end.

Definition uses_fixed_files (e : event) : Prop :=
  match e with
  | Invoke c | Finish c _ => on_fixed_files c
  | _ => True
  end.

(** The ids of the points a trace upserts, in the order sent. *)
Definition request_ids (t : trace) : list pyval :=
  flat_map (fun r => map id (snd r)) (upsert_requests t).

(** More simulated data. *)
Module Cases.


(** The sample as the CSV has it, without its title_vector column. *)
Definition no_title_vector_csv : DataFrame :=
  mkDF 3
    [("id", [PyInt 1; PyInt 2; PyInt 6]);
     ("content_vector", column Sim.sample_csv "content_vector");
     ("vector_id", [PyInt 0; PyInt 1; PyInt 2])].

(** The sample as the CSV has it, without its vector_id column. *)
Definition no_vector_id_csv : DataFrame :=
  mkDF 3
    [("title_vector", column Sim.sample_csv "title_vector");
     ("content_vector", column Sim.sample_csv "content_vector")].

(** The sample as the CSV has it, the second title vector damaged. *)
Definition damaged_csv : DataFrame :=
  setitem Sim.sample_csv "title_vector"
    [PyStr "[0.5, 0.25]"; PyStr "[0.25, "; PyStr "[0.5, 0.5]"].

(** A frame with no rows, and one whose first content cell is a number. *)
Definition empty_df : DataFrame :=
  mkDF 0 [("title_vector", []); ("content_vector", [])].

Definition unsized_df : DataFrame :=
  mkDF 1 [("title_vector", [PyList []]); ("content_vector", [PyInt 7])].

(** An embeddings service that is down, and one that answers with no
    embedding. *)
Definition api_down (e : exn) : Env (list PointStruct) :=
  {| env_shell := env_shell (Sim.env Sim.no_fault);
     env_wget_download := env_wget_download (Sim.env Sim.no_fault);
     env_extractall := env_extractall (Sim.env Sim.no_fault);
     env_read_csv := env_read_csv (Sim.env Sim.no_fault);
     env_literal_eval := Sim.literal_eval;
     env_str := Sim.str;
     env_round := fun x _ => x;
     env_get_collections := env_get_collections (Sim.env Sim.no_fault);
     env_recreate_collection := env_recreate_collection (Sim.env Sim.no_fault);
     env_validate := fun _ => None;
     env_upsert := env_upsert (Sim.env Sim.no_fault);
     env_count := env_count (Sim.env Sim.no_fault);
     env_embeddings_create := fun _ _ w => (Raised e, w);
     env_search := env_search (Sim.env Sim.no_fault) |}.

Definition api_empty : Env (list PointStruct) :=
  {| env_shell := env_shell (Sim.env Sim.no_fault);
     env_wget_download := env_wget_download (Sim.env Sim.no_fault);
     env_extractall := env_extractall (Sim.env Sim.no_fault);
     env_read_csv := env_read_csv (Sim.env Sim.no_fault);
     env_literal_eval := Sim.literal_eval;
     env_str := Sim.str;
     env_round := fun x _ => x;
     env_get_collections := env_get_collections (Sim.env Sim.no_fault);
     env_recreate_collection := env_recreate_collection (Sim.env Sim.no_fault);
     env_validate := fun _ => None;
     env_upsert := env_upsert (Sim.env Sim.no_fault);
     env_count := env_count (Sim.env Sim.no_fault);
     env_embeddings_create := fun _ _ w => (Returned (mkResponse []), w);
     env_search := env_search (Sim.env Sim.no_fault) |}.

(** A collection whose second point has no title in its payload. *)
Definition untitled : PointStruct :=
  mkPoint (PyInt 1) [("title", PyList []); ("content", PyList [])]
    [("id", PyInt 2); ("url", PyStr "https://simple.wikipedia.org/wiki/August")].

Definition partly_titled : list PointStruct :=
  [article_point Sim.sample_df 0; untitled; article_point Sim.sample_df 2].

(** A server that refuses the point with a given id. *)
Definition fault_on (label : Z) (e : exn) (p : PointStruct) : option exn :=
  match id p with
  | PyInt z => if Z.eqb z label then Some e else None
  | _ => None
  end.

End Cases.

(* ================================================================== *)
(** ** The server behind the loop *)

(** The world after the points of the rows [ks] have been upserted one
    after the other, each request answered on the world the one before
    left. *)
Definition upsert_world {W : Type} (env : Env W) (df : DataFrame) (ks : list nat)
    (w : W) : W :=
  fold_left
    (fun w0 k => snd (env_upsert env qdrant "Articles" [article_point df k] w0)) ks w.

(** What the loop does for the rows [ks] of a frame whose points are
    built and accepted by the client: the events of each upsert as the
    server answers it, and the handler's two lines where it raises. *)
Fixpoint upsert_trace {W : Type} (env : Env W) (df : DataFrame) (ks : list nat)
    (w : W) : trace :=
  match ks with
  | [] => []
  | k :: rest =>
      upsert_events (article_point df k)
        (raised_of (fst (env_upsert env qdrant "Articles" [article_point df k] w)))
      ++ match fst (env_upsert env qdrant "Articles" [article_point df k] w) with
         | Raised e => failure_lines k (row_at df k) e
         | Returned _ => []
         end
      ++ upsert_trace env df rest
           (snd (env_upsert env qdrant "Articles" [article_point df k] w))
  end.

(** A server that keeps what it is given: the points of an upsert it
    answers without an exception are held afterwards, and an upsert,
    answered or refused, leaves the points with other ids where they
    are.  [holds w p] says that the collection holds [p] in world [w]. *)
Definition keeps_points {W : Type} (env : Env W) (holds : W -> PointStruct -> Prop)
    : Prop :=
  forall q c ps w o w',
    env_upsert env q c ps w = (o, w') ->
    (o = Returned tt -> forall p, In p ps -> holds w' p) /\
    (forall p, holds w p -> (forall p', In p' ps -> id p' <> id p) -> holds w' p).

(** A server that refuses nothing. *)
Definition accepts_all {W : Type} (env : Env W) : Prop :=
  forall q c ps w, fst (env_upsert env q c ps w) = Returned tt.

(* ================================================================== *)
(** ** Completed runs *)

(** A run of the notebook from [w] to [w'] with trace [t] in which every
    cell ran and returned, each on the world the one before left.  [csv]
    is the frame read, [df] the frame the parsing cell made of it, and the
    four traces are those of the parsing cell, of the indexing loop and of
    the two search cells. *)
Definition ran_every_cell {W : Type} (env : Env W) (w w' : W) (t : trace)
    (csv df : DataFrame) (t_parse t_index t_first t_second : trace) : Prop :=
  exists (t_download t_create1 t_create2 : trace) (names : list string) (n : Z)
         (w2 w3 w4 w5 w7 w8 w9 w10 w11 w12 : W),
    download_data env (env_shell env "pip install qdrant-client" w)
    = (Returned tt, w2, t_download) /\
    env_extractall env "vector_database_wikipedia_articles_embedded.zip" "../data" w2
    = (Returned tt, w3) /\
    env_read_csv env "../data/vector_database_wikipedia_articles_embedded.csv" w3
    = (Returned csv, w4) /\
    parse_vectors env csv w4 = (Returned df, w5, t_parse) /\
    env_get_collections env qdrant (env_shell env "docker compose up -d" w5)
    = (Returned names, w7) /\
    create_collection env df w7 = (Returned tt, w8, t_create1) /\
    create_collection env df w8 = (Returned tt, w9, t_create2) /\
    index_articles env df w9 = (Returned tt, w10, t_index) /\
    env_count env qdrant "Articles" w10 = (Returned n, w11) /\
    search_cell env "modern art in Europe" "title" w11 = (Returned tt, w12, t_first) /\
    search_cell env "Famous battles in Scottish history" "content" w12
    = (Returned tt, w', t_second) /\
    t = [Invoke (Shell "pip install qdrant-client");
         Finish (Shell "pip install qdrant-client") None]
        ++ t_download
        ++ [Invoke (ZipFile_extractall "vector_database_wikipedia_articles_embedded.zip"
                      "../data");
            Finish (ZipFile_extractall "vector_database_wikipedia_articles_embedded.zip"
                      "../data") None;
            Invoke (pd_read_csv "../data/vector_database_wikipedia_articles_embedded.csv");
            Finish (pd_read_csv "../data/vector_database_wikipedia_articles_embedded.csv")
              None;
            Display (ShowFrame (head csv))]
        ++ t_parse
        ++ [Display (ShowInfo (info df));
            Invoke (Shell "docker compose up -d");
            Finish (Shell "docker compose up -d") None;
            Invoke (get_collections qdrant); Finish (get_collections qdrant) None;
            Display (ShowCollections names)]
        ++ t_create1 ++ t_create2 ++ t_index
        ++ [Invoke (count qdrant "Articles"); Finish (count qdrant "Articles") None;
            Display (ShowCount n)]
        ++ t_first ++ t_second.

(* ================================================================== *)
(** ** The notebook, cell by cell *)

(** What the cells share: the frame bound to [article_df], once the
    reading cell has run. *)
Definition namespace : Type := option DataFrame.

Definition NameError (name : string) : exn := mkExn "NameError" FromException name.

(** The value of [article_df] in a cell that uses it. *)
Definition bound {W : Type} (s : namespace) : M W DataFrame :=
  lift (match s with
        | Some df => Returned df
        | None => Raised (NameError "article_df")
        end).

Definition code_cell (W : Type) : Type := namespace -> M W namespace.

(** A cell that leaves [article_df] alone, one that binds it, one that
    reads it and one that binds it anew. *)
Definition keep {W X : Type} (m : M W X) : code_cell W :=
  fun s => m ;;; ret s.

Definition binding {W : Type} (m : M W DataFrame) : code_cell W :=
  fun _ => df <- m ;; ret (Some df).

Definition reading {W X : Type} (f : DataFrame -> M W X) : code_cell W :=
  fun s => df <- bound s ;; f df ;;; ret s.

Definition rebinding {W : Type} (f : DataFrame -> M W DataFrame) : code_cell W :=
  fun s => df <- bound s ;; df' <- f df ;; ret (Some df').

(** The code cells of the notebook that do something, in order. *)
Definition cells {W : Type} (env : Env W) : list (code_cell W) :=
  [keep (shell env "pip install qdrant-client");
   keep (download_data env);
   keep (extract_data env);
   binding (load_data env);
   reading (fun df => emit (Display (ShowFrame (head df))));
   rebinding (parse_vectors env);
   reading (fun df => emit (Display (ShowInfo (info df))));
   keep (shell env "docker compose up -d");
   keep (names <- invoke (get_collections qdrant) (env_get_collections env qdrant) ;;
         emit (Display (ShowCollections names)));
   reading (create_collection env);
   reading (create_collection env);
   reading (index_articles env);
   keep (n <- invoke (count qdrant "Articles") (env_count env qdrant "Articles") ;;
         emit (Display (ShowCount n)));
   keep (search_cell env "modern art in Europe" "title");
   keep (search_cell env "Famous battles in Scottish history" "content")].

(** Running cells one after the other. *)
Fixpoint run_cells {W : Type} (cs : list (code_cell W)) (s : namespace) : M W namespace :=
  match cs with
  | [] => ret s
  | c :: rest => s' <- c s ;; run_cells rest s'
  end.

(** A run, without the value it returns. *)
Definition finished {W A : Type} (x : outcome A * W * trace) : outcome unit * W * trace :=
  match x with
  | (Returned _, w, t) => (Returned tt, w, t)
  | (Raised e, w, t) => (Raised e, w, t)
  end.

(** A reading of an empty CSV, with a server that refuses the point of
    row 0. *)
Module Empty.

Definition no_rows_csv : DataFrame :=
  mkDF 0 [("id", []); ("url", []); ("title", []); ("text", []);
          ("title_vector", []); ("content_vector", []); ("vector_id", [])].

Definition env : Env (list PointStruct) :=
  {| env_shell := env_shell (Sim.env Sim.no_fault);
     env_wget_download := env_wget_download (Sim.env Sim.no_fault);
     env_extractall := env_extractall (Sim.env Sim.no_fault);
     env_read_csv := fun _ w => (Returned no_rows_csv, w);
     env_literal_eval := Sim.literal_eval;
     env_str := Sim.str;
     env_round := fun x _ => x;
     env_get_collections := env_get_collections (Sim.env Sim.no_fault);
     env_recreate_collection := env_recreate_collection (Sim.env Sim.no_fault);
     env_validate := fun _ => None;
     env_upsert := env_upsert (Sim.env (Sim.fault_on_first Sim.ConnectionError));
     env_count := env_count (Sim.env Sim.no_fault);
     env_embeddings_create := env_embeddings_create (Sim.env Sim.no_fault);
     env_search := env_search (Sim.env Sim.no_fault) |}.

End Empty.
(* ================================================================== *)
(** ** Basic facts *)

Lemma upsert_requests_app (t1 t2 : trace) :
  upsert_requests (t1 ++ t2) = upsert_requests t1 ++ upsert_requests t2.
Proof.
  induction t1 as [|e t1 IH]; simpl; [reflexivity|].
  destruct e as [c|c r|l|v]; try exact IH.
  destruct c; simpl; try exact IH.
  now rewrite IH.
Qed.

Lemma assoc_map_snd {A B : Type} (f : A -> B) (key : string) (l : list (string * A)) :
  assoc key (map (fun c => (fst c, f (snd c))) l) = option_map f (assoc key l).
Proof.
  induction l as [|[k a] l IH]; simpl; [reflexivity|].
  destruct (String.eqb k key); [reflexivity|exact IH].
Qed.

Lemma assoc_in_names {A : Type} (key : string) (l : list (string * A)) :
  In key (map fst l) -> exists a, assoc key l = Some a.
Proof.
  induction l as [|[k a] l IH]; simpl; [tauto|].
  intros [->|H].
  - rewrite String.eqb_refl. eauto.
  - destruct (String.eqb k key); eauto.
Qed.

Lemma assoc_some_in_names {A : Type} (key : string) (l : list (string * A)) (a : A) :
  assoc key l = Some a -> In key (map fst l).
Proof.
  induction l as [|[k b] l IH]; simpl; [discriminate|].
  destruct (String.eqb k key) eqn:E.
  - apply String.eqb_eq in E. now left.
  - intros H. right. now apply IH.
Qed.

Lemma row_getitem_row_at (df : DataFrame) (k : nat) (name : string) :
  has_column df name ->
  row_getitem (row_at df k) name = Returned (cell df name k).
Proof.
  intros H. unfold row_getitem, row_at, cell.
  rewrite (assoc_map_snd (fun col => nth k col PyNone)).
  destruct (assoc_in_names name (df_columns df) H) as [col ->].
  reflexivity.
Qed.

Lemma point_of_row_article (df : DataFrame) (k : nat) :
  has_column df "title_vector" -> has_column df "content_vector" ->
  has_column df "id" -> has_column df "title" -> has_column df "url" ->
  point_of_row k (row_at df k) = Returned (article_point df k).
Proof.
  intros H1 H2 H3 H4 H5. unfold point_of_row.
  rewrite !row_getitem_row_at by assumption.
  reflexivity.
Qed.

(** The lookups of the loop body raise nothing but [KeyError]. *)
Lemma point_of_row_raises (k : nat) (v : Series) (e : exn) :
  point_of_row k v = Raised e -> isinstance_Exception e = true.
Proof.
  unfold point_of_row, row_getitem.
  repeat match goal with
         | |- context [assoc ?n v] => destruct (assoc n v)
         end;
  intros H; inversion H; reflexivity.
Qed.

(** What a built point looks like, whatever the row. *)
Lemma point_of_row_shape (k : nat) (v : Series) (p : PointStruct) :
  point_of_row k v = Returned p ->
  id p = PyInt (Z.of_nat k) /\
  map fst (vector p) = ["title"; "content"] /\
  map fst (payload p) = ["id"; "title"; "url"] /\
  row_getitem v "title_vector" = dict_getitem (vector p) "title" /\
  row_getitem v "content_vector" = dict_getitem (vector p) "content" /\
  row_getitem v "id" = dict_getitem (payload p) "id" /\
  row_getitem v "title" = dict_getitem (payload p) "title" /\
  row_getitem v "url" = dict_getitem (payload p) "url".
Proof.
  unfold point_of_row.
  destruct (row_getitem v "title_vector") as [tv|] eqn:E1; [|discriminate].
  destruct (row_getitem v "content_vector") as [cv|] eqn:E2; [|discriminate].
  destruct (row_getitem v "id") as [i|] eqn:E3; [|discriminate].
  destruct (row_getitem v "title") as [ti|] eqn:E4; [|discriminate].
  destruct (row_getitem v "url") as [u|] eqn:E5; [|discriminate].
  intros H. inversion H. subst p. simpl.
  repeat split; reflexivity.
Qed.

Section Loop.

Context {W : Type} (env : Env W).

Lemma bind_returned {A B : Type} (m : M W A) (f : A -> M W B) (w w1 : W)
    (a : A) (t1 : trace) :
  m w = (Returned a, w1, t1) ->
  bind m f w = (let '(r, w2, t2) := f a w1 in (r, w2, t1 ++ t2)).
Proof. intros H. unfold bind. rewrite H. reflexivity. Qed.

Lemma bind_raised {A B : Type} (m : M W A) (f : A -> M W B) (w w1 : W)
    (e : exn) (t1 : trace) :
  m w = (Raised e, w1, t1) ->
  bind m f w = (Raised e, w1, t1).
Proof. intros H. unfold bind. rewrite H. reflexivity. Qed.

Lemma for_each_cons {A : Type} (x : A) (xs : list A) (body : A -> M W unit) (w : W) :
  for_each (x :: xs) body w =
  match body x w with
  | (Returned _, w1, t1) =>
      let '(r, w2, t2) := for_each xs body w1 in (r, w2, t1 ++ t2)
  | (Raised e, w1, t1) => (Raised e, w1, t1)
  end.
Proof.
  simpl. unfold bind. destruct (body x w) as [[[u|e] w1] t1]; reflexivity.
Qed.

Lemma for_each_app {A : Type} (xs ys : list A) (body : A -> M W unit) (w w1 : W)
    (t1 : trace) :
  for_each xs body w = (Returned tt, w1, t1) ->
  for_each (xs ++ ys) body w =
  (let '(r, w2, t2) := for_each ys body w1 in (r, w2, t1 ++ t2)).
Proof.
  revert w w1 t1. induction xs as [|x xs IH]; intros w w1 t1 H.
  - simpl in H. unfold ret in H. inversion H. subst.
    simpl. destruct (for_each ys body w1) as [[r w2] t2]. reflexivity.
  - simpl app. rewrite for_each_cons in *.
    destruct (body x w) as [[[u|e] wa] ta]; [|discriminate].
    destruct (for_each xs body wa) as [[r wb] tb] eqn:E.
    inversion H. subst r wb t1.
    rewrite (IH wa w1 tb E).
    destruct (for_each ys body w1) as [[r w2] t2].
    now rewrite app_assoc.
Qed.

(** One iteration, case by case. *)
Lemma attempt_run (kv : nat * Series) (w : W) :
  attempt env kv w =
  match point_of_row (fst kv) (snd kv) with
  | Raised e => (Returned tt, w, failure_lines (fst kv) (snd kv) e)
  | Returned p =>
      match env_validate env p with
      | Some e =>
          if isinstance_Exception e
          then (Returned tt, w,
                [Invoke (PointStruct_init p); Finish (PointStruct_init p) (Some e)]
                ++ failure_lines (fst kv) (snd kv) e)
          else (Raised e, w,
                [Invoke (PointStruct_init p); Finish (PointStruct_init p) (Some e)])
      | None =>
          match env_upsert env qdrant "Articles" [p] w with
          | (Returned _, w1) => (Returned tt, w1, upsert_events p None)
          | (Raised e, w1) =>
              if isinstance_Exception e
              then (Returned tt, w1,
                    upsert_events p (Some e) ++ failure_lines (fst kv) (snd kv) e)
              else (Raised e, w1, upsert_events p (Some e))
          end
      end
  end.
Proof.
  destruct kv as [k v]. simpl fst. simpl snd.
  unfold attempt, try_except_Exception, upsert_row, bind, lift, invoke_pure,
    invoke, validation. simpl fst. simpl snd.
  destruct (point_of_row k v) as [p|e] eqn:E.
  - destruct (env_validate env p) as [e|].
    + simpl. destruct (isinstance_Exception e); reflexivity.
    + destruct (env_upsert env qdrant "Articles" [p] w) as [[[]|e] w1].
      * reflexivity.
      * simpl. destruct (isinstance_Exception e); reflexivity.
  - rewrite (point_of_row_raises _ _ E). reflexivity.
Qed.

Lemma index_articles_unfold (df : DataFrame) :
  index_articles env df = for_each (iterrows df) (attempt env).
Proof. reflexivity. Qed.

(** The requests of one iteration. *)
Lemma attempt_requests (kv : nat * Series) (w : W) :
  upsert_requests (trace_of (attempt env kv w)) = requested env kv.
Proof.
  rewrite attempt_run. unfold requested.
  destruct (point_of_row (fst kv) (snd kv)) as [p|e]; [|reflexivity].
  destruct (env_validate env p) as [e|].
  - destruct (isinstance_Exception e); reflexivity.
  - destruct (env_upsert env qdrant "Articles" [p] w) as [[[]|e] w1];
      [reflexivity|].
    destruct (isinstance_Exception e); reflexivity.
Qed.

(** The requests of the loop are those of its iterations, in order, as far
    as the loop gets; all of them when it runs to its end. *)
Lemma loop_requests (rows : list (nat * Series)) (w : W) :
  exists done rest,
    rows = done ++ rest /\
    upsert_requests (trace_of (for_each rows (attempt env) w))
      = flat_map (requested env) done /\
    (result_of (for_each rows (attempt env) w) = Returned tt -> rest = []).
Proof.
  revert w. induction rows as [|kv rows IH]; intros w.
  - exists [], []. simpl. repeat split; reflexivity.
  - rewrite for_each_cons.
    pose proof (attempt_requests kv w) as Hreq.
    destruct (attempt env kv w) as [[[u|e] w1] t1]; simpl in Hreq.
    + destruct (IH w1) as (done & rest & -> & Hd & Hr).
      destruct (for_each (done ++ rest) (attempt env) w1) as [[r w2] t2].
      exists (kv :: done), rest. simpl in *.
      repeat split.
      * unfold trace_of in *. simpl in *.
        now rewrite upsert_requests_app, Hreq, Hd.
      * exact Hr.
    + exists [kv], rows. simpl. repeat split.
      * unfold trace_of. simpl. now rewrite app_nil_r.
      * unfold result_of. simpl. discriminate.
Qed.

End Loop.

(** The simulated run of the parsing cell gives the parsed sample. *)
Example parse_sample :
  result_of (parse_vectors (Sim.env Sim.no_fault) Sim.sample_csv []) = Returned Sim.sample_df.
Proof. vm_compute. reflexivity. Qed.

(* ================================================================== *)
(** ** The indexing loop *)

Lemma in_upsert_requests (t : trace) q c ps :
  In (Invoke (upsert q c ps)) t <-> In (q, c, ps) (upsert_requests t).
Proof.
  induction t as [|e t IH]; simpl; [tauto|].
  destruct e as [c0|c0 r|l|v]; try (rewrite <- IH; split; [intros [H|H]; [discriminate|exact H]|tauto]).
  destruct c0; try (rewrite <- IH; split; [intros [H|H]; [discriminate|exact H]|tauto]).
  simpl. rewrite <- IH. split.
  - intros [H|H]; [left; now inversion H|now right].
  - intros [H|H]; [left; now inversion H|now right].
Qed.

Lemma in_iterrows (df : DataFrame) (kv : nat * Series) :
  In kv (iterrows df) -> exists k, k < df_len df /\ kv = (k, row_at df k).
Proof.
  unfold iterrows. rewrite in_map_iff. intros (k & <- & Hk).
  apply in_seq in Hk. exists k. split; [lia|reflexivity].
Qed.

Section Requests.

Context {W : Type} (env : Env W).

Lemma requested_spec (kv : nat * Series) r :
  In r (requested env kv) ->
  exists p, r = (qdrant, "Articles", [p]) /\
            point_of_row (fst kv) (snd kv) = Returned p /\
            env_validate env p = None.
Proof.
  unfold requested.
  destruct (point_of_row (fst kv) (snd kv)) as [p|e]; [|intros []].
  destruct (env_validate env p) eqn:E; [intros []|].
  intros [<-|[]]. exists p. auto.
Qed.

(** Every request of the loop is the point of one row, alone. *)
Lemma loop_request_origin (df : DataFrame) (w : W) q c ps :
  In (Invoke (upsert q c ps)) (trace_of (index_articles env df w)) ->
  exists k p, k < df_len df /\ q = qdrant /\ c = "Articles" /\ ps = [p] /\
              point_of_row k (row_at df k) = Returned p.
Proof.
  rewrite in_upsert_requests, index_articles_unfold.
  destruct (loop_requests env (iterrows df) w) as (done & rest & Hrows & -> & _).
  rewrite in_flat_map. intros (kv & Hin & Hr).
  assert (Hkv : In kv (iterrows df)) by (rewrite Hrows; apply in_or_app; now left).
  destruct (in_iterrows _ _ Hkv) as (k & Hk & ->).
  destruct (requested_spec _ _ Hr) as (p & E & Hp & _).
  inversion E. subst. exists k, p. simpl in Hp. auto 6.
Qed.

(** The labels of the rows whose requests went out, for rows given by
    their labels. *)
Lemma requests_follow_labels (df : DataFrame) (labels : list nat) :
  exists ks,
    Forall (fun k => In k labels) ks /\
    (StronglySorted lt labels -> StronglySorted lt ks) /\
    Forall2 (fun k r => exists p, r = (qdrant, "Articles", [p]) /\
                                  id p = PyInt (Z.of_nat k) /\
                                  point_of_row k (row_at df k) = Returned p)
      ks (flat_map (requested env) (map (fun k => (k, row_at df k)) labels)).
Proof.
  induction labels as [|a labels (ks & Hin & Hs & Hf)].
  - exists []. simpl. repeat split; constructor.
  - simpl. unfold requested at 1. simpl fst. simpl snd.
    assert (Hin' : Forall (fun k => In k (a :: labels)) ks).
    { eapply Forall_impl; [|exact Hin]. simpl. auto. }
    destruct (point_of_row a (row_at df a)) as [p|e] eqn:E.
    2:{ exists ks. repeat split; auto.
        intros H. apply StronglySorted_inv in H. tauto. }
    destruct (env_validate env p).
    { exists ks. repeat split; auto.
      intros H. apply StronglySorted_inv in H. tauto. }
    exists (a :: ks). repeat split.
    + constructor; [now left|exact Hin'].
    + intros H. apply StronglySorted_inv in H. destruct H as [H1 H2].
      constructor; [tauto|].
      rewrite Forall_forall in *. intros k Hk. apply H2, Hin, Hk.
    + simpl. constructor; [|exact Hf].
      exists p. repeat split; [|exact E].
      now destruct (point_of_row_shape _ _ E) as (-> & _).
Qed.

Lemma StronglySorted_app_l {A : Type} (R : A -> A -> Prop) (l1 l2 : list A) :
  StronglySorted R (l1 ++ l2) -> StronglySorted R l1.
Proof.
  induction l1 as [|a l1 IH]; simpl; intros H; [constructor|].
  apply StronglySorted_inv in H. destruct H as [H1 H2].
  constructor; [auto|].
  rewrite Forall_forall in *. intros x Hx. apply H2, in_or_app. now left.
Qed.

Lemma seq_strongly_sorted (start len : nat) : StronglySorted lt (seq start len).
Proof.
  revert start. induction len as [|len IH]; intros start; simpl; constructor.
  - apply IH.
  - rewrite Forall_forall. intros x Hx. apply in_seq in Hx. lia.
Qed.

(** The requests of the loop, by increasing row label. *)
Lemma loop_requests_in_row_order (df : DataFrame) (w : W) :
  exists ks,
    StronglySorted lt ks /\
    Forall (fun k => k < df_len df) ks /\
    Forall2 (fun k r => exists p, r = (qdrant, "Articles", [p]) /\
                                  id p = PyInt (Z.of_nat k) /\
                                  point_of_row k (row_at df k) = Returned p)
      ks (upsert_requests (trace_of (index_articles env df w))).
Proof.
  rewrite index_articles_unfold.
  destruct (loop_requests env (iterrows df) w) as (done & rest & Hrows & -> & _).
  unfold iterrows in Hrows.
  apply map_eq_app in Hrows. destruct Hrows as (l1 & l2 & Hseq & <- & _).
  destruct (requests_follow_labels df l1) as (ks & Hin & Hs & Hf).
  exists ks. repeat split.
  - apply Hs. apply StronglySorted_app_l with (l2 := l2). rewrite <- Hseq.
    apply seq_strongly_sorted.
  - eapply Forall_impl; [|exact Hin]. intros k Hk. simpl in Hk.
    assert (H : In k (seq 0 (df_len df))) by (rewrite Hseq; apply in_or_app; now left).
    apply in_seq in H. lia.
  - exact Hf.
Qed.

(** A loop whose iterations all return runs to its end. *)
Lemma for_each_returns {A : Type} (xs : list A) (body : A -> M W unit) :
  (forall x w, In x xs -> result_of (body x w) = Returned tt) ->
  forall w, result_of (for_each xs body w) = Returned tt.
Proof.
  induction xs as [|x xs IH]; intros H w; [reflexivity|].
  rewrite for_each_cons.
  pose proof (H x w (or_introl eq_refl)) as Hx.
  destruct (body x w) as [[[u|e] w1] t1]; [|discriminate Hx].
  pose proof (IH (fun y w' Hy => H y w' (or_intror Hy)) w1) as Hr.
  destruct (for_each xs body w1) as [[r w2] t2]. exact Hr.
Qed.

End Requests.

(* ================================================================== *)
(** ** Properties of traces kept by every construct of the notebook *)

Section Combinators.

Context {W : Type}.
Variable P : trace -> Prop.
Hypothesis P_nil : P [].
Hypothesis P_app : forall t1 t2, P t1 -> P t2 -> P (t1 ++ t2).

Lemma always_ret {A : Type} (a : A) : always P (@ret W A a).
Proof. intros w. exact P_nil. Qed.

Lemma always_lift {A : Type} (o : outcome A) : always P (@lift W A o).
Proof. intros w. exact P_nil. Qed.

Lemma always_emit (e : event) : P [e] -> always P (@emit W e).
Proof. intros H w. exact H. Qed.

Lemma always_invoke {A : Type} (c : call) (f : W -> outcome A * W) :
  (forall r, P [Invoke c; Finish c r]) -> always P (invoke c f).
Proof.
  intros H w. unfold invoke. destruct (f w) as [o w1]. apply H.
Qed.

Lemma always_invoke_pure {A : Type} (c : call) (o : outcome A) :
  (forall r, P [Invoke c; Finish c r]) -> always P (@invoke_pure W A c o).
Proof. intros H w. apply H. Qed.

Lemma always_bind {A B : Type} (m : M W A) (f : A -> M W B) :
  always P m -> (forall a, always P (f a)) -> always P (bind m f).
Proof.
  intros Hm Hf w. unfold bind. specialize (Hm w).
  destruct (m w) as [[[a|e] w1] t1]; [|exact Hm].
  specialize (Hf a w1). destruct (f a w1) as [[r w2] t2].
  apply P_app; assumption.
Qed.

Lemma always_try {A : Type} (body : M W A) (handler : exn -> M W A) :
  always P body -> (forall e, always P (handler e)) ->
  always P (try_except_Exception body handler).
Proof.
  intros Hb Hh w. unfold try_except_Exception. specialize (Hb w).
  destruct (body w) as [[[a|e] w1] t1]; [exact Hb|].
  destruct (isinstance_Exception e); [|exact Hb].
  specialize (Hh e w1). destruct (handler e w1) as [[r w2] t2].
  apply P_app; assumption.
Qed.

Lemma always_for_each {A : Type} (xs : list A) (body : A -> M W unit) :
  (forall x, always P (body x)) -> always P (for_each xs body).
Proof.
  intros Hb. induction xs as [|x xs IH]; simpl.
  - apply always_ret.
  - apply always_bind; [apply Hb|intros _; exact IH].
Qed.

Lemma always_apply (f : pyval -> M W pyval) (col : list pyval) :
  (forall v, always P (f v)) -> always P (apply f col).
Proof.
  intros Hf. induction col as [|v col IH]; simpl.
  - apply always_ret.
  - apply always_bind; [apply Hf|]. intros y.
    apply always_bind; [exact IH|]. intros ys. apply always_ret.
Qed.

End Combinators.

(** Walks through a cell, leaving the premises about single events. *)
Ltac walk :=
  repeat first
    [ apply always_ret; assumption
    | apply always_lift; assumption
    | apply always_emit
    | apply always_invoke; intros
    | apply always_invoke_pure; intros
    | apply always_for_each; try assumption; intros
    | apply always_apply; try assumption; intros
    | apply always_try; try assumption; intros
    | apply always_bind; try assumption; intros ].

Section Cells.

Context {W : Type} (env : Env W).
Variable P : trace -> Prop.
Hypothesis P_nil : P [].
Hypothesis P_app : forall t1 t2, P t1 -> P t2 -> P (t1 ++ t2).

Lemma always_parse_vectors (df : DataFrame) :
  (forall v r, P [Invoke (ast_literal_eval v); Finish (ast_literal_eval v) r]) ->
  always P (parse_vectors env df).
Proof.
  intros H. unfold parse_vectors, literal_eval, str. walk; apply H.
Qed.

Lemma always_create_collection (df : DataFrame) :
  (forall q c cfg r,
      P [Invoke (recreate_collection q c cfg); Finish (recreate_collection q c cfg) r]) ->
  (forall v, P [Display v]) ->
  always P (create_collection env df).
Proof.
  intros H1 H2. unfold create_collection. walk; [apply H1|apply H2].
Qed.

Lemma always_attempt (kv : nat * Series) :
  (forall p r, P [Invoke (PointStruct_init p); Finish (PointStruct_init p) r]) ->
  (forall q c ps r, P [Invoke (upsert q c ps); Finish (upsert q c ps) r]) ->
  (forall s l, P [Print (Lit s :: l)]) ->
  always P (attempt env kv).
Proof.
  intros H1 H2 H3. unfold attempt, upsert_row, report_failure.
  walk; [apply H1|apply H2|apply H3|apply H3].
Qed.

Lemma always_index_articles (df : DataFrame) :
  (forall p r, P [Invoke (PointStruct_init p); Finish (PointStruct_init p) r]) ->
  (forall q c ps r, P [Invoke (upsert q c ps); Finish (upsert q c ps) r]) ->
  (forall s l, P [Print (Lit s :: l)]) ->
  always P (index_articles env df).
Proof.
  intros H1 H2 H3. apply always_for_each; try assumption.
  intros kv. now apply always_attempt.
Qed.

Lemma always_query_qdrant (query collection_name : string)
    (vector_name : option string) (top_k : option Z) :
  (forall i m r, P [Invoke (embeddings_create i m); Finish (embeddings_create i m) r]) ->
  (forall q c qv l f r, P [Invoke (search q c qv l f); Finish (search q c qv l f) r]) ->
  always P (query_qdrant env query collection_name vector_name top_k).
Proof.
  intros H1 H2. unfold query_qdrant. walk; [apply H1|apply H2].
Qed.

Lemma always_search_cell (query vector_name : string) :
  (forall i m r, P [Invoke (embeddings_create i m); Finish (embeddings_create i m) r]) ->
  (forall q c qv l f r, P [Invoke (search q c qv l f); Finish (search q c qv l f) r]) ->
  (forall v l, P [Print (Fmt v :: l)]) ->
  always P (search_cell env query vector_name).
Proof.
  intros H1 H2 H3. unfold search_cell.
  apply always_bind; try assumption; [now apply always_query_qdrant|].
  intros results. unfold print_result. walk. apply H3.
Qed.

(** A property that holds of every single call and output holds of the
    whole notebook. *)
Lemma always_notebook :
  (forall c r, P [Invoke c; Finish c r]) ->
  (forall l, P [Print l]) ->
  (forall v, P [Display v]) ->
  always P (notebook env).
Proof.
  intros H1 H2 H3.
  unfold notebook, shell, download_data, extract_data, load_data.
  repeat first
    [ apply always_parse_vectors; try assumption; intros; apply H1
    | apply always_create_collection; try assumption; intros; apply H1
    | apply always_index_articles; try assumption; intros; first [apply H1|apply H2]
    | apply always_search_cell; try assumption; intros; first [apply H1|apply H2]
    | apply H1 | apply H2 | apply H3
    | apply always_emit
    | apply always_invoke; intros
    | apply always_bind; try assumption; intros ].
Qed.

End Cells.

(** *** One call at a time *)

Lemma in_flight_shift (cur : Z) (t : trace) :
  in_flight cur t = (cur + in_flight 0 t)%Z.
Proof.
  revert cur. induction t as [|e t IH]; intros cur; simpl; [lia|].
  rewrite IH, (IH (delta e)). lia.
Qed.

Lemma peak_in_flight_shift (cur : Z) (t : trace) :
  peak_in_flight cur t = (cur + peak_in_flight 0 t)%Z.
Proof.
  revert cur. induction t as [|e t IH]; intros cur; simpl; [lia|].
  rewrite IH, (IH (delta e)). lia.
Qed.

Lemma in_flight_app (cur : Z) (t1 t2 : trace) :
  in_flight cur (t1 ++ t2) = in_flight (in_flight cur t1) t2.
Proof.
  revert cur. induction t1 as [|e t1 IH]; intros cur; simpl; [reflexivity|apply IH].
Qed.

Lemma peak_in_flight_app (cur : Z) (t1 t2 : trace) :
  peak_in_flight cur (t1 ++ t2)
  = Z.max (peak_in_flight cur t1) (peak_in_flight (in_flight cur t1) t2).
Proof.
  revert cur. induction t1 as [|e t1 IH]; intros cur; simpl.
  - destruct t2 as [|e t2]; simpl; lia.
  - rewrite IH. lia.
Qed.

Lemma serial_nil : serial [].
Proof. split; simpl; lia. Qed.

Lemma serial_app (t1 t2 : trace) : serial t1 -> serial t2 -> serial (t1 ++ t2).
Proof.
  intros [H1 H2] [H3 H4]. split.
  - now rewrite in_flight_app, H1.
  - rewrite peak_in_flight_app, H1. lia.
Qed.

Lemma serial_call (c : call) (r : option exn) : serial [Invoke c; Finish c r].
Proof. split; simpl; lia. Qed.

Lemma serial_print (l : list fragment) : serial [Print l].
Proof. split; simpl; lia. Qed.

Lemma serial_display (v : shown) : serial [Display v].
Proof. split; simpl; lia. Qed.

(* ================================================================== *)
(** ** The indexing cell: what is written, and how *)

(** C5.  Calls are made one at a time: along any run of the notebook, and
    of the upsert loop in particular, never is more than one call entered
    and not yet answered; every upsert request carries exactly one point;
    and the requests go out by increasing row label, one row per request. *)
Theorem upserts_are_sequential_and_unbatched :
  forall (W : Type) (env : Env W) (df : DataFrame) (w : W),
    (peak_in_flight 0 (trace_of (notebook env w)) <= 1)%Z /\
    (peak_in_flight 0 (trace_of (index_articles env df w)) <= 1)%Z /\
    (forall q c ps,
        In (Invoke (upsert q c ps)) (trace_of (index_articles env df w)) ->
        List.length ps = 1) /\
    exists ks,
      StronglySorted lt ks /\
      Forall (fun k => k < df_len df) ks /\
      Forall2 (fun k r => exists p, r = (qdrant, "Articles", [p]) /\
                                    id p = PyInt (Z.of_nat k) /\
                                    point_of_row k (row_at df k) = Returned p)
        ks (upsert_requests (trace_of (index_articles env df w))).
Proof.
  intros W env df w. repeat split.
  - assert (H : always serial (notebook env))
      by (apply always_notebook;
          first [exact serial_nil | exact serial_app | exact serial_call
                | exact serial_print | exact serial_display]).
    exact (proj2 (H w)).
  - assert (H : always serial (index_articles env df))
      by (apply always_index_articles;
          first [exact serial_nil | exact serial_app
                | intros; apply serial_call | intros; apply serial_print]).
    exact (proj2 (H w)).
  - intros q c ps Hin.
    destruct (loop_request_origin env df w q c ps Hin) as (k & p & _ & _ & _ & -> & _).
    reflexivity.
  - apply loop_requests_in_row_order.
Qed.

(** The run on the sample, and its request for the second row. *)
Lemma upserts_are_sequential_and_unbatched_witness :
  (peak_in_flight 0 (trace_of (notebook (Sim.env Sim.no_fault) [])) <= 1)%Z /\
  (peak_in_flight 0
     (trace_of (index_articles (Sim.env Sim.no_fault) Sim.sample_df [])) <= 1)%Z /\
  List.length [article_point Sim.sample_df 1] = 1.
Proof.
  destruct (upserts_are_sequential_and_unbatched (Sim.env Sim.no_fault) Sim.sample_df [])
    as (H1 & H2 & H3 & _).
  split; [exact H1|]. split; [exact H2|].
  apply (H3 qdrant "Articles").
  vm_compute. do 6 right. left. reflexivity.
Defined.

(* ================================================================== *)
(** ** Exceptions *)

Section Propagation.

Context {W : Type} (env : Env W).

Lemma clean_app (t1 t2 : trace) : clean t1 -> clean t2 -> clean (t1 ++ t2).
Proof. intros H1 H2. apply Forall_app. now split. Qed.

Lemma propagates_returned {A : Type} (a : A) (t : trace) :
  propagates (Returned a) t -> clean t.
Proof.
  intros [H|(c & e & pre & _ & _ & _ & H)]; [exact H|discriminate].
Qed.

Lemma propagates_app {A B : Type} (a : A) (r : outcome B) (t1 t2 : trace) :
  propagates (Returned a) t1 -> propagates r t2 -> propagates r (t1 ++ t2).
Proof.
  intros H1 [H2|(c & e & pre & -> & Hpre & Hc & ->)].
  - left. apply clean_app; [now apply propagates_returned with (a := a)|exact H2].
  - right. exists c, e, (t1 ++ pre). repeat split; auto.
    + now rewrite app_assoc.
    + apply clean_app; [now apply propagates_returned with (a := a)|exact Hpre].
Qed.

Lemma propagates_raised {A B : Type} (e : exn) (t : trace) :
  propagates (@Raised A e) t -> propagates (@Raised B e) t.
Proof.
  intros [H|(c & e' & pre & -> & Hpre & Hc & H)]; [now left|].
  right. exists c, e', pre. inversion H. auto.
Qed.

Lemma propagating_ret {A : Type} (a : A) : propagating (@ret W A a).
Proof. intros w. left. constructor. Qed.

Lemma propagating_lift {A : Type} (o : outcome A) : propagating (@lift W A o).
Proof. intros w. left. constructor. Qed.

Lemma propagating_print (l : list fragment) : propagating (@emit W (Print l)).
Proof. intros w. left. repeat constructor. Qed.

Lemma propagating_display (v : shown) : propagating (@emit W (Display v)).
Proof. intros w. left. repeat constructor. Qed.

Lemma propagates_call {A : Type} (c : call) (o : outcome A) :
  propagates o [Invoke c; Finish c (raised_of o)].
Proof.
  destruct o as [a|e]; simpl.
  - left. repeat constructor.
  - destruct (caught c e) eqn:E.
    + left. repeat constructor. exact E.
    + right. exists c, e, [Invoke c]. repeat split; auto. repeat constructor.
Qed.

Lemma propagating_invoke {A : Type} (c : call) (f : W -> outcome A * W) :
  propagating (invoke c f).
Proof.
  intros w. unfold invoke. destruct (f w) as [o w1]. apply propagates_call.
Qed.

Lemma propagating_invoke_pure {A : Type} (c : call) (o : outcome A) :
  propagating (@invoke_pure W A c o).
Proof. intros w. apply propagates_call. Qed.

Lemma propagating_bind {A B : Type} (m : M W A) (f : A -> M W B) :
  propagating m -> (forall a, propagating (f a)) -> propagating (bind m f).
Proof.
  intros Hm Hf w. unfold bind. specialize (Hm w).
  destruct (m w) as [[[a|e] w1] t1].
  2:{ unfold result_of, trace_of in *. simpl in *. now apply (@propagates_raised A B). }
  specialize (Hf a w1). destruct (f a w1) as [[r w2] t2].
  unfold result_of, trace_of in *. simpl in *.
  now apply propagates_app with (a := a).
Qed.

Lemma propagating_for_each {A : Type} (xs : list A) (body : A -> M W unit) :
  (forall x, propagating (body x)) -> propagating (for_each xs body).
Proof.
  intros Hb. induction xs as [|x xs IH]; simpl.
  - apply propagating_ret.
  - apply propagating_bind; [apply Hb|intros _; exact IH].
Qed.

Lemma propagating_apply (f : pyval -> M W pyval) (col : list pyval) :
  (forall v, propagating (f v)) -> propagating (apply f col).
Proof.
  intros Hf. induction col as [|v col IH]; simpl.
  - apply propagating_ret.
  - apply propagating_bind; [apply Hf|]. intros y.
    apply propagating_bind; [exact IH|]. intros ys. apply propagating_ret.
Qed.

(** The loop iteration: what the [try] body raises is caught when it is an
    instance of [Exception], and is the outcome otherwise. *)
Lemma propagating_attempt (kv : nat * Series) : propagating (attempt env kv).
Proof.
  intros w. rewrite attempt_run.
  destruct (point_of_row (fst kv) (snd kv)) as [p|e].
  2:{ left. repeat constructor. }
  destruct (env_validate env p) as [e|].
  - destruct (isinstance_Exception e) eqn:E.
    + left. unfold clean. repeat constructor. simpl. unfold caught. now rewrite E.
    + right. exists (PointStruct_init p), e, [Invoke (PointStruct_init p)].
      repeat split; [repeat constructor|unfold caught; now rewrite E].
  - destruct (env_upsert env qdrant "Articles" [p] w) as [[[]|e] w1].
    + left. repeat constructor.
    + destruct (isinstance_Exception e) eqn:E.
      * left. unfold clean. repeat constructor. simpl. unfold caught. now rewrite E.
      * right. exists (upsert qdrant "Articles" [p]), e,
          [Invoke (PointStruct_init p); Finish (PointStruct_init p) None;
           Invoke (upsert qdrant "Articles" [p])].
        repeat split; [repeat constructor|unfold caught; now rewrite E].
Qed.

Local Ltac pstep :=
  first [ apply propagating_ret | apply propagating_lift | apply propagating_print
        | apply propagating_display | apply propagating_invoke
        | apply propagating_invoke_pure
        | apply propagating_bind; [|intros ?] ].

Lemma propagating_parse_vectors (df : DataFrame) : propagating (parse_vectors env df).
Proof.
  unfold parse_vectors.
  pstep; [pstep|]. pstep; [apply propagating_apply; intros v; unfold literal_eval; pstep|].
  pstep; [pstep|]. pstep; [apply propagating_apply; intros v; unfold literal_eval; pstep|].
  pstep; [pstep|]. pstep; [apply propagating_apply; intros v; unfold str; pstep|].
  pstep.
Qed.

Lemma propagating_search_cell (query vector_name : string) :
  propagating (search_cell env query vector_name).
Proof.
  unfold search_cell, query_qdrant. pstep; [repeat pstep|].
  apply propagating_for_each. intros ia. unfold print_result. repeat pstep.
Qed.

Lemma propagating_notebook : propagating (notebook env).
Proof.
  unfold notebook, shell, download_data, extract_data, load_data, create_collection.
  repeat first [ apply propagating_parse_vectors | apply propagating_search_cell
               | apply propagating_for_each; intros ?; apply propagating_attempt
               | pstep ].
Qed.

(** In a run that loses no exception, an uncaught one is the last event. *)
Lemma uncaught_is_last {A : Type} (r : outcome A) (t : trace) (c : call) (e : exn) :
  propagates r t -> In (Finish c (Some e)) t -> caught c e = false ->
  r = Raised e /\ exists pre, t = pre ++ [Finish c (Some e)].
Proof.
  intros [H|(c' & e' & pre & -> & Hpre & Hc & ->)] Hin Hun.
  - unfold clean in H. rewrite Forall_forall in H. specialize (H _ Hin).
    simpl in H. congruence.
  - apply in_app_or in Hin. destruct Hin as [Hin|[Hin|[]]].
    + unfold clean in Hpre. rewrite Forall_forall in Hpre. specialize (Hpre _ Hin).
      simpl in Hpre. congruence.
    + inversion Hin. subst. split; [reflexivity|]. now exists pre.
Qed.

End Propagation.

(** C1, as stated, fails: an upsert interrupted from the keyboard raises
    [KeyboardInterrupt], which the handler does not take.  The loop ends
    there: nothing is printed and the rows after it are not attempted. *)
Lemma keyboard_interrupt_escapes_the_handler :
  upsert_row (Sim.env (Sim.fault_on_first KeyboardInterrupt)) 0 (row_at Sim.sample_df 0) []
  = (Raised KeyboardInterrupt, [],
     upsert_events (article_point Sim.sample_df 0) (Some KeyboardInterrupt)) /\
  index_articles (Sim.env (Sim.fault_on_first KeyboardInterrupt)) Sim.sample_df []
  = (Raised KeyboardInterrupt, [],
     upsert_events (article_point Sim.sample_df 0) (Some KeyboardInterrupt)) /\
  List.length (iterrows Sim.sample_df) = 3.
Proof. repeat split. Qed.

(* ================================================================== *)
(** ** The order of the steps *)

Lemma steps_app (t1 t2 : trace) : steps (t1 ++ t2) = steps t1 ++ steps t2.
Proof. apply flat_map_app. Qed.

Lemma only_nil (S : step -> bool) : only S [].
Proof. constructor. Qed.

Lemma only_app (S : step -> bool) (t1 t2 : trace) :
  only S t1 -> only S t2 -> only S (t1 ++ t2).
Proof. intros H1 H2. apply Forall_app. now split. Qed.

Lemma only_steps (S : step -> bool) (t : trace) :
  only S t -> Forall (fun s => S s = true) (steps t).
Proof.
  induction 1 as [|e t He _ IH]; simpl; [constructor|].
  destruct (step_of e); simpl; [constructor|]; assumption.
Qed.

Lemma in_order_pairs (R : step -> step -> bool) (l : list step) :
  (forall a b, In a l -> In b l -> R a b = true) -> in_order R l = true.
Proof.
  induction l as [|a l IH]; intros H; [reflexivity|].
  destruct l as [|b l]; [reflexivity|].
  change (R a b && in_order R (b :: l) = true).
  rewrite H by (simpl; auto). simpl.
  apply IH. intros x y Hx Hy. apply H; now right.
Qed.

Lemma in_order_app (R : step -> step -> bool) (l1 l2 : list step) :
  in_order R l1 = true -> in_order R l2 = true ->
  (forall a b, In a l1 -> In b l2 -> R a b = true) ->
  in_order R (l1 ++ l2) = true.
Proof.
  induction l1 as [|a l1 IH]; intros H1 H2 H; [exact H2|].
  destruct l1 as [|b l1].
  - simpl. destruct l2 as [|c l2]; [reflexivity|].
    rewrite H by (simpl; auto). exact H2.
  - change (R a b && in_order R ((b :: l1) ++ l2) = true).
    change (R a b && in_order R (b :: l1) = true) in H1.
    apply andb_true_iff in H1. destruct H1 as [Hab H1].
    rewrite Hab. simpl. apply IH; auto.
    intros x y Hx Hy. apply H; [now right|exact Hy].
Qed.

Lemma staged_weaken (lo hi lo' hi' : nat) (t : trace) :
  staged lo hi t -> lo' <= lo -> hi <= hi' -> staged lo' hi' t.
Proof.
  intros [H1 H2] Hlo Hhi. split; [|exact H2].
  eapply Forall_impl; [|exact H1]. simpl. intros s Hs. lia.
Qed.

Lemma staged_app (lo1 hi1 lo2 hi2 : nat) (t1 t2 : trace) :
  staged lo1 hi1 t1 -> staged lo2 hi2 t2 ->
  hi1 <= lo2 -> lo1 <= lo2 -> hi1 <= hi2 ->
  staged lo1 hi2 (t1 ++ t2).
Proof.
  intros [H1 O1] [H2 O2] Hb Hlo Hhi. split; rewrite steps_app.
  - apply Forall_app. split.
    + eapply Forall_impl; [|exact H1]. simpl. intros s Hs. lia.
    + eapply Forall_impl; [|exact H2]. simpl. intros s Hs. lia.
  - apply in_order_app; auto.
    intros a b Ha Hb'. rewrite Forall_forall in H1, H2.
    specialize (H1 a Ha). specialize (H2 b Hb').
    unfold back_only_to_query, never_back.
    apply orb_true_iff. left. apply Nat.leb_le. lia.
Qed.

(** Events of one step, or of none, are in order. *)
Lemma only_staged (S : step -> bool) (lo hi : nat) (t : trace) :
  only S t ->
  (forall s, S s = true -> lo <= rank s <= hi) ->
  (forall a b, S a = true -> S b = true -> back_only_to_query a b = true) ->
  staged lo hi t.
Proof.
  intros H Hb Hp. apply only_steps in H. rewrite Forall_forall in H. split.
  - rewrite Forall_forall. intros s Hs. auto.
  - apply in_order_pairs. intros a b Ha Hb'. auto.
Qed.

Lemma is_step_staged (s : step) (t : trace) :
  only (is_step s) t -> staged (rank s) (rank s) t.
Proof.
  intros H. apply only_staged with (S := is_step s); auto.
  - unfold is_step. intros x Hx. apply Nat.eqb_eq in Hx. lia.
  - unfold is_step. intros a b Ha Hb. apply Nat.eqb_eq in Ha, Hb.
    unfold back_only_to_query, never_back.
    apply orb_true_iff. left. apply Nat.leb_le. lia.
Qed.

Lemma no_step_staged (lo : nat) (t : trace) : only no_step t -> staged lo lo t.
Proof.
  intros H. apply only_staged with (S := no_step); auto; discriminate.
Qed.

Lemma query_or_print_staged (t : trace) : only query_or_print t -> staged 6 7 t.
Proof.
  intros H. apply only_staged with (S := query_or_print); auto.
  - intros [] Hs; try discriminate; simpl; lia.
  - intros [] [] Ha Hb; try discriminate; reflexivity.
Qed.

Section Order.

Context {W : Type} (env : Env W).

Lemma staged_bind (lo1 hi1 lo2 hi2 : nat) {A B : Type} (m : M W A) (f : A -> M W B) :
  always (staged lo1 hi1) m -> (forall a, always (staged lo2 hi2) (f a)) ->
  hi1 <= lo2 -> lo1 <= lo2 -> hi1 <= hi2 ->
  always (staged lo1 hi2) (bind m f).
Proof.
  intros Hm Hf Hb Hlo Hhi w. unfold bind. specialize (Hm w).
  destruct (m w) as [[[a|e] w1] t1].
  - specialize (Hf a w1). destruct (f a w1) as [[r w2] t2].
    unfold trace_of in *. simpl in *. now apply staged_app with (hi1 := hi1) (lo2 := lo2).
  - unfold trace_of in *. simpl in *. apply staged_weaken with (lo := lo1) (hi := hi1); auto.
Qed.

Local Ltac events := intros; repeat constructor.

Lemma shell_no_step (cmd : string) : always (only no_step) (shell env cmd).
Proof. unfold shell. apply always_invoke. events. Qed.

Lemma display_no_step (v : shown) : always (only no_step) (@emit W (Display v)).
Proof. apply always_emit. events. Qed.

Lemma download_data_step : always (only (is_step Download)) (download_data env).
Proof.
  unfold download_data.
  apply always_bind; [apply only_app|apply always_invoke; events|].
  intros name. apply always_emit. events.
Qed.

Lemma extract_data_step : always (only (is_step Extract)) (extract_data env).
Proof. unfold extract_data. apply always_invoke. events. Qed.

Lemma load_data_step : always (only (is_step Parse)) (load_data env).
Proof. unfold load_data. apply always_invoke. events. Qed.

Lemma parse_vectors_step (df : DataFrame) :
  always (only (is_step Parse)) (parse_vectors env df).
Proof.
  apply always_parse_vectors; [apply only_nil|apply only_app|events].
Qed.

Lemma create_collection_step (df : DataFrame) :
  always (only (is_step CreateCollection)) (create_collection env df).
Proof.
  apply always_create_collection; [apply only_nil|apply only_app|events|events].
Qed.

Lemma index_articles_step (df : DataFrame) :
  always (only (is_step UpsertRows)) (index_articles env df).
Proof.
  apply always_index_articles;
    [apply only_nil|apply only_app|events|events|events].
Qed.

Lemma search_cell_step (query vector_name : string) :
  always (only query_or_print) (search_cell env query vector_name).
Proof.
  apply always_search_cell;
    [apply only_nil|apply only_app|events|events|events].
Qed.

Lemma always_impl {A : Type} (P Q : trace -> Prop) (m : M W A) :
  (forall t, P t -> Q t) -> always P m -> always Q m.
Proof. intros H Hm w. apply H, Hm. Qed.

(** The steps of any run of the notebook, however far it gets. *)
Lemma notebook_staged : always (staged 1 7) (notebook env).
Proof.
  unfold notebook.
  apply (@staged_bind 1 1 1 7);
    [eapply always_impl; [apply no_step_staged|apply shell_no_step]|intros _|lia..].
  apply (@staged_bind 1 1 2 7);
    [eapply always_impl; [apply (@is_step_staged Download)|apply download_data_step]
    |intros _|lia..].
  apply (@staged_bind 2 2 3 7);
    [eapply always_impl; [apply (@is_step_staged Extract)|apply extract_data_step]
    |intros _|lia..].
  apply (@staged_bind 3 3 3 7);
    [eapply always_impl; [apply (@is_step_staged Parse)|apply load_data_step]
    |intros article_df|lia..].
  apply (@staged_bind 3 3 3 7);
    [eapply always_impl; [apply no_step_staged|apply display_no_step]|intros _|lia..].
  apply (@staged_bind 3 3 4 7);
    [eapply always_impl; [apply (@is_step_staged Parse)|apply parse_vectors_step]
    |intros parsed_df|lia..].
  apply (@staged_bind 4 4 4 7);
    [eapply always_impl; [apply no_step_staged|apply display_no_step]|intros _|lia..].
  apply (@staged_bind 4 4 4 7);
    [eapply always_impl; [apply no_step_staged|apply shell_no_step]|intros _|lia..].
  apply (@staged_bind 4 4 4 7);
    [eapply always_impl; [apply no_step_staged|apply always_invoke; events]
    |intros names|lia..].
  apply (@staged_bind 4 4 4 7);
    [eapply always_impl; [apply no_step_staged|apply display_no_step]|intros _|lia..].
  apply (@staged_bind 4 4 4 7);
    [eapply always_impl;
       [apply (@is_step_staged CreateCollection)|apply create_collection_step]
    |intros _|lia..].
  apply (@staged_bind 4 4 5 7);
    [eapply always_impl;
       [apply (@is_step_staged CreateCollection)|apply create_collection_step]
    |intros _|lia..].
  apply (@staged_bind 5 5 6 7);
    [eapply always_impl; [apply (@is_step_staged UpsertRows)|apply index_articles_step]
    |intros _|lia..].
  apply (@staged_bind 6 6 6 7);
    [eapply always_impl; [apply no_step_staged|apply always_invoke; events]
    |intros n|lia..].
  apply (@staged_bind 6 6 6 7);
    [eapply always_impl; [apply no_step_staged|apply display_no_step]|intros _|lia..].
  eapply always_impl; [apply query_or_print_staged|].
  apply always_bind; [apply only_app|apply search_cell_step|intros _; apply search_cell_step].
Qed.

End Order.

(** *** Runs that reach the end *)

Section Completed.

Context {W : Type} (env : Env W).

Lemma bind_inv {A B : Type} (m : M W A) (f : A -> M W B) (w w2 : W) (b : B) (t : trace) :
  bind m f w = (Returned b, w2, t) ->
  exists a w1 t1 t2,
    m w = (Returned a, w1, t1) /\ f a w1 = (Returned b, w2, t2) /\ t = t1 ++ t2.
Proof.
  unfold bind. destruct (m w) as [[[a|e] w1] t1]; [|discriminate].
  destruct (f a w1) as [[r w3] t2] eqn:E. intros H. inversion H. subst.
  exists a, w1, t1, t2. auto.
Qed.

Lemma invoke_inv {A : Type} (c : call) (f : W -> outcome A * W) (w w1 : W) (a : A)
    (t : trace) :
  invoke c f w = (Returned a, w1, t) -> t = [Invoke c; Finish c None].
Proof.
  unfold invoke. destruct (f w) as [[x|e] w']; intros H; inversion H. reflexivity.
Qed.

Lemma emit_inv (e : event) (w w1 : W) (u : unit) (t : trace) :
  emit e w = (Returned u, w1, t) -> t = [e].
Proof. unfold emit. intros H. now inversion H. Qed.

Lemma rank_injective (a b : step) : rank a = rank b -> a = b.
Proof. destruct a, b; simpl; intros H; try reflexivity; discriminate H. Qed.

Lemma only_one_step (s : step) (t : trace) :
  only (is_step s) t -> Forall (eq s) (steps t).
Proof.
  intros H. apply only_steps in H. eapply Forall_impl; [|exact H].
  simpl. unfold is_step. intros x Hx. apply Nat.eqb_eq in Hx. now apply rank_injective.
Qed.

Lemma download_data_completed (w w1 : W) (u : unit) (t : trace) :
  download_data env w = (Returned u, w1, t) -> steps t = [Download; Download].
Proof.
  unfold download_data. intros H.
  apply bind_inv in H. destruct H as (name & w0 & t1 & t2 & H1 & H2 & ->).
  apply invoke_inv in H1. apply emit_inv in H2. subst. reflexivity.
Qed.

Lemma create_collection_completed (df : DataFrame) (w w1 : W) (u : unit) (t : trace) :
  create_collection env df w = (Returned u, w1, t) ->
  steps t = [CreateCollection; CreateCollection].
Proof.
  unfold create_collection. intros H.
  apply bind_inv in H. destruct H as (col & w0 & t1 & t2 & H1 & H & ->).
  unfold lift in H1. inversion H1. subst. clear H1.
  apply bind_inv in H. destruct H as (first & w2 & t1 & t3 & H1 & H & ->).
  unfold lift in H1. inversion H1. subst. clear H1.
  apply bind_inv in H. destruct H as (n & w3 & t1 & t4 & H1 & H & ->).
  unfold lift in H1. inversion H1. subst. clear H1.
  apply bind_inv in H. destruct H as (ok & w4 & t1 & t5 & H1 & H & ->).
  apply invoke_inv in H1. apply emit_inv in H. subst. reflexivity.
Qed.

Lemma print_results_completed (rows : list (nat * ScoredPoint)) (w w1 : W) (u : unit)
    (t : trace) :
  for_each rows (fun ia => print_result env (fst ia) (snd ia)) w = (Returned u, w1, t) ->
  steps t = repeat PrintResults (List.length rows).
Proof.
  revert w t. induction rows as [|ia rows IH]; intros w t H.
  - simpl in H. unfold ret in H. inversion H. reflexivity.
  - simpl in H. apply bind_inv in H. destruct H as (u0 & w0 & t1 & t2 & H1 & H2 & ->).
    apply IH in H2. rewrite steps_app, H2.
    unfold print_result in H1.
    apply bind_inv in H1. destruct H1 as (title & w2 & ta & tb & Ha & H1 & ->).
    unfold lift in Ha. inversion Ha. subst. clear Ha.
    apply bind_inv in H1. destruct H1 as (url & w3 & ta & tc & Ha & H1 & ->).
    unfold lift in Ha. inversion Ha. subst. clear Ha.
    apply emit_inv in H1. subst. reflexivity.
Qed.

Lemma search_cell_completed (query vector_name : string) (w w1 : W) (u : unit) (t : trace) :
  search_cell env query vector_name w = (Returned u, w1, t) ->
  exists n, steps t = repeat Query 4 ++ repeat PrintResults n.
Proof.
  unfold search_cell. intros H.
  apply bind_inv in H. destruct H as (results & w0 & t1 & t2 & H1 & H2 & ->).
  apply print_results_completed in H2.
  exists (List.length (enumerate results)). rewrite steps_app, H2. f_equal.
  unfold query_qdrant in H1.
  apply bind_inv in H1. destruct H1 as (response & w2 & ta & tb & Ha & H1 & ->).
  apply invoke_inv in Ha. subst ta.
  apply bind_inv in H1. destruct H1 as (first & w3 & ta & tc & Ha & H1 & ->).
  unfold lift in Ha. inversion Ha. subst. clear Ha.
  apply bind_inv in H1. destruct H1 as (found & w4 & ta & td & Ha & H1 & ->).
  apply invoke_inv in Ha. unfold ret in H1. inversion H1. subst. reflexivity.
Qed.

(** The steps of a run of the notebook that reaches its end. *)
Lemma notebook_completed (w w' : W) (t : trace) :
  notebook env w = (Returned tt, w', t) ->
  exists parsing upserting n1 n2,
    Forall (eq Parse) parsing /\ Forall (eq UpsertRows) upserting /\
    steps t = [Download; Download; Extract; Extract; Parse; Parse] ++ parsing
              ++ repeat CreateCollection 4 ++ upserting
              ++ (repeat Query 4 ++ repeat PrintResults n1)
              ++ (repeat Query 4 ++ repeat PrintResults n2).
Proof.
  unfold notebook, shell, extract_data, load_data. intros H.
  apply bind_inv in H. destruct H as (u1 & w1 & t1 & r1 & H1 & H & ->).
  apply invoke_inv in H1. subst t1.
  apply bind_inv in H. destruct H as (u2 & w2 & t2 & r2 & H2 & H & ->).
  apply download_data_completed in H2.
  apply bind_inv in H. destruct H as (u3 & w3 & t3 & r3 & H3 & H & ->).
  apply invoke_inv in H3. subst t3.
  apply bind_inv in H. destruct H as (df & w4 & t4 & r4 & H4 & H & ->).
  apply invoke_inv in H4. subst t4.
  apply bind_inv in H. destruct H as (u5 & w5 & t5 & r5 & H5 & H & ->).
  apply emit_inv in H5. subst t5.
  apply bind_inv in H. destruct H as (parsed & w6 & t6 & r6 & H6 & H & ->).
  pose proof (only_one_step (parse_vectors_step env df w5)) as Hp.
  rewrite H6 in Hp. unfold trace_of in Hp. simpl in Hp.
  apply bind_inv in H. destruct H as (u7 & w7 & t7 & r7 & H7 & H & ->).
  apply emit_inv in H7. subst t7.
  apply bind_inv in H. destruct H as (u8 & w8 & t8 & r8 & H8 & H & ->).
  apply invoke_inv in H8. subst t8.
  apply bind_inv in H. destruct H as (names & w9 & t9 & r9 & H9 & H & ->).
  apply invoke_inv in H9. subst t9.
  apply bind_inv in H. destruct H as (u10 & w10 & t10 & r10 & H10 & H & ->).
  apply emit_inv in H10. subst t10.
  apply bind_inv in H. destruct H as (u11 & w11 & t11 & r11 & H11 & H & ->).
  apply create_collection_completed in H11.
  apply bind_inv in H. destruct H as (u12 & w12 & t12 & r12 & H12 & H & ->).
  apply create_collection_completed in H12.
  apply bind_inv in H. destruct H as (u13 & w13 & t13 & r13 & H13 & H & ->).
  pose proof (only_one_step (index_articles_step env parsed w12)) as Hu.
  rewrite H13 in Hu. unfold trace_of in Hu. simpl in Hu.
  apply bind_inv in H. destruct H as (n & w14 & t14 & r14 & H14 & H & ->).
  apply invoke_inv in H14. subst t14.
  apply bind_inv in H. destruct H as (u15 & w15 & t15 & r15 & H15 & H & ->).
  apply emit_inv in H15. subst t15.
  apply bind_inv in H. destruct H as (u16 & w16 & t16 & r16 & H16 & H & ->).
  apply search_cell_completed in H16. destruct H16 as [n1 H16].
  apply search_cell_completed in H. destruct H as [n2 H].
  exists (steps t6), (steps t13), n1, n2.
  split; [exact Hp|]. split; [exact Hu|].
  rewrite !steps_app, H2, H11, H12, H16, H. simpl. reflexivity.
Qed.

End Completed.

(** C3, as stated, fails: on the sample the notebook runs to its end, and
    the three result lines of the first search come before the second
    query is issued. *)
Lemma results_are_printed_before_the_next_query :
  result_of (notebook (Sim.env Sim.no_fault) []) = Returned tt /\
  steps (trace_of (notebook (Sim.env Sim.no_fault) []))
  = [Download; Download; Extract; Extract]
    ++ repeat Parse 14 ++ repeat CreateCollection 4 ++ repeat UpsertRows 12
    ++ repeat Query 4 ++ repeat PrintResults 3
    ++ repeat Query 4 ++ repeat PrintResults 3 /\
  in_order never_back (steps (trace_of (notebook (Sim.env Sim.no_fault) []))) = false.
Proof. repeat split. Qed.

(* ================================================================== *)
(** ** The parsing cell *)

Section Parsing.

Context {W : Type} (env : Env W).

Lemma apply_literal_eval (col ys : list pyval) (w : W) :
  Forall2 (fun v y => env_literal_eval env v = Returned y) col ys ->
  apply (literal_eval env) col w = (Returned ys, w, literal_eval_events col).
Proof.
  induction 1 as [|v y col ys Hv _ IH]; [reflexivity|].
  simpl. unfold bind, literal_eval at 1, invoke_pure. rewrite Hv, IH.
  unfold ret. simpl. now rewrite app_nil_r.
Qed.

Lemma apply_str (col : list pyval) (w : W) :
  apply (str env) col w = (Returned (map (fun v => PyStr (env_str env v)) col), w, []).
Proof.
  induction col as [|v col IH]; [reflexivity|].
  simpl. unfold bind, str at 1, ret. rewrite IH. reflexivity.
Qed.

Lemma literal_eval_total (col : list pyval) :
  (forall v, In v col -> is_str v /\ exists y, env_literal_eval env v = Returned y /\ is_float_list y) ->
  exists ys,
    Forall2 (fun v y => env_literal_eval env v = Returned y /\ is_float_list y) col ys.
Proof.
  induction col as [|v col IH]; intros H.
  - exists []. constructor.
  - destruct (H v (or_introl eq_refl)) as (_ & y & Hy & Hf).
    destruct IH as [ys Hys]; [intros x Hx; apply H; now right|].
    exists (y :: ys). constructor; auto.
Qed.

End Parsing.

(** C6.  The loaded dataset has the seven columns id, url, title, text,
    title_vector, content_vector and vector_id; when the two vector
    columns hold the string forms of lists of floats, the parsing cell
    succeeds and leaves a frame with the same seven columns and rows in
    which every cell of the two vector columns is the list of floats that
    [literal_eval] reads from the string it held, every cell of vector_id
    is the string that [str] makes of what it held, and the other four
    columns are as they were. *)
Theorem parse_vectors_columns :
  forall (W : Type) (env : Env W) (df : DataFrame) (w : W),
    column_names df = article_columns ->
    (forall v, In v (column df "title_vector") \/ In v (column df "content_vector") ->
               is_str v /\
               exists y, env_literal_eval env v = Returned y /\ is_float_list y) ->
    exists df' t,
      parse_vectors env df w = (Returned df', w, t) /\
      column_names df' = article_columns /\
      df_index df' = df_index df /\
      Forall2 (fun old new => env_literal_eval env old = Returned new /\ is_float_list new)
        (column df "title_vector") (column df' "title_vector") /\
      Forall2 (fun old new => env_literal_eval env old = Returned new /\ is_float_list new)
        (column df "content_vector") (column df' "content_vector") /\
      column df' "vector_id"
      = map (fun v => PyStr (env_str env v)) (column df "vector_id") /\
      Forall is_str (column df' "vector_id") /\
      column df' "id" = column df "id" /\
      column df' "url" = column df "url" /\
      column df' "title" = column df "title" /\
      column df' "text" = column df "text".
Proof.
  intros W env [n cols] w Hnames Hcells.
  unfold column_names, article_columns in Hnames. simpl in Hnames.
  destruct cols as [|[n1 c1] cols]; [discriminate|].
  destruct cols as [|[n2 c2] cols]; [discriminate|].
  destruct cols as [|[n3 c3] cols]; [discriminate|].
  destruct cols as [|[n4 c4] cols]; [discriminate|].
  destruct cols as [|[n5 c5] cols]; [discriminate|].
  destruct cols as [|[n6 c6] cols]; [discriminate|].
  destruct cols as [|[n7 c7] cols]; [discriminate|].
  destruct cols as [|? ?]; [|discriminate].
  simpl in Hnames. inversion Hnames. subst. clear Hnames.
  unfold column in Hcells. simpl in Hcells.
  destruct (literal_eval_total env c5) as [t5 H5]; [intros v Hv; apply Hcells; now left|].
  destruct (literal_eval_total env c6) as [t6 H6]; [intros v Hv; apply Hcells; now right|].
  assert (E5 : Forall2 (fun v y => env_literal_eval env v = Returned y) c5 t5)
    by (eapply Forall2_impl; [|exact H5]; simpl; tauto).
  assert (E6 : Forall2 (fun v y => env_literal_eval env v = Returned y) c6 t6)
    by (eapply Forall2_impl; [|exact H6]; simpl; tauto).
  eexists. eexists. split.
  - unfold parse_vectors, bind, lift, getattr, getitem, setitem. simpl.
    rewrite (apply_literal_eval env w E5). simpl.
    rewrite (apply_literal_eval env w E6). simpl.
    rewrite apply_str. unfold ret. simpl. reflexivity.
  - unfold column, column_names. simpl. repeat split; auto.
    rewrite Forall_forall. intros v Hv. apply in_map_iff in Hv.
    destruct Hv as (x & <- & _). now exists (env_str env x).
Qed.

(** The sample as the CSV has it. *)
Lemma parse_vectors_columns_witness :
  exists df' t,
    parse_vectors (Sim.env Sim.no_fault) Sim.sample_csv [] = (Returned df', [], t) /\
    column_names df' = article_columns /\
    df_index df' = df_index Sim.sample_csv /\
    Forall2 (fun old new => Sim.literal_eval old = Returned new /\ is_float_list new)
      (column Sim.sample_csv "title_vector") (column df' "title_vector") /\
    Forall2 (fun old new => Sim.literal_eval old = Returned new /\ is_float_list new)
      (column Sim.sample_csv "content_vector") (column df' "content_vector") /\
    column df' "vector_id"
    = map (fun v => PyStr (Sim.str v)) (column Sim.sample_csv "vector_id") /\
    Forall is_str (column df' "vector_id") /\
    column df' "id" = column Sim.sample_csv "id" /\
    column df' "url" = column Sim.sample_csv "url" /\
    column df' "title" = column Sim.sample_csv "title" /\
    column df' "text" = column Sim.sample_csv "text".
Proof.
  apply (parse_vectors_columns (Sim.env Sim.no_fault) Sim.sample_csv []).
  - reflexivity.
  - unfold column. simpl.
    intros v [H|H]; decompose [or] H; subst; try contradiction;
      (split; [eexists; reflexivity|]);
      eexists; (split; [reflexivity|]); eexists [_; _]; reflexivity.
Defined.

(* ================================================================== *)
(** ** Creating the collection *)

Lemma assoc_set_column_other (name other : string) (values : list pyval)
    (cols : list (string * list pyval)) :
  name <> other ->
  assoc other (set_column name values cols) = assoc other cols.
Proof.
  intros Hne. induction cols as [|[k old] cols IH]; simpl.
  - destruct (String.eqb name other) eqn:E; [|reflexivity].
    apply String.eqb_eq in E. contradiction.
  - destruct (String.eqb k name) eqn:E; simpl.
    + apply String.eqb_eq in E. subst k.
      destruct (String.eqb name other) eqn:E'; [|reflexivity].
      apply String.eqb_eq in E'. contradiction.
    + now rewrite IH.
Qed.

Lemma getitem_setitem_other (df : DataFrame) (name other : string) (values : list pyval) :
  name <> other ->
  getitem (setitem df name values) other = getitem df other.
Proof.
  intros H. unfold getitem, setitem. simpl. now rewrite assoc_set_column_other.
Qed.

Lemma create_collection_reads_content_vector {W : Type} (env : Env W)
    (df df' : DataFrame) (w : W) :
  getitem df' "content_vector" = getitem df "content_vector" ->
  create_collection env df' w = create_collection env df w.
Proof.
  intros H. unfold create_collection, bind, lift. now rewrite H.
Qed.

(** C7.  The collection is created with the two named vectors 'title' and
    'content' given one and the same size, the length of the content
    vector of the first row.  No title vector is consulted: whatever the
    title_vector column holds, the cell does the same; so a title vector
    of another length is not of the size configured for 'title'. *)
Theorem collection_size_is_first_content_vector_length :
  forall (W : Type) (env : Env W) (df : DataFrame) (w : W)
         (col : list pyval) (first : pyval) (n : Z),
    getitem df "content_vector" = Returned col ->
    column_at col 0 = Returned first ->
    py_len first = Returned n ->
    calls (trace_of (create_collection env df w))
    = [Invoke (recreate_collection qdrant "Articles"
                 [("title", mkVectorParams COSINE n);
                  ("content", mkVectorParams COSINE n)]);
       Finish (recreate_collection qdrant "Articles"
                 [("title", mkVectorParams COSINE n);
                  ("content", mkVectorParams COSINE n)])
              (raised_of (fst (env_recreate_collection env qdrant "Articles"
                                 (vectors_config_of n) w)))] /\
    (forall title_vectors,
        create_collection env (setitem df "title_vector" title_vectors) w
        = create_collection env df w) /\
    (forall titles k x m,
        getitem df "title_vector" = Returned titles ->
        column_at titles k = Returned x ->
        py_len x = Returned m ->
        m <> n ->
        forall q c cfg p,
          In (Invoke (recreate_collection q c cfg))
             (trace_of (create_collection env df w)) ->
          assoc "title" cfg = Some p ->
          size p <> m).
Proof.
  intros W env df w col first n Hcol Hfirst Hlen.
  assert (Hrun : create_collection env df w
                 = match env_recreate_collection env qdrant "Articles"
                           (vectors_config_of n) w with
                   | (Returned ok, w1) =>
                       (Returned tt, w1,
                        [Invoke (recreate_collection qdrant "Articles" (vectors_config_of n));
                         Finish (recreate_collection qdrant "Articles" (vectors_config_of n)) None;
                         Display (ShowBool ok)])
                   | (Raised e, w1) =>
                       (Raised e, w1,
                        [Invoke (recreate_collection qdrant "Articles" (vectors_config_of n));
                         Finish (recreate_collection qdrant "Articles" (vectors_config_of n))
                           (Some e)])
                   end).
  { unfold create_collection, bind, lift, invoke, emit. rewrite Hcol, Hfirst, Hlen.
    destruct (env_recreate_collection env qdrant "Articles" (vectors_config_of n) w)
      as [[ok|e] w1]; reflexivity. }
  repeat split.
  - rewrite Hrun.
    destruct (env_recreate_collection env qdrant "Articles" (vectors_config_of n) w)
      as [[ok|e] w1]; reflexivity.
  - intros tv. apply create_collection_reads_content_vector.
    apply getitem_setitem_other. discriminate.
  - intros titles k x m _ _ _ Hne q c cfg p Hin Hp.
    rewrite Hrun in Hin.
    assert (Hcfg : cfg = vectors_config_of n).
    { destruct (env_recreate_collection env qdrant "Articles" (vectors_config_of n) w)
        as [[ok|e] w1]; simpl in Hin;
        repeat (destruct Hin as [Hin|Hin]; [now inversion Hin|]); contradiction. }
    subst cfg. simpl in Hp. inversion Hp. subst p. simpl. congruence.
Qed.

(** The sample with title vectors of length 1 and content vectors of
    length 2: both fields are created with size 2. *)
Lemma collection_size_is_first_content_vector_length_witness :
  calls (trace_of (create_collection (Sim.env Sim.no_fault) Sim.mismatched_df []))
  = [Invoke (recreate_collection qdrant "Articles"
               [("title", mkVectorParams COSINE 2); ("content", mkVectorParams COSINE 2)]);
     Finish (recreate_collection qdrant "Articles"
               [("title", mkVectorParams COSINE 2); ("content", mkVectorParams COSINE 2)])
            None] /\
  create_collection (Sim.env Sim.no_fault)
    (setitem Sim.mismatched_df "title_vector" (column Sim.sample_df "title_vector")) []
  = create_collection (Sim.env Sim.no_fault) Sim.mismatched_df [] /\
  (forall q c cfg p,
      In (Invoke (recreate_collection q c cfg))
         (trace_of (create_collection (Sim.env Sim.no_fault) Sim.mismatched_df [])) ->
      assoc "title" cfg = Some p ->
      size p <> 1%Z).
Proof.
  destruct (@collection_size_is_first_content_vector_length _
              (Sim.env Sim.no_fault) Sim.mismatched_df []
              (column Sim.sample_df "content_vector")
              (PyList [PyFloat Sim.quarter; PyFloat Sim.quarter]) 2%Z
              eq_refl eq_refl eq_refl) as (H1 & H2 & H3).
  split; [exact H1|]. split; [apply H2|].
  apply (H3 Sim.short_titles 0 (PyList [PyFloat Sim.half]) 1%Z eq_refl eq_refl eq_refl).
  discriminate.
Defined.

(* ================================================================== *)
(** ** What the vector_id column is used for *)

Lemma row_getitem_setitem_other (df : DataFrame) (name other : string)
    (values : list pyval) (k : nat) :
  name <> other ->
  row_getitem (row_at (setitem df name values) k) other
  = row_getitem (row_at df k) other.
Proof.
  intros H. unfold row_getitem, row_at, setitem. simpl.
  rewrite !(assoc_map_snd (fun col => nth k col PyNone)).
  now rewrite assoc_set_column_other.
Qed.

Lemma point_of_row_setitem_other (df : DataFrame) (name : string)
    (values : list pyval) (k : nat) :
  ~ In name ["title_vector"; "content_vector"; "id"; "title"; "url"] ->
  point_of_row k (row_at (setitem df name values) k) = point_of_row k (row_at df k).
Proof.
  intros H. unfold point_of_row.
  rewrite !row_getitem_setitem_other by (intros ->; apply H; simpl; tauto).
  reflexivity.
Qed.

Section SameCalls.

Context {W : Type} (env : Env W).

(** Two rows that give the same point make the same calls, to the same
    effect; they differ in what the handler prints. *)
Lemma attempt_same_calls (k : nat) (v v' : Series) (w : W) :
  point_of_row k v = point_of_row k v' ->
  result_of (attempt env (k, v) w) = result_of (attempt env (k, v') w) /\
  world_of (attempt env (k, v) w) = world_of (attempt env (k, v') w) /\
  calls (trace_of (attempt env (k, v) w)) = calls (trace_of (attempt env (k, v') w)).
Proof.
  intros H. rewrite !attempt_run. simpl fst. simpl snd. rewrite <- H.
  destruct (point_of_row k v) as [p|e]; [|repeat split].
  destruct (env_validate env p) as [e|].
  - destruct (isinstance_Exception e); repeat split.
  - destruct (env_upsert env qdrant "Articles" [p] w) as [[[]|e] w1]; [repeat split|].
    destruct (isinstance_Exception e); repeat split.
Qed.

Lemma calls_app (t1 t2 : trace) : calls (t1 ++ t2) = calls t1 ++ calls t2.
Proof. apply filter_app. Qed.

Lemma for_each_same_calls (f g : nat -> Series) (labels : list nat) (w : W) :
  (forall k, point_of_row k (f k) = point_of_row k (g k)) ->
  result_of (for_each (map (fun k => (k, f k)) labels) (attempt env) w)
  = result_of (for_each (map (fun k => (k, g k)) labels) (attempt env) w) /\
  world_of (for_each (map (fun k => (k, f k)) labels) (attempt env) w)
  = world_of (for_each (map (fun k => (k, g k)) labels) (attempt env) w) /\
  calls (trace_of (for_each (map (fun k => (k, f k)) labels) (attempt env) w))
  = calls (trace_of (for_each (map (fun k => (k, g k)) labels) (attempt env) w)).
Proof.
  intros H. revert w. induction labels as [|k labels IH]; intros w; [repeat split|].
  simpl map. rewrite !for_each_cons.
  destruct (attempt_same_calls k (f k) (g k) w (H k)) as (Hr & Hw & Hc).
  destruct (attempt env (k, f k) w) as [[r1 w1] t1].
  destruct (attempt env (k, g k) w) as [[r2 w2] t2].
  unfold result_of, world_of, trace_of in *. simpl in *. subst r2 w2.
  destruct r1 as [u|e]; [|repeat split; assumption].
  destruct (IH w1) as (Hr' & Hw' & Hc').
  destruct (for_each (map (fun k0 => (k0, f k0)) labels) (attempt env) w1) as [[r3 w3] t3].
  destruct (for_each (map (fun k0 => (k0, g k0)) labels) (attempt env) w1) as [[r4 w4] t4].
  simpl in *. subst r4 w4. repeat split. rewrite !calls_app. congruence.
Qed.

End SameCalls.

(** C8, as it holds.  The point id of every upserted record is the label
    of its row, an integer, whatever the id and vector_id columns hold.
    After parsing, the vector_id column is read by no call: with any other
    values in it, the indexing loop makes the same calls with the same
    arguments, to the same effect, and the collection is created the same
    way; the search cells take no dataframe at all. *)
Theorem point_id_is_row_label :
  forall (W : Type) (env : Env W) (df : DataFrame) (w : W),
    (forall q c ps,
        In (Invoke (upsert q c ps)) (trace_of (index_articles env df w)) ->
        exists k p,
          k < df_len df /\ ps = [p] /\ id p = PyInt (Z.of_nat k) /\
          point_of_row k (row_at df k) = Returned p) /\
    (forall vector_ids,
        result_of (index_articles env (setitem df "vector_id" vector_ids) w)
        = result_of (index_articles env df w) /\
        world_of (index_articles env (setitem df "vector_id" vector_ids) w)
        = world_of (index_articles env df w) /\
        calls (trace_of (index_articles env (setitem df "vector_id" vector_ids) w))
        = calls (trace_of (index_articles env df w))) /\
    (forall vector_ids,
        create_collection env (setitem df "vector_id" vector_ids) w
        = create_collection env df w).
Proof.
  intros W env df w. split; [|split].
  - intros q c ps Hin.
    destruct (loop_request_origin env df w q c ps Hin) as (k & p & Hk & _ & _ & Hps & Hp).
    exists k, p. repeat split; auto.
    now destruct (point_of_row_shape _ _ Hp) as (-> & _).
  - intros vector_ids.
    rewrite !index_articles_unfold. unfold iterrows. simpl df_len.
    apply for_each_same_calls.
    intros k. apply point_of_row_setitem_other. simpl. intuition discriminate.
  - intros vector_ids. apply create_collection_reads_content_vector.
    apply getitem_setitem_other. discriminate.
Qed.

(** The second request on the sample: the label is 1, the id column
    holds 2 and the vector_id column "1". *)
Lemma point_id_is_row_label_witness :
  (exists k p,
      k < df_len Sim.sample_df /\ [article_point Sim.sample_df 1] = [p] /\
      id p = PyInt (Z.of_nat k) /\
      point_of_row k (row_at Sim.sample_df k) = Returned p) /\
  cell Sim.sample_df "id" 1 = PyInt 2 /\
  cell Sim.sample_df "vector_id" 1 = PyStr "1".
Proof.
  destruct (point_id_is_row_label (Sim.env Sim.no_fault) Sim.sample_df []) as (H & _).
  split; [|split; reflexivity].
  apply (H qdrant "Articles").
  vm_compute. do 6 right. left. reflexivity.
Defined.

(** C8, as stated, fails in its last part: when an upsert fails the
    handler prints the whole row, vector_id included, so the output of the
    loop changes with the values of that column. *)
Lemma failed_row_print_shows_vector_id :
  In (Print [Lit "Failed to upsert row "; Fmt (PyInt 0); Lit ": ";
             FmtRow (row_at Sim.sample_df 0)])
     (trace_of (index_articles (Sim.env (Sim.fault_on_first Sim.ConnectionError))
                  Sim.sample_df [])) /\
  assoc "vector_id" (row_at Sim.sample_df 0) = Some (PyStr "0") /\
  trace_of (index_articles (Sim.env (Sim.fault_on_first Sim.ConnectionError))
              (setitem Sim.sample_df "vector_id" Sim.other_vector_ids) [])
  <> trace_of (index_articles (Sim.env (Sim.fault_on_first Sim.ConnectionError))
                 Sim.sample_df []).
Proof.
  split; [|split].
  - vm_compute. do 4 right. left. reflexivity.
  - reflexivity.
  - vm_compute. intros H. discriminate H.
Qed.

(* ================================================================== *)
(** ** Searching *)

(** C9.  Every search that [query_qdrant] issues goes to the collection
    named in the call, with [limit] the [top_k] argument (20 when left
    out), no filter, and as query vector the first embedding of the
    embeddings answer under the [vector_name] argument ('title' when left
    out).  What the search answers is returned as it is; with a service
    that returns no more hits than the limit, the result has at most
    [top_k] elements. *)
Theorem query_qdrant_request :
  forall (W : Type) (env : Env W) (query collection_name : string)
         (vector_name : option string) (top_k : option Z) (w : W),
    (forall q c qv limit f,
        In (Invoke (search q c qv limit f))
           (trace_of (query_qdrant env query collection_name vector_name top_k w)) ->
        c = collection_name /\
        limit = match top_k with Some k => k | None => 20%Z end /\
        f = None /\
        exists response w1 first,
          env_embeddings_create env query EMBEDDING_MODEL w = (Returned response, w1) /\
          list_getitem (data response) 0 = Returned first /\
          qv = (match vector_name with Some n => n | None => "title" end,
                embedding first)) /\
    (forall response w1 first,
        env_embeddings_create env query EMBEDDING_MODEL w = (Returned response, w1) ->
        list_getitem (data response) 0 = Returned first ->
        query_qdrant env query collection_name vector_name top_k w
        = (let request :=
             search qdrant collection_name
               (match vector_name with Some n => n | None => "title" end, embedding first)
               (match top_k with Some k => k | None => 20%Z end) None in
           let '(r, w2) :=
             env_search env qdrant collection_name
               (match vector_name with Some n => n | None => "title" end, embedding first)
               (match top_k with Some k => k | None => 20%Z end) None w1 in
           (r, w2,
            [Invoke (embeddings_create query EMBEDDING_MODEL);
             Finish (embeddings_create query EMBEDDING_MODEL) None;
             Invoke request; Finish request (raised_of r)]))) /\
    (honours_limit env ->
     forall results,
       result_of (query_qdrant env query collection_name vector_name top_k w)
       = Returned results ->
       (Z.of_nat (List.length results)
        <= match top_k with Some k => k | None => 20%Z end)%Z).
Proof.
  intros W env query collection_name vector_name top_k w.
  unfold query_qdrant, bind, invoke, lift, ret.
  destruct (env_embeddings_create env query EMBEDDING_MODEL w) as [[response|e] w1] eqn:E.
  2:{ unfold trace_of, result_of. simpl. split; [|split].
      - intros q c qv limit f [H|[H|[]]]; discriminate H.
      - intros response w2 first H. discriminate H.
      - intros _ results H. discriminate H. }
  destruct (list_getitem (data response) 0) as [first|e] eqn:E0.
  2:{ unfold trace_of, result_of. simpl. split; [|split].
      - intros q c qv limit f [H|[H|[]]]; discriminate H.
      - intros response' w2 first H H'. inversion H. subst. congruence.
      - intros _ results H. discriminate H. }
  simpl.
  destruct (env_search env qdrant collection_name
              (match vector_name with Some n => n | None => "title" end, embedding first)
              (match top_k with Some k => k | None => 20%Z end) None w1)
    as [[results|e] w2] eqn:Es; unfold trace_of, result_of; simpl.
  - split; [|split].
    + intros q c qv limit f Hin.
      repeat (destruct Hin as [Hin|Hin]; [try discriminate Hin|]); [|contradiction].
      inversion Hin. subst. repeat split. exists response, w1, first. auto.
    + intros response' w1' first' H H'. inversion H. subst.
      rewrite E0 in H'. inversion H'. subst. rewrite Es. reflexivity.
    + intros Hlim results' H. inversion H. subst. exact (Hlim _ _ _ _ _ _ _ _ Es).
  - split; [|split].
    + intros q c qv limit f Hin.
      repeat (destruct Hin as [Hin|Hin]; [try discriminate Hin|]); [|contradiction].
      inversion Hin. subst. repeat split. exists response, w1, first. auto.
    + intros response' w1' first' H H'. inversion H. subst.
      rewrite E0 in H'. inversion H'. subst. rewrite Es. reflexivity.
    + intros _ results' H. discriminate H.
Qed.

(** The simulated search keeps to its limit. *)
Lemma sim_honours_limit (fault : PointStruct -> option exn) :
  honours_limit (Sim.env fault).
Proof.
  intros q c qv limit f w results w1. simpl.
  destruct (0 <? limit)%Z eqn:E; [|discriminate].
  intros H. inversion H. subst. apply Z.ltb_lt in E.
  rewrite length_firstn. lia.
Qed.

(** A search of the indexed sample with the defaults, and one by content
    for the two best hits. *)
Lemma query_qdrant_request_witness :
  query_qdrant (Sim.env Sim.no_fault) "modern art in Europe" "Articles" None None Sim.indexed
  = (Returned (map Sim.scored Sim.indexed), Sim.indexed,
     [Invoke (embeddings_create "modern art in Europe" "text-embedding-ada-002");
      Finish (embeddings_create "modern art in Europe" "text-embedding-ada-002") None;
      Invoke (search qdrant "Articles" ("title", [Sim.half; Sim.quarter]) 20 None);
      Finish (search qdrant "Articles" ("title", [Sim.half; Sim.quarter]) 20 None) None]) /\
  (forall results,
      result_of (query_qdrant (Sim.env Sim.no_fault) "Famous battles in Scottish history"
                   "Articles" (Some "content") (Some 2%Z) Sim.indexed)
      = Returned results ->
      (Z.of_nat (List.length results) <= 2)%Z).
Proof.
  split.
  - destruct (@query_qdrant_request _ (Sim.env Sim.no_fault) "modern art in Europe"
                "Articles" None None Sim.indexed) as (_ & H & _).
    exact (H (mkResponse [mkEmbedding [Sim.half; Sim.quarter]]) Sim.indexed
             (mkEmbedding [Sim.half; Sim.quarter]) eq_refl eq_refl).
  - destruct (@query_qdrant_request _ (Sim.env Sim.no_fault)
                "Famous battles in Scottish history" "Articles" (Some "content")
                (Some 2%Z) Sim.indexed) as (_ & _ & H).
    exact (H (sim_honours_limit Sim.no_fault)).
Defined.

(* ================================================================== *)
(** ** Further properties of the cells *)

Lemma assoc_missing {A : Type} (key : string) (l : list (string * A)) :
  ~ In key (map fst l) -> assoc key l = None.
Proof.
  intros H. destruct (assoc key l) as [a|] eqn:E; [|reflexivity].
  exfalso. apply H. now apply assoc_some_in_names with (a := a).
Qed.

Lemma has_column_setitem_other (df : DataFrame) (name other : string) (values : list pyval) :
  name <> other -> ~ has_column df other -> ~ has_column (setitem df name values) other.
Proof.
  intros Hne Hno Hin. unfold has_column, column_names, setitem in *. simpl in Hin.
  destruct (assoc_in_names other _ Hin) as [col Hcol].
  rewrite assoc_set_column_other in Hcol by exact Hne.
  apply Hno. now apply assoc_some_in_names with (a := col).
Qed.

Lemma getattr_setitem_other (df : DataFrame) (name other : string) (values : list pyval) :
  name <> other ->
  getattr (setitem df name values) other = getattr df other.
Proof.
  intros H. unfold getattr, setitem. simpl. now rewrite assoc_set_column_other.
Qed.

Section ParsingFailures.

Context {W : Type} (env : Env W).

Lemma apply_literal_eval_fails (good rest parsed : list pyval) (bad : pyval) (e : exn) (w : W) :
  Forall2 (fun v y => env_literal_eval env v = Returned y) good parsed ->
  env_literal_eval env bad = Raised e ->
  apply (literal_eval env) (good ++ bad :: rest) w
  = (Raised e, w,
     literal_eval_events good
     ++ [Invoke (ast_literal_eval bad); Finish (ast_literal_eval bad) (Some e)]).
Proof.
  intros Hgood Hbad. induction Hgood as [|v y good parsed Hv _ IH]; simpl.
  - unfold bind, literal_eval at 1, invoke_pure. rewrite Hbad. reflexivity.
  - unfold bind, literal_eval at 1, invoke_pure. rewrite Hv, IH. reflexivity.
Qed.

End ParsingFailures.

(** X1.  The parsing cell on a frame that lacks a column it reads: without
    title_vector the attribute access raises AttributeError before any
    cell is evaluated; without vector_id the item access raises KeyError
    once both vector columns have been evaluated. *)
Theorem parse_vectors_missing_column :
  forall (W : Type) (env : Env W) (df : DataFrame) (w : W),
    (~ has_column df "title_vector" ->
     parse_vectors env df w = (Raised (AttributeError "title_vector"), w, [])) /\
    (forall titles contents parsed_titles parsed_contents,
        getattr df "title_vector" = Returned titles ->
        getattr df "content_vector" = Returned contents ->
        Forall2 (fun v y => env_literal_eval env v = Returned y) titles parsed_titles ->
        Forall2 (fun v y => env_literal_eval env v = Returned y) contents parsed_contents ->
        ~ has_column df "vector_id" ->
        parse_vectors env df w
        = (Raised (KeyError "vector_id"), w,
           literal_eval_events titles ++ literal_eval_events contents)).
Proof.
  intros W env df w. split.
  - intros H. unfold parse_vectors, bind, lift, getattr.
    rewrite (assoc_missing _ _ H). reflexivity.
  - intros titles contents pt pc Ht Hc Et Ec Hno.
    unfold parse_vectors, bind, lift. rewrite Ht.
    rewrite (apply_literal_eval env w Et).
    rewrite getattr_setitem_other by discriminate. rewrite Hc.
    rewrite (apply_literal_eval env w Ec).
    unfold getitem.
    rewrite (assoc_missing "vector_id" (df_columns _)).
    + simpl. now rewrite app_nil_r.
    + apply has_column_setitem_other; [discriminate|].
      apply has_column_setitem_other; [discriminate|exact Hno].
Qed.

(** The CSV sample without title_vector, and without vector_id. *)
Lemma parse_vectors_missing_column_witness :
  parse_vectors (Sim.env Sim.no_fault) Cases.no_title_vector_csv []
  = (Raised (AttributeError "title_vector"), [], []) /\
  parse_vectors (Sim.env Sim.no_fault) Cases.no_vector_id_csv []
  = (Raised (KeyError "vector_id"), [],
     literal_eval_events (column Sim.sample_csv "title_vector")
     ++ literal_eval_events (column Sim.sample_csv "content_vector")).
Proof.
  split.
  - destruct (@parse_vectors_missing_column _ (Sim.env Sim.no_fault)
                Cases.no_title_vector_csv []) as [H _].
    apply H. vm_compute. intuition discriminate.
  - destruct (@parse_vectors_missing_column _ (Sim.env Sim.no_fault)
                Cases.no_vector_id_csv []) as [_ H].
    apply (H (column Sim.sample_csv "title_vector")
             (column Sim.sample_csv "content_vector")
             (column Sim.sample_df "title_vector")
             (column Sim.sample_df "content_vector")).
    + reflexivity.
    + reflexivity.
    + repeat constructor.
    + repeat constructor.
    + vm_compute. intuition discriminate.
Defined.

(** X2.  The parsing cell stops at the first title vector that
    [literal_eval] rejects: the exception is the outcome of the cell, the
    cells after it are not evaluated, and nothing else is called. *)
Theorem parse_vectors_stops_at_first_bad_cell :
  forall (W : Type) (env : Env W) (df : DataFrame) (w : W)
         (good rest parsed : list pyval) (bad : pyval) (e : exn),
    getattr df "title_vector" = Returned (good ++ bad :: rest) ->
    Forall2 (fun v y => env_literal_eval env v = Returned y) good parsed ->
    env_literal_eval env bad = Raised e ->
    parse_vectors env df w
    = (Raised e, w,
       literal_eval_events good
       ++ [Invoke (ast_literal_eval bad); Finish (ast_literal_eval bad) (Some e)]).
Proof.
  intros W env df w good rest parsed bad e Hcol Hgood Hbad.
  unfold parse_vectors, bind, lift. rewrite Hcol.
  rewrite (@apply_literal_eval_fails _ env good rest parsed bad e w Hgood Hbad).
  reflexivity.
Qed.

(** The CSV sample with its second title vector cut short. *)
Lemma parse_vectors_stops_at_first_bad_cell_witness :
  parse_vectors (Sim.env Sim.no_fault) Cases.damaged_csv []
  = (Raised (Sim.ValueError "malformed node or string"), [],
     literal_eval_events [PyStr "[0.5, 0.25]"]
     ++ [Invoke (ast_literal_eval (PyStr "[0.25, "));
         Finish (ast_literal_eval (PyStr "[0.25, "))
           (Some (Sim.ValueError "malformed node or string"))]).
Proof.
  apply (@parse_vectors_stops_at_first_bad_cell _ (Sim.env Sim.no_fault)
           Cases.damaged_csv [] [PyStr "[0.5, 0.25]"] [PyStr "[0.5, 0.5]"]
           [PyList [PyFloat Sim.half; PyFloat Sim.quarter]]).
  - reflexivity.
  - repeat constructor.
  - reflexivity.
Defined.

(** X3.  The collection is not created when the vector size cannot be
    taken: on a frame without a content_vector column, or with no row, the
    cell raises KeyError, and when the first content cell has no length it
    raises TypeError; in each case no request is sent. *)
Theorem create_collection_needs_a_first_vector :
  forall (W : Type) (env : Env W) (df : DataFrame) (w : W),
    (~ has_column df "content_vector" ->
     create_collection env df w = (Raised (KeyError "content_vector"), w, [])) /\
    (getitem df "content_vector" = Returned [] ->
     exists e, create_collection env df w = (Raised e, w, []) /\
               exn_type e = "KeyError") /\
    (forall col first e,
        getitem df "content_vector" = Returned col ->
        column_at col 0 = Returned first ->
        py_len first = Raised e ->
        create_collection env df w = (Raised e, w, []) /\ exn_type e = "TypeError").
Proof.
  intros W env df w. split; [|split].
  - intros H. unfold create_collection, bind, lift, getitem.
    rewrite (assoc_missing _ _ H). reflexivity.
  - intros H. exists (KeyError "row label").
    unfold create_collection, bind, lift. rewrite H. split; reflexivity.
  - intros col first e Hcol Hfirst Hlen.
    unfold create_collection, bind, lift. rewrite Hcol, Hfirst, Hlen.
    split; [reflexivity|].
    destruct first; simpl in Hlen; inversion Hlen; reflexivity.
Qed.

(** A frame with no rows, and one whose first content cell is a number. *)
Lemma create_collection_needs_a_first_vector_witness :
  (exists e, create_collection (Sim.env Sim.no_fault) Cases.empty_df [] = (Raised e, [], []) /\
             exn_type e = "KeyError") /\
  create_collection (Sim.env Sim.no_fault) Cases.unsized_df []
  = (Raised (TypeError "object has no len()"), [], []) /\
  create_collection (Sim.env Sim.no_fault)
    (mkDF 0 [("title_vector", [])]) []
  = (Raised (KeyError "content_vector"), [], []).
Proof.
  split; [|split].
  - destruct (@create_collection_needs_a_first_vector _ (Sim.env Sim.no_fault)
                Cases.empty_df []) as (_ & H & _).
    apply H. reflexivity.
  - destruct (@create_collection_needs_a_first_vector _ (Sim.env Sim.no_fault)
                Cases.unsized_df []) as (_ & _ & H).
    apply (H [PyInt 7] (PyInt 7) (TypeError "object has no len()")); reflexivity.
  - destruct (@create_collection_needs_a_first_vector _ (Sim.env Sim.no_fault)
                (mkDF 0 [("title_vector", [])]) []) as (H & _).
    apply H. vm_compute. intuition discriminate.
Defined.

(* ------------------------------------------------------------------ *)
(** *** The indexing loop on rows it cannot write *)



Lemma count_if_app (f : event -> bool) (t1 t2 : trace) :
  count_if f (t1 ++ t2) = count_if f t1 + count_if f t2.
Proof. unfold count_if. now rewrite filter_app, length_app. Qed.

Section LoopAccounts.

Context {W : Type} (env : Env W).


(** Every row a completed loop went through was either upserted or
    reported. *)
Lemma for_each_accounts (rows : list (nat * Series)) (w w' : W) (t : trace) :
  for_each rows (attempt env) w = (Returned tt, w', t) ->
  count_if is_upserted t + count_if is_failure_report t = List.length rows.
Proof.
  revert w t. induction rows as [|kv rows IH]; intros w t H.
  - simpl in H. unfold ret in H. inversion H. reflexivity.
  - rewrite for_each_cons in H.
    assert (Hone : forall w1 t1, attempt env kv w = (Returned tt, w1, t1) ->
                   count_if is_upserted t1 + count_if is_failure_report t1 = 1).
    { intros w1 t1. rewrite attempt_run.
      destruct (point_of_row (fst kv) (snd kv)) as [p|e].
      2:{ intros E. inversion E. reflexivity. }
      destruct (env_validate env p) as [e|].
      - destruct (isinstance_Exception e); intros E; inversion E. reflexivity.
      - destruct (env_upsert env qdrant "Articles" [p] w) as [[[]|e] w2].
        + intros E. inversion E. reflexivity.
        + destruct (isinstance_Exception e); intros E; inversion E. reflexivity. }
    destruct (attempt env kv w) as [[[[]|e] w1] t1]; [|discriminate].
    specialize (Hone w1 t1 eq_refl).
    destruct (for_each rows (attempt env) w1) as [[r w2] t2] eqn:E.
    inversion H. subst. apply IH in E.
    rewrite !count_if_app. simpl. lia.
Qed.

End LoopAccounts.

Lemma length_iterrows (df : DataFrame) : List.length (iterrows df) = df_len df.
Proof. unfold iterrows. now rewrite length_map, length_seq. Qed.



(** X5.  When the loop has run to its end every row is accounted for: the
    number of upserts answered without an exception and the number of
    failure reports printed add up to the number of rows. *)
Theorem index_articles_accounts_for_every_row :
  forall (W : Type) (env : Env W) (df : DataFrame) (w w' : W) (t : trace),
    index_articles env df w = (Returned tt, w', t) ->
    count_if is_upserted t + count_if is_failure_report t = df_len df.
Proof.
  intros W env df w w' t H. rewrite index_articles_unfold in H.
  rewrite <- length_iterrows. now apply for_each_accounts with (env := env) (w := w) (w' := w').
Qed.

(** The sample with a server that refuses the second row: two rows
    written, one reported. *)
Lemma index_articles_accounts_for_every_row_witness :
  count_if is_upserted
    (trace_of (index_articles (Sim.env (Cases.fault_on 1 Sim.ConnectionError))
                 Sim.sample_df []))
  = 2 /\
  count_if is_upserted
    (trace_of (index_articles (Sim.env (Cases.fault_on 1 Sim.ConnectionError))
                 Sim.sample_df []))
  + count_if is_failure_report
      (trace_of (index_articles (Sim.env (Cases.fault_on 1 Sim.ConnectionError))
                   Sim.sample_df []))
  = df_len Sim.sample_df.
Proof.
  split; [reflexivity|].
  apply (@index_articles_accounts_for_every_row _
           (Sim.env (Cases.fault_on 1 Sim.ConnectionError)) Sim.sample_df []
           (world_of (index_articles (Sim.env (Cases.fault_on 1 Sim.ConnectionError))
                        Sim.sample_df []))).
  reflexivity.
Defined.

(** X6.  An exception of the [try] body that is not an instance of
    [Exception] ends the loop at its row: it is the outcome of the cell,
    the handler prints nothing, and the rows after it are left alone. *)
Theorem index_articles_stops_on_other_exceptions :
  forall (W : Type) (env : Env W) (df : DataFrame) (w : W)
         (pre post : list (nat * Series)) (k : nat) (v : Series)
         (w1 w2 : W) (t1 t2 : trace) (e : exn),
    iterrows df = pre ++ (k, v) :: post ->
    for_each pre (attempt env) w = (Returned tt, w1, t1) ->
    upsert_row env k v w1 = (Raised e, w2, t2) ->
    isinstance_Exception e = false ->
    index_articles env df w = (Raised e, w2, t1 ++ t2).
Proof.
  intros W env df w pre post k v w1 w2 t1 t2 e Hrows Hpre Hrow He.
  rewrite index_articles_unfold, Hrows.
  rewrite (for_each_app pre ((k, v) :: post) (attempt env) w Hpre).
  rewrite for_each_cons.
  unfold attempt at 1, try_except_Exception. simpl fst. simpl snd.
  rewrite Hrow, He. reflexivity.
Qed.

(** The sample, interrupted during the upsert of the second row. *)
Lemma index_articles_stops_on_other_exceptions_witness :
  index_articles (Sim.env (Cases.fault_on 1 KeyboardInterrupt)) Sim.sample_df []
  = (Raised KeyboardInterrupt, [article_point Sim.sample_df 0],
     upsert_events (article_point Sim.sample_df 0) None
     ++ upsert_events (article_point Sim.sample_df 1) (Some KeyboardInterrupt)).
Proof.
  apply (@index_articles_stops_on_other_exceptions _
           (Sim.env (Cases.fault_on 1 KeyboardInterrupt)) Sim.sample_df []
           [(0, row_at Sim.sample_df 0)] [(2, row_at Sim.sample_df 2)]
           1 (row_at Sim.sample_df 1) [article_point Sim.sample_df 0]).
  - reflexivity.
  - reflexivity.
  - reflexivity.
  - reflexivity.
Defined.

(* ------------------------------------------------------------------ *)
(** *** Searching and listing *)

(** X7.  [query_qdrant] without an embedding sends no search: when the
    embeddings call raises, that exception is the outcome; when it answers
    with an empty list of embeddings, taking the first one raises
    IndexError.  In both cases the embeddings call is the only call
    made. *)
Theorem query_qdrant_without_an_embedding :
  forall (W : Type) (env : Env W) (query collection_name : string)
         (vector_name : option string) (top_k : option Z) (w : W),
    (forall e w1,
        env_embeddings_create env query EMBEDDING_MODEL w = (Raised e, w1) ->
        query_qdrant env query collection_name vector_name top_k w
        = (Raised e, w1,
           [Invoke (embeddings_create query EMBEDDING_MODEL);
            Finish (embeddings_create query EMBEDDING_MODEL) (Some e)])) /\
    (forall response w1,
        env_embeddings_create env query EMBEDDING_MODEL w = (Returned response, w1) ->
        data response = [] ->
        query_qdrant env query collection_name vector_name top_k w
        = (Raised (IndexError "list index out of range"), w1,
           [Invoke (embeddings_create query EMBEDDING_MODEL);
            Finish (embeddings_create query EMBEDDING_MODEL) None])).
Proof.
  intros W env query collection_name vector_name top_k w. split.
  - intros e w1 H. unfold query_qdrant, bind, invoke. rewrite H. reflexivity.
  - intros response w1 H Hdata.
    unfold query_qdrant, bind, invoke, lift, list_getitem. rewrite H, Hdata.
    reflexivity.
Qed.

(** An embeddings service that is down, and one that answers with nothing. *)
Lemma query_qdrant_without_an_embedding_witness :
  query_qdrant (Cases.api_down Sim.ConnectionError) "modern art in Europe" "Articles"
    (Some "title") None Sim.indexed
  = (Raised Sim.ConnectionError, Sim.indexed,
     [Invoke (embeddings_create "modern art in Europe" EMBEDDING_MODEL);
      Finish (embeddings_create "modern art in Europe" EMBEDDING_MODEL)
        (Some Sim.ConnectionError)]) /\
  query_qdrant Cases.api_empty "modern art in Europe" "Articles" (Some "title") None
    Sim.indexed
  = (Raised (IndexError "list index out of range"), Sim.indexed,
     [Invoke (embeddings_create "modern art in Europe" EMBEDDING_MODEL);
      Finish (embeddings_create "modern art in Europe" EMBEDDING_MODEL) None]).
Proof.
  split.
  - destruct (@query_qdrant_without_an_embedding _ (Cases.api_down Sim.ConnectionError)
                "modern art in Europe" "Articles" (Some "title") None Sim.indexed)
      as [H _].
    apply H. reflexivity.
  - destruct (@query_qdrant_without_an_embedding _ Cases.api_empty
                "modern art in Europe" "Articles" (Some "title") None Sim.indexed)
      as [_ H].
    apply (H (mkResponse [])); reflexivity.
Defined.

Lemma payload_entry_getitem (article : ScoredPoint) (key : string) :
  In key (map fst (sp_payload article)) ->
  dict_getitem (sp_payload article) key = Returned (payload_entry article key).
Proof.
  intros H. unfold dict_getitem, payload_entry.
  destruct (assoc_in_names key (sp_payload article) H) as [x ->]. reflexivity.
Qed.

Lemma nth_error_combine_seq {A : Type} (xs : list A) (start k : nat) (a : A) :
  nth_error xs k = Some a ->
  nth_error (combine (seq start (List.length xs)) xs) k = Some (start + k, a).
Proof.
  revert start k. induction xs as [|x xs IH]; intros start k H.
  - destruct k; discriminate.
  - destruct k as [|k]; simpl in *.
    + inversion H. now rewrite Nat.add_0_r.
    + rewrite (IH (S start) k H). f_equal. f_equal. lia.
Qed.

Section Listing.

Context {W : Type} (env : Env W).

Lemma print_result_printable (i : nat) (article : ScoredPoint) (w : W) :
  printable article ->
  print_result env i article w = (Returned tt, w, [result_line env i article]).
Proof.
  intros [Ht Hu]. unfold print_result, bind, lift, emit.
  rewrite (payload_entry_getitem article "title" Ht).
  rewrite (payload_entry_getitem article "url" Hu). reflexivity.
Qed.

Lemma print_result_not_printable (i : nat) (article : ScoredPoint) (w : W) :
  ~ printable article ->
  exists key, In key ["title"; "url"] /\
              ~ In key (map fst (sp_payload article)) /\
              print_result env i article w = (Raised (KeyError key), w, []).
Proof.
  intros H. unfold print_result, bind, lift, dict_getitem.
  destruct (assoc "title" (sp_payload article)) as [t|] eqn:Et.
  - destruct (assoc "url" (sp_payload article)) as [u|] eqn:Eu.
    + exfalso. apply H. split; eapply assoc_some_in_names; eauto.
    + exists "url". repeat split; [simpl; tauto|].
      intros Hin. destruct (assoc_in_names _ _ Hin) as [x Hx]. congruence.
  - exists "title". repeat split; [simpl; tauto|].
    intros Hin. destruct (assoc_in_names _ _ Hin) as [x Hx]. congruence.
Qed.

Lemma print_results_all (hits : list ScoredPoint) (start : nat) (w : W) :
  Forall printable hits ->
  for_each (combine (seq start (List.length hits)) hits)
    (fun ia => print_result env (fst ia) (snd ia)) w
  = (Returned tt, w,
     map (fun ia => result_line env (fst ia) (snd ia))
       (combine (seq start (List.length hits)) hits)).
Proof.
  intros H. revert start. induction H as [|a hits Ha _ IH]; intros start.
  - reflexivity.
  - simpl List.length. simpl seq. simpl combine.
    rewrite for_each_cons. simpl fst. simpl snd.
    rewrite (print_result_printable start w Ha), IH. reflexivity.
Qed.

Lemma print_results_stop (good rest : list ScoredPoint) (bad : ScoredPoint)
    (start : nat) (w : W) :
  Forall printable good -> ~ printable bad ->
  exists key,
    In key ["title"; "url"] /\ ~ In key (map fst (sp_payload bad)) /\
    for_each (combine (seq start (List.length (good ++ bad :: rest))) (good ++ bad :: rest))
      (fun ia => print_result env (fst ia) (snd ia)) w
    = (Raised (KeyError key), w,
       map (fun ia => result_line env (fst ia) (snd ia))
         (combine (seq start (List.length good)) good)).
Proof.
  intros H Hbad. revert start. induction H as [|a good Ha _ IH]; intros start.
  - destruct (print_result_not_printable start w Hbad) as (key & Hk & Hno & Hrun).
    exists key. repeat split; auto.
    simpl app. simpl List.length. simpl seq. simpl combine.
    rewrite for_each_cons. simpl fst. simpl snd. now rewrite Hrun.
  - destruct (IH (S start)) as (key & Hk & Hno & Hrun).
    exists key. repeat split; auto.
    simpl app. simpl List.length. simpl seq. simpl combine.
    rewrite for_each_cons. simpl fst. simpl snd.
    rewrite (print_result_printable start w Ha), Hrun. reflexivity.
Qed.

End Listing.

(** X8.  A search cell whose hits all carry a title and a url prints one
    line per hit, in the order of the hits and numbered from 1: the line
    at position [k] starts with [k + 1] and shows the title, the url and
    the rounded score of the hit at position [k]. *)
Theorem search_cell_lists_every_hit :
  forall (W : Type) (env : Env W) (query vector_name : string) (w w1 : W)
         (results : list ScoredPoint) (tq : trace),
    query_qdrant env query "Articles" (Some vector_name) None w = (Returned results, w1, tq) ->
    Forall printable results ->
    search_cell env query vector_name w
    = (Returned tt, w1,
       tq ++ map (fun ia => result_line env (fst ia) (snd ia)) (enumerate results)) /\
    (forall k article,
        nth_error results k = Some article ->
        nth_error (map (fun ia => result_line env (fst ia) (snd ia)) (enumerate results)) k
        = Some (result_line env k article)).
Proof.
  intros W env query vector_name w w1 results tq Hq Hp. split.
  - unfold search_cell, bind. rewrite Hq.
    unfold enumerate. now rewrite (print_results_all env 0 w1 Hp).
  - intros k article Hk. unfold enumerate.
    rewrite nth_error_map, (@nth_error_combine_seq _ results 0 k article Hk). reflexivity.
Qed.

(** A search by title of the indexed sample. *)
Lemma search_cell_lists_every_hit_witness :
  search_cell (Sim.env Sim.no_fault) "modern art in Europe" "title" Sim.indexed
  = (Returned tt, Sim.indexed,
     trace_of (query_qdrant (Sim.env Sim.no_fault) "modern art in Europe" "Articles"
                 (Some "title") None Sim.indexed)
     ++ [result_line (Sim.env Sim.no_fault) 0 (Sim.scored (article_point Sim.sample_df 0));
         result_line (Sim.env Sim.no_fault) 1 (Sim.scored (article_point Sim.sample_df 1));
         result_line (Sim.env Sim.no_fault) 2 (Sim.scored (article_point Sim.sample_df 2))]).
Proof.
  destruct (@search_cell_lists_every_hit _ (Sim.env Sim.no_fault)
              "modern art in Europe" "title" Sim.indexed Sim.indexed
              (map Sim.scored Sim.indexed)
              (trace_of (query_qdrant (Sim.env Sim.no_fault) "modern art in Europe"
                           "Articles" (Some "title") None Sim.indexed)))
    as [H _].
  - reflexivity.
  - repeat constructor; simpl; tauto.
  - exact H.
Defined.

(** X9.  A search cell stops listing at the first hit whose payload lacks
    'title' or 'url': the lines of the hits before it are printed, the
    lookup raises KeyError for the missing key, and the hits after it are
    not listed. *)
Theorem search_cell_stops_at_unprintable_hit :
  forall (W : Type) (env : Env W) (query vector_name : string) (w w1 : W)
         (good rest : list ScoredPoint) (bad : ScoredPoint) (tq : trace),
    query_qdrant env query "Articles" (Some vector_name) None w
    = (Returned (good ++ bad :: rest), w1, tq) ->
    Forall printable good ->
    ~ printable bad ->
    exists key,
      In key ["title"; "url"] /\ ~ In key (map fst (sp_payload bad)) /\
      search_cell env query vector_name w
      = (Raised (KeyError key), w1,
         tq ++ map (fun ia => result_line env (fst ia) (snd ia)) (enumerate good)).
Proof.
  intros W env query vector_name w w1 good rest bad tq Hq Hgood Hbad.
  destruct (print_results_stop env rest 0 w1 Hgood Hbad) as (key & Hk & Hno & Hrun).
  exists key. repeat split; auto.
  unfold search_cell, bind. rewrite Hq. unfold enumerate. now rewrite Hrun.
Qed.

(** A collection whose second point was written without a title. *)
Lemma search_cell_stops_at_unprintable_hit_witness :
  exists key,
    In key ["title"; "url"] /\ ~ In key (map fst (sp_payload (Sim.scored Cases.untitled))) /\
    search_cell (Sim.env Sim.no_fault) "modern art in Europe" "title" Cases.partly_titled
    = (Raised (KeyError key), Cases.partly_titled,
       trace_of (query_qdrant (Sim.env Sim.no_fault) "modern art in Europe" "Articles"
                   (Some "title") None Cases.partly_titled)
       ++ map (fun ia => result_line (Sim.env Sim.no_fault) (fst ia) (snd ia))
            (enumerate [Sim.scored (article_point Sim.sample_df 0)])).
Proof.
  apply (@search_cell_stops_at_unprintable_hit _ (Sim.env Sim.no_fault)
           "modern art in Europe" "title" Cases.partly_titled Cases.partly_titled
           [Sim.scored (article_point Sim.sample_df 0)]
           [Sim.scored (article_point Sim.sample_df 2)]
           (Sim.scored Cases.untitled)).
  - reflexivity.
  - repeat constructor; simpl; tauto.
  - intros [H _]. simpl in H. intuition discriminate.
Defined.

(** X10.  What the loop writes, a search cell can list: a hit that carries
    the payload of a point built from a row has both keys the listing
    reads, and its line shows the title and the url of that row. *)
Theorem upserted_payload_is_printable :
  forall (W : Type) (env : Env W) (k i : nat) (v : Series) (p : PointStruct)
         (hit_id : pyval) (hit_score : spec_float) (w : W),
    point_of_row k v = Returned p ->
    print_result env i (mkScored hit_id hit_score (payload p)) w
    = (Returned tt, w, [result_line env i (mkScored hit_id hit_score (payload p))]) /\
    row_getitem v "title"
    = Returned (payload_entry (mkScored hit_id hit_score (payload p)) "title") /\
    row_getitem v "url"
    = Returned (payload_entry (mkScored hit_id hit_score (payload p)) "url").
Proof.
  intros W env k i v p hit_id hit_score w Hp.
  destruct (point_of_row_shape _ _ Hp) as (_ & _ & Hkeys & _ & _ & _ & Ht & Hu).
  assert (Hprint : printable (mkScored hit_id hit_score (payload p)))
    by (unfold printable; simpl; rewrite Hkeys; simpl; tauto).
  split; [now apply print_result_printable|].
  destruct Hprint as [H1 H2].
  rewrite Ht, Hu. split.
  - exact (payload_entry_getitem (mkScored hit_id hit_score (payload p)) "title" H1).
  - exact (payload_entry_getitem (mkScored hit_id hit_score (payload p)) "url" H2).
Qed.

(** The first row of the sample, found again by a search. *)
Lemma upserted_payload_is_printable_witness :
  print_result (Sim.env Sim.no_fault) 0 (Sim.scored (article_point Sim.sample_df 0)) []
  = (Returned tt, [],
     [Print [Fmt (PyInt 1); Lit ". "; Fmt (PyStr "April"); Lit ", URL: ";
             Fmt (PyStr "https://simple.wikipedia.org/wiki/April");
             Lit " (Score: "; Fmt (PyFloat Sim.half); Lit ")"]]).
Proof.
  destruct (@upserted_payload_is_printable _ (Sim.env Sim.no_fault) 0 0
              (row_at Sim.sample_df 0) (article_point Sim.sample_df 0)
              (PyInt 0) Sim.half [] eq_refl) as [H _].
  exact H.
Defined.

(* ------------------------------------------------------------------ *)
(** *** The notebook as a whole *)

Lemma Forall_append {A : Type} (Q : A -> Prop) (l1 l2 : list A) :
  Forall Q l1 -> Forall Q l2 -> Forall Q (l1 ++ l2).
Proof. intros H1 H2. apply Forall_app. now split. Qed.

(** Walks through the whole notebook for a property of single events. *)
Ltac walk_notebook Q :=
  let Hnil := fresh "Hnil" in
  let Happ := fresh "Happ" in
  assert (Hnil : Forall Q []) by constructor;
  assert (Happ : forall t1 t2 : trace, Forall Q t1 -> Forall Q t2 -> Forall Q (t1 ++ t2))
    by (intros; now apply Forall_append);
  unfold notebook, shell, download_data, extract_data, load_data, parse_vectors,
    literal_eval, str, create_collection, index_articles, upsert_row, report_failure,
    search_cell, query_qdrant, print_result;
  walk;
  repeat (apply Forall_cons || apply Forall_nil); simpl; auto 10.

(** X11.  The cells agree on where they work: in any run of the notebook
    every call to Qdrant goes through the client for localhost:6333, every
    creation, upsert, count and search names the collection 'Articles',
    the collection is created with the vectors 'title' and 'content', and
    every search is by one of these two. *)
Theorem notebook_targets_one_collection :
  forall (W : Type) (env : Env W) (w : W),
    Forall targets_articles (trace_of (notebook env w)).
Proof.
  intros W env. change (always (Forall targets_articles) (notebook env)).
  walk_notebook targets_articles.
Qed.

(** X12.  The files are named by constants: in any run of the notebook the
    download is of the embeddings archive, the archive opened is
    vector_database_wikipedia_articles_embedded.zip, extracted into
    ../data, and the CSV read is the one of that name in ../data, whatever
    file name the download returned. *)
Theorem notebook_uses_fixed_files :
  forall (W : Type) (env : Env W) (w : W),
    Forall uses_fixed_files (trace_of (notebook env w)).
Proof.
  intros W env. change (always (Forall uses_fixed_files) (notebook env)).
  walk_notebook uses_fixed_files.
Qed.

(* ------------------------------------------------------------------ *)
(** *** Point ids *)

Lemma strongly_sorted_lt_nodup (ks : list nat) : StronglySorted lt ks -> NoDup ks.
Proof.
  induction 1 as [|k ks _ IH Hlt]; constructor; [|exact IH].
  intros Hin. rewrite Forall_forall in Hlt. specialize (Hlt k Hin). lia.
Qed.

Lemma request_ids_of_labels (ks : list nat)
    (reqs : list (QdrantClient * string * list PointStruct)) (df : DataFrame) :
  Forall2 (fun k r => exists p, r = (qdrant, "Articles", [p]) /\
                                id p = PyInt (Z.of_nat k) /\
                                point_of_row k (row_at df k) = Returned p) ks reqs ->
  flat_map (fun r => map id (snd r)) reqs = map (fun k => PyInt (Z.of_nat k)) ks.
Proof.
  induction 1 as [|k r ks reqs (p & -> & Hid & _) _ IH]; [reflexivity|].
  simpl. now rewrite Hid, IH.
Qed.

Lemma nodup_map_injective {A B : Type} (f : A -> B) (l : list A) :
  (forall a b, f a = f b -> a = b) -> NoDup l -> NoDup (map f l).
Proof.
  intros Hinj. induction 1 as [|a l Hnot _ IH]; simpl; constructor; [|exact IH].
  intros Hin. apply in_map_iff in Hin. destruct Hin as (b & Hb & Hin).
  apply Hinj in Hb. subst b. contradiction.
Qed.

(** X13.  No two upserts of the loop carry the same point id, so no row
    overwrites the record of another; and the loop sends at most one
    upsert per row. *)
Theorem upserted_ids_are_distinct :
  forall (W : Type) (env : Env W) (df : DataFrame) (w : W),
    NoDup (request_ids (trace_of (index_articles env df w))) /\
    List.length (upsert_requests (trace_of (index_articles env df w))) <= df_len df.
Proof.
  intros W env df w.
  destruct (loop_requests_in_row_order env df w) as (ks & Hs & Hlt & Hf).
  pose proof (strongly_sorted_lt_nodup Hs) as Hnd.
  split.
  - unfold request_ids. rewrite (@request_ids_of_labels ks _ df Hf).
    apply nodup_map_injective; [|exact Hnd].
    intros a b Hab. inversion Hab. lia.
  - rewrite <- (Forall2_length Hf).
    assert (Hincl : incl ks (seq 0 (df_len df))).
    { intros k Hk. rewrite Forall_forall in Hlt. apply in_seq. specialize (Hlt k Hk). lia. }
    pose proof (NoDup_incl_length Hnd Hincl) as Hlen.
    now rewrite length_seq in Hlen.
Qed.

(* ================================================================== *)
(** ** The loop and the notebook, in full *)

(** C4.  Every record the loop writes has exactly the two named vectors
    'title' and 'content', the names the collection is created with, and a
    payload of exactly the keys 'id', 'title' and 'url'.  The record is
    that of one row: its id is the label of the row, it is the point built
    from that row, and its vectors and payload hold the values of that
    row; the records go out one per request, by increasing row label. *)
Theorem upserted_point_fields :
  forall (W : Type) (env : Env W) (df : DataFrame) (w : W)
         (q : QdrantClient) (c : string) (ps : list PointStruct),
    In (Invoke (upsert q c ps)) (trace_of (index_articles env df w)) ->
    (exists k p,
        k < df_len df /\ c = "Articles" /\ ps = [p] /\
        id p = PyInt (Z.of_nat k) /\
        point_of_row k (row_at df k) = Returned p /\
        map fst (vector p) = ["title"; "content"] /\
        (forall n, map fst (vector p) = map fst (vectors_config_of n)) /\
        map fst (payload p) = ["id"; "title"; "url"] /\
        dict_getitem (vector p) "title" = row_getitem (row_at df k) "title_vector" /\
        dict_getitem (vector p) "content" = row_getitem (row_at df k) "content_vector" /\
        dict_getitem (payload p) "id" = row_getitem (row_at df k) "id" /\
        dict_getitem (payload p) "title" = row_getitem (row_at df k) "title" /\
        dict_getitem (payload p) "url" = row_getitem (row_at df k) "url") /\
    (exists ks,
        StronglySorted lt ks /\
        Forall (fun k => k < df_len df) ks /\
        Forall2 (fun k r => exists p, r = (qdrant, "Articles", [p]) /\
                                      id p = PyInt (Z.of_nat k) /\
                                      point_of_row k (row_at df k) = Returned p)
          ks (upsert_requests (trace_of (index_articles env df w)))).
Proof.
  intros W env df w q c ps Hin. split.
  - destruct (loop_request_origin env df w q c ps Hin)
      as (k & p & Hk & _ & Hc & Hps & Hp).
    destruct (point_of_row_shape _ _ Hp) as (Hid & Hv & Hpl & E1 & E2 & E3 & E4 & E5).
    exists k, p. repeat split; auto.
  - apply loop_requests_in_row_order.
Qed.

(** The request for the second row of the sample: label 1, the values of
    the row of August. *)
Lemma upserted_point_fields_witness :
  exists k p,
    k < df_len Sim.sample_df /\ "Articles" = "Articles" /\
    [article_point Sim.sample_df 1] = [p] /\
    id p = PyInt (Z.of_nat k) /\
    point_of_row k (row_at Sim.sample_df k) = Returned p /\
    map fst (vector p) = ["title"; "content"] /\
    (forall n, map fst (vector p) = map fst (vectors_config_of n)) /\
    map fst (payload p) = ["id"; "title"; "url"] /\
    dict_getitem (vector p) "title" = row_getitem (row_at Sim.sample_df k) "title_vector" /\
    dict_getitem (vector p) "content" = row_getitem (row_at Sim.sample_df k) "content_vector" /\
    dict_getitem (payload p) "id" = row_getitem (row_at Sim.sample_df k) "id" /\
    dict_getitem (payload p) "title" = row_getitem (row_at Sim.sample_df k) "title" /\
    dict_getitem (payload p) "url" = row_getitem (row_at Sim.sample_df k) "url".
Proof.
  apply (upserted_point_fields (Sim.env Sim.no_fault) Sim.sample_df [] qdrant).
  vm_compute. do 6 right. left. reflexivity.
Defined.

Section Pushing.

Context {W : Type} (env : Env W).

Lemma upsert_world_app (df : DataFrame) (ks1 ks2 : list nat) (w : W) :
  upsert_world env df (ks1 ++ ks2) w
  = upsert_world env df ks2 (upsert_world env df ks1 w).
Proof. unfold upsert_world. apply fold_left_app. Qed.

(** The run of the loop over rows that are built and accepted by the
    client, with a server whose failures are ordinary exceptions. *)
Lemma loop_run (df : DataFrame) (ks : list nat) (w : W) :
  (forall k, point_of_row k (row_at df k) = Returned (article_point df k)) ->
  (forall k, In k ks -> env_validate env (article_point df k) = None) ->
  (forall q c ps w0 e w1,
      env_upsert env q c ps w0 = (Raised e, w1) -> isinstance_Exception e = true) ->
  for_each (map (fun k => (k, row_at df k)) ks) (attempt env) w
  = (Returned tt, upsert_world env df ks w, upsert_trace env df ks w).
Proof.
  intros Hpoint Hvalid Hexc. revert w.
  induction ks as [|k ks IH]; intros w; [reflexivity|].
  simpl map. rewrite for_each_cons, attempt_run. simpl fst. simpl snd.
  rewrite Hpoint, (Hvalid k (or_introl eq_refl)).
  assert (IH' : forall w0,
             for_each (map (fun k0 => (k0, row_at df k0)) ks) (attempt env) w0
             = (Returned tt, upsert_world env df ks w0, upsert_trace env df ks w0))
    by (intros w0; apply IH; intros j Hj; apply Hvalid; now right).
  unfold upsert_world. simpl fold_left. simpl upsert_trace.
  destruct (env_upsert env qdrant "Articles" [article_point df k] w)
    as [[[]|e] w1] eqn:E; simpl.
  - rewrite IH'. reflexivity.
  - rewrite (Hexc _ _ _ _ _ _ E), IH'. unfold upsert_events, failure_lines. simpl.
    reflexivity.
Qed.

Lemma requested_all (df : DataFrame) (ks : list nat) :
  (forall k, point_of_row k (row_at df k) = Returned (article_point df k)) ->
  (forall k, In k ks -> env_validate env (article_point df k) = None) ->
  flat_map (requested env) (map (fun k => (k, row_at df k)) ks)
  = map (fun k => (qdrant, "Articles", [article_point df k])) ks.
Proof.
  intros Hpoint Hvalid. induction ks as [|k ks IH]; [reflexivity|].
  simpl. unfold requested at 1. simpl fst. simpl snd.
  rewrite Hpoint, (Hvalid k (or_introl eq_refl)).
  simpl. f_equal. apply IH. intros j Hj. apply Hvalid. now right.
Qed.

(** A point stays in the collection while rows with other ids are
    upserted. *)
Lemma upsert_world_keeps (holds : W -> PointStruct -> Prop) (df : DataFrame)
    (ks : list nat) (w : W) (p : PointStruct) :
  keeps_points env holds ->
  holds w p ->
  (forall k, In k ks -> PyInt (Z.of_nat k) <> id p) ->
  holds (upsert_world env df ks w) p.
Proof.
  intros Hkeep. revert w. induction ks as [|k ks IH]; intros w Hp Hids; [exact Hp|].
  unfold upsert_world. simpl fold_left.
  apply IH; [|intros j Hj; apply Hids; now right].
  destruct (env_upsert env qdrant "Articles" [article_point df k] w) as [o w1] eqn:E.
  destruct (Hkeep _ _ _ _ _ _ E) as [_ Hother]. simpl.
  apply Hother; [exact Hp|].
  intros p' [<-|[]]. simpl. apply Hids. now left.
Qed.

(** A row whose upsert the server answered is in the collection when the
    loop is over. *)
Lemma upserted_row_is_held (holds : W -> PointStruct -> Prop) (df : DataFrame)
    (n k : nat) (w : W) :
  keeps_points env holds ->
  k < n ->
  fst (env_upsert env qdrant "Articles" [article_point df k]
         (upsert_world env df (seq 0 k) w)) = Returned tt ->
  holds (upsert_world env df (seq 0 n) w) (article_point df k).
Proof.
  intros Hkeep Hk Hok.
  replace n with (k + (1 + (n - k - 1))) by lia.
  rewrite seq_app, upsert_world_app. simpl seq at 2.
  unfold upsert_world at 1. simpl fold_left. fold (upsert_world env df).
  apply upsert_world_keeps; [exact Hkeep| |].
  - destruct (env_upsert env qdrant "Articles" [article_point df k]
                (upsert_world env df (seq 0 k) w)) as [o w1] eqn:E.
    destruct (Hkeep _ _ _ _ _ _ E) as [Hin _]. simpl in *.
    apply Hin; [exact Hok|now left].
  - intros j Hj. apply in_seq in Hj. simpl. intros Heq. inversion Heq. lia.
Qed.

End Pushing.

(** The simulated server keeps what it is given. *)
Lemma sim_keeps_points (fault : PointStruct -> option exn) :
  keeps_points (Sim.env fault) (fun w p => In p w).
Proof.
  intros q c ps w o w'. simpl. destruct ps as [|p0 ps].
  - intros H. inversion H. subst. split; [intros _ p []|auto].
  - destruct (fault p0).
    + intros H. inversion H. subst. split; [discriminate|auto].
    + intros H. inversion H. subst. split.
      * intros _ p Hp. apply in_or_app. now right.
      * intros p Hp _. apply in_or_app. now left.
Qed.

(** C2.  The indexing step pushes the rows of the dataset into the
    collection named 'Articles'.  On a frame that has the five columns the
    loop reads, whose points the client accepts, and with a server whose
    failures are ordinary exceptions, the loop runs to its end; it sends
    one upsert to 'Articles' per row, row after row, each answered by the
    server on the world the one before left, so that the world at the end
    is the one these upserts make.  With a server that keeps what it is
    given, every row whose upsert it answered is in the collection at the
    end, and all the rows are when it refuses none. *)
Theorem index_articles_upserts_every_row :
  forall (W : Type) (env : Env W) (df : DataFrame) (w : W),
    has_column df "title_vector" -> has_column df "content_vector" ->
    has_column df "id" -> has_column df "title" -> has_column df "url" ->
    (forall k, k < df_len df -> env_validate env (article_point df k) = None) ->
    (forall q c ps w0 e w1,
        env_upsert env q c ps w0 = (Raised e, w1) -> isinstance_Exception e = true) ->
    exists w' t,
      index_articles env df w = (Returned tt, w', t) /\
      upsert_requests t
      = map (fun k => (qdrant, "Articles", [article_point df k])) (seq 0 (df_len df)) /\
      w' = upsert_world env df (seq 0 (df_len df)) w /\
      t = upsert_trace env df (seq 0 (df_len df)) w /\
      (forall holds,
          keeps_points env holds ->
          forall k,
            k < df_len df ->
            fst (env_upsert env qdrant "Articles" [article_point df k]
                   (upsert_world env df (seq 0 k) w)) = Returned tt ->
            holds w' (article_point df k)) /\
      (forall holds,
          keeps_points env holds -> accepts_all env ->
          forall k, k < df_len df -> holds w' (article_point df k)).
Proof.
  intros W env df w H1 H2 H3 H4 H5 Hvalid Hexc.
  assert (Hpoint : forall k, point_of_row k (row_at df k) = Returned (article_point df k))
    by (intros k; now apply point_of_row_article).
  assert (Hrun : index_articles env df w
                 = (Returned tt, upsert_world env df (seq 0 (df_len df)) w,
                    upsert_trace env df (seq 0 (df_len df)) w)).
  { rewrite index_articles_unfold. unfold iterrows. apply loop_run; auto.
    intros k Hk. apply Hvalid. apply in_seq in Hk. lia. }
  exists (upsert_world env df (seq 0 (df_len df)) w),
         (upsert_trace env df (seq 0 (df_len df)) w).
  split; [exact Hrun|]. split; [|split; [reflexivity|split; [reflexivity|split]]].
  - destruct (loop_requests env (iterrows df) w) as (done & rest & Hrows & Hreq & Hend).
    rewrite <- index_articles_unfold in Hreq, Hend. rewrite Hrun in Hreq, Hend.
    unfold result_of, trace_of in Hreq, Hend. simpl in Hreq, Hend.
    specialize (Hend eq_refl). subst rest. rewrite app_nil_r in Hrows. subst done.
    rewrite Hreq. unfold iterrows. apply requested_all; [exact Hpoint|].
    intros k Hk. apply Hvalid. apply in_seq in Hk. lia.
  - intros holds Hkeep k Hk Hok. now apply upserted_row_is_held.
  - intros holds Hkeep Hall k Hk. apply upserted_row_is_held; auto.
Qed.

(** On the sample, with a server that refuses the first row: the three
    rows are all sent, and the two that were answered are in the
    collection. *)
Lemma index_articles_upserts_every_row_witness :
  exists w' t,
    index_articles (Sim.env (Sim.fault_on_first Sim.ConnectionError)) Sim.sample_df []
    = (Returned tt, w', t) /\
    upsert_requests t
    = map (fun k => (qdrant, "Articles", [article_point Sim.sample_df k])) (seq 0 3) /\
    w' = [article_point Sim.sample_df 1; article_point Sim.sample_df 2] /\
    In (article_point Sim.sample_df 2) w'.
Proof.
  destruct (@index_articles_upserts_every_row _
              (Sim.env (Sim.fault_on_first Sim.ConnectionError)) Sim.sample_df [])
    as (w' & t & Hrun & Hreq & Hw & Ht & Hheld & _).
  - vm_compute. tauto.
  - vm_compute. tauto.
  - vm_compute. tauto.
  - vm_compute. tauto.
  - vm_compute. tauto.
  - reflexivity.
  - intros q c ps w0 e w1. simpl. destruct ps as [|p ps]; [discriminate|].
    unfold Sim.fault_on_first. destruct (id p) as [| |z| | |]; try discriminate.
    destruct z; try discriminate. intros H. inversion H. reflexivity.
  - exists w', t. split; [exact Hrun|]. split; [exact Hreq|]. split; [exact Hw|].
    apply (Hheld (fun w p => In p w) (sim_keeps_points _) 2); [simpl; lia|reflexivity].
Defined.

Section Chain.

Context {W : Type} (env : Env W).

Lemma invoke_returned {A : Type} (c : call) (f : W -> outcome A * W) (w w1 : W) (a : A)
    (t : trace) :
  invoke c f w = (Returned a, w1, t) ->
  f w = (Returned a, w1) /\ t = [Invoke c; Finish c None].
Proof.
  unfold invoke. destruct (f w) as [[x|e] w0]; intros H; inversion H. auto.
Qed.

Lemma lift_returned {A : Type} (o : outcome A) (w w1 : W) (a : A) (t : trace) :
  @lift W A o w = (Returned a, w1, t) -> o = Returned a /\ w1 = w /\ t = [].
Proof. unfold lift. intros H. inversion H. auto. Qed.

Lemma apply_literal_eval_returned (col ys : list pyval) (w w1 : W) (t : trace) :
  apply (literal_eval env) col w = (Returned ys, w1, t) ->
  w1 = w /\ t = literal_eval_events col.
Proof.
  revert ys w1 t. induction col as [|v col IH]; intros ys w1 t H.
  - simpl in H. unfold ret in H. inversion H. auto.
  - simpl in H. apply bind_inv in H. destruct H as (y & w2 & t1 & t2 & H1 & H & ->).
    unfold literal_eval, invoke_pure in H1.
    destruct (env_literal_eval env v) as [y0|e] eqn:E; inversion H1. subst.
    apply bind_inv in H. destruct H as (ys' & w3 & t3 & t4 & Hrest & H & ->).
    apply IH in Hrest. destruct Hrest as [-> ->].
    unfold ret in H. inversion H. subst. split; [reflexivity|].
    simpl. now rewrite app_nil_r.
Qed.

Lemma getattr_column (df : DataFrame) (name : string) (col : list pyval) :
  getattr df name = Returned col -> col = column df name.
Proof.
  unfold getattr, column. destruct (assoc name (df_columns df)); intros H; inversion H.
  reflexivity.
Qed.

(** The events of a parsing cell that returned. *)
Lemma parse_vectors_returned (csv df : DataFrame) (w w1 : W) (t : trace) :
  parse_vectors env csv w = (Returned df, w1, t) ->
  t = literal_eval_events (column csv "title_vector")
      ++ literal_eval_events (column csv "content_vector").
Proof.
  unfold parse_vectors. intros H.
  apply bind_inv in H. destruct H as (titles & w2 & t1 & r1 & H1 & H & ->).
  apply lift_returned in H1. destruct H1 as (Ht & -> & ->).
  apply bind_inv in H. destruct H as (parsed & w3 & t2 & r2 & H2 & H & ->).
  apply apply_literal_eval_returned in H2. destruct H2 as [-> ->].
  apply bind_inv in H. destruct H as (contents & w4 & t3 & r3 & H3 & H & ->).
  apply lift_returned in H3. destruct H3 as (Hc & -> & ->).
  apply bind_inv in H. destruct H as (parsed' & w5 & t4 & r4 & H4 & H & ->).
  apply apply_literal_eval_returned in H4. destruct H4 as [-> ->].
  apply bind_inv in H. destruct H as (ids & w6 & t5 & r5 & H5 & H & ->).
  apply lift_returned in H5. destruct H5 as (Hi & -> & ->).
  apply bind_inv in H. destruct H as (strs & w7 & t6 & r6 & H6 & H & ->).
  rewrite apply_str in H6. inversion H6. subst.
  unfold ret in H. inversion H. subst.
  rewrite getattr_setitem_other in Hc by discriminate.
  apply getattr_column in Ht, Hc. subst. simpl. now rewrite !app_nil_r.
Qed.

Lemma steps_literal_eval_events (col : list pyval) :
  steps (literal_eval_events col) = repeat Parse (2 * List.length col).
Proof.
  induction col as [|v col IH]; [reflexivity|].
  simpl List.length. replace (2 * S (List.length col)) with (2 + 2 * List.length col) by lia.
  simpl. f_equal. f_equal. exact IH.
Qed.

(** A completed loop leaves at least two events of the upsert step per
    row: the answer to the upsert, or the handler's two lines. *)
Lemma for_each_steps_per_row (rows : list (nat * Series)) (w w' : W) (t : trace) :
  for_each rows (attempt env) w = (Returned tt, w', t) ->
  2 * List.length rows <= List.length (steps t).
Proof.
  revert w t. induction rows as [|kv rows IH]; intros w t H.
  - simpl. lia.
  - rewrite for_each_cons in H.
    assert (Hone : forall w1 t1, attempt env kv w = (Returned tt, w1, t1) ->
                   2 <= List.length (steps t1)).
    { intros w1 t1. rewrite attempt_run.
      destruct (point_of_row (fst kv) (snd kv)) as [p|e].
      2:{ intros E. inversion E. simpl. lia. }
      destruct (env_validate env p) as [e|].
      - destruct (isinstance_Exception e); intros E; inversion E. simpl. lia.
      - destruct (env_upsert env qdrant "Articles" [p] w) as [[[]|e] w2].
        + intros E. inversion E. simpl. lia.
        + destruct (isinstance_Exception e); intros E; inversion E. simpl. lia. }
    destruct (attempt env kv w) as [[[[]|e] w1] t1]; [|discriminate].
    specialize (Hone w1 t1 eq_refl).
    destruct (for_each rows (attempt env) w1) as [[r w2] t2] eqn:E.
    inversion H. subst. apply IH in E.
    rewrite steps_app, length_app. simpl List.length. lia.
Qed.

(** A run of the notebook that reaches the end ran every cell. *)
Lemma notebook_ran_every_cell (w w' : W) (t : trace) :
  notebook env w = (Returned tt, w', t) ->
  exists csv df t_parse t_index t_first t_second,
    ran_every_cell env w w' t csv df t_parse t_index t_first t_second.
Proof.
  unfold notebook, shell, extract_data, load_data. intros H.
  apply bind_inv in H. destruct H as (u1 & w1 & t1 & r1 & K1 & H & ->).
  apply invoke_returned in K1. destruct K1 as [K1 ->]. inversion K1. subst w1. clear K1.
  apply bind_inv in H. destruct H as ([] & w2 & t2 & r2 & K2 & H & ->).
  apply bind_inv in H. destruct H as ([] & w3 & t3 & r3 & K3 & H & ->).
  apply invoke_returned in K3. destruct K3 as [K3 ->].
  apply bind_inv in H. destruct H as (csv & w4 & t4 & r4 & K4 & H & ->).
  apply invoke_returned in K4. destruct K4 as [K4 ->].
  apply bind_inv in H. destruct H as (u5 & w5 & t5 & r5 & K5 & H & ->).
  unfold emit in K5. inversion K5. subst. clear K5.
  apply bind_inv in H. destruct H as (df & w6 & t6 & r6 & K6 & H & ->).
  apply bind_inv in H. destruct H as (u7 & w7 & t7 & r7 & K7 & H & ->).
  unfold emit in K7. inversion K7. subst. clear K7.
  apply bind_inv in H. destruct H as (u8 & w8 & t8 & r8 & K8 & H & ->).
  apply invoke_returned in K8. destruct K8 as [K8 ->]. inversion K8. subst w8. clear K8.
  apply bind_inv in H. destruct H as (names & w9 & t9 & r9 & K9 & H & ->).
  apply invoke_returned in K9. destruct K9 as [K9 ->].
  apply bind_inv in H. destruct H as (u10 & w10 & t10 & r10 & K10 & H & ->).
  unfold emit in K10. inversion K10. subst. clear K10.
  apply bind_inv in H. destruct H as ([] & w11 & t11 & r11 & K11 & H & ->).
  apply bind_inv in H. destruct H as ([] & w12 & t12 & r12 & K12 & H & ->).
  apply bind_inv in H. destruct H as ([] & w13 & t13 & r13 & K13 & H & ->).
  apply bind_inv in H. destruct H as (n & w14 & t14 & r14 & K14 & H & ->).
  apply invoke_returned in K14. destruct K14 as [K14 ->].
  apply bind_inv in H. destruct H as (u15 & w15 & t15 & r15 & K15 & H & ->).
  unfold emit in K15. inversion K15. subst. clear K15.
  apply bind_inv in H. destruct H as ([] & w16 & t16 & r16 & K16 & H & ->).
  exists csv, df, t6, t13, t16, r16.
  exists t2, t11, t12, names, n, w2, w3, w5, w7, w10, w11, w12, w13, w15, w16.
  repeat split; assumption.
Qed.

End Chain.

(** C3, as it holds.  In any run of the notebook the steps follow one
    another in the order download, extract, parse, create the collection,
    upsert the rows, query, print the results, and no later step comes
    before an earlier one, with one exception: after the results of a
    query are printed, the next query is issued.  A run that reaches the
    end ran every cell, each on the world the one before left: the
    download, the extraction, the reading of the CSV, the parsing cell on
    the frame read, with one [literal_eval] call per cell of the two vector
    columns, the two creations of the collection, the upsert loop on the
    parsed frame, with at least two events per row, and then twice a query
    followed by its result lines. *)
Theorem steps_go_back_only_for_the_next_query :
  forall (W : Type) (env : Env W) (w w' : W) (r : outcome unit) (t : trace),
    notebook env w = (r, w', t) ->
    in_order back_only_to_query (steps t) = true /\
    (r = Returned tt ->
     exists csv df t_parse t_index t_first t_second n1 n2,
       ran_every_cell env w w' t csv df t_parse t_index t_first t_second /\
       steps t = [Download; Download; Extract; Extract; Parse; Parse] ++ steps t_parse
                 ++ repeat CreateCollection 4 ++ steps t_index
                 ++ steps t_first ++ steps t_second /\
       t_parse = literal_eval_events (column csv "title_vector")
                 ++ literal_eval_events (column csv "content_vector") /\
       steps t_parse
       = repeat Parse (2 * (List.length (column csv "title_vector")
                            + List.length (column csv "content_vector"))) /\
       Forall (eq UpsertRows) (steps t_index) /\
       2 * df_len df <= List.length (steps t_index) /\
       steps t_first = repeat Query 4 ++ repeat PrintResults n1 /\
       steps t_second = repeat Query 4 ++ repeat PrintResults n2).
Proof.
  intros W env w w' r t H. split.
  - destruct (notebook_staged env w) as [_ H2]. rewrite H in H2. exact H2.
  - intros ->.
    destruct (notebook_ran_every_cell env w H)
      as (csv & df & t_parse & t_index & t_first & t_second & Hran).
    pose proof Hran as Hran'.
    destruct Hran' as (t_download & t_create1 & t_create2 & names & n
                       & w2 & w3 & w4 & w5 & w7 & w8 & w9 & w10 & w11 & w12
                       & Hd & _ & _ & Hp & _ & Hc1 & Hc2 & Hi & _ & Hs1 & Hs2 & Ht).
    destruct (search_cell_completed env _ _ _ Hs1) as [n1 Hn1].
    destruct (search_cell_completed env _ _ _ Hs2) as [n2 Hn2].
    pose proof (parse_vectors_returned env _ _ Hp) as Hparse.
    exists csv, df, t_parse, t_index, t_first, t_second, n1, n2.
    split; [exact Hran|]. split; [|split; [exact Hparse|split; [|split; [|split]]]].
    + rewrite Ht, !steps_app.
      rewrite (download_data_completed env _ Hd).
      rewrite (create_collection_completed env _ _ Hc1).
      rewrite (create_collection_completed env _ _ Hc2).
      reflexivity.
    + rewrite Hparse, steps_app, !steps_literal_eval_events, <- repeat_app.
      f_equal. lia.
    + pose proof (only_one_step (index_articles_step env df w9)) as Hu.
      rewrite Hi in Hu. exact Hu.
    + rewrite <- length_iterrows. rewrite index_articles_unfold in Hi.
      now apply for_each_steps_per_row with (env := env) (w := w9) (w' := w10).
    + split; assumption.
Qed.

(** The run on the sample. *)
Lemma steps_go_back_only_for_the_next_query_witness :
  in_order back_only_to_query
    (steps (trace_of (notebook (Sim.env Sim.no_fault) []))) = true /\
  exists csv df t_parse t_index t_first t_second n1 n2,
    ran_every_cell (Sim.env Sim.no_fault) []
      (world_of (notebook (Sim.env Sim.no_fault) []))
      (trace_of (notebook (Sim.env Sim.no_fault) []))
      csv df t_parse t_index t_first t_second /\
    steps (trace_of (notebook (Sim.env Sim.no_fault) []))
    = [Download; Download; Extract; Extract; Parse; Parse] ++ steps t_parse
      ++ repeat CreateCollection 4 ++ steps t_index
      ++ steps t_first ++ steps t_second /\
    t_parse = literal_eval_events (column csv "title_vector")
              ++ literal_eval_events (column csv "content_vector") /\
    steps t_parse
    = repeat Parse (2 * (List.length (column csv "title_vector")
                         + List.length (column csv "content_vector"))) /\
    Forall (eq UpsertRows) (steps t_index) /\
    2 * df_len df <= List.length (steps t_index) /\
    steps t_first = repeat Query 4 ++ repeat PrintResults n1 /\
    steps t_second = repeat Query 4 ++ repeat PrintResults n2.
Proof.
  destruct (@steps_go_back_only_for_the_next_query _ (Sim.env Sim.no_fault) []
              (world_of (notebook (Sim.env Sim.no_fault) []))
              (Returned tt)
              (trace_of (notebook (Sim.env Sim.no_fault) []))
              eq_refl) as [H1 H2].
  split; [exact H1|exact (H2 eq_refl)].
Defined.

(* ------------------------------------------------------------------ *)
(** *** The notebook as a sequence of cells *)

Section CellByCell.

Context {W : Type} (env : Env W).

Lemma run_keep {X : Type} (m : M W X) (cs : list (code_cell W)) (s : namespace)
    (k : M W unit) :
  (forall w, k w = finished (run_cells cs s w)) ->
  forall w, bind m (fun _ => k) w = finished (run_cells (keep m :: cs) s w).
Proof.
  intros Hk w. simpl. unfold keep, bind, ret.
  destruct (m w) as [[[a|e] w1] t1]; simpl; [|reflexivity].
  rewrite Hk. destruct (run_cells cs s w1) as [[[s'|e] w2] t2]; simpl;
    now rewrite app_nil_r.
Qed.

Lemma run_binding (m : M W DataFrame) (cs : list (code_cell W)) (s : namespace)
    (k : DataFrame -> M W unit) :
  (forall df w, k df w = finished (run_cells cs (Some df) w)) ->
  forall w, bind m k w = finished (run_cells (binding m :: cs) s w).
Proof.
  intros Hk w. simpl. unfold binding, bind, ret.
  destruct (m w) as [[[df|e] w1] t1]; simpl; [|reflexivity].
  rewrite Hk. destruct (run_cells cs (Some df) w1) as [[[s'|e] w2] t2]; simpl;
    now rewrite app_nil_r.
Qed.

Lemma run_reading {X : Type} (f : DataFrame -> M W X) (cs : list (code_cell W))
    (df : DataFrame) (k : M W unit) :
  (forall w, k w = finished (run_cells cs (Some df) w)) ->
  forall w, bind (f df) (fun _ => k) w
            = finished (run_cells (reading f :: cs) (Some df) w).
Proof.
  intros Hk w. simpl. unfold reading, bound, bind, lift, ret.
  destruct (f df w) as [[[a|e] w1] t1]; simpl; [|reflexivity].
  rewrite Hk. destruct (run_cells cs (Some df) w1) as [[[s'|e] w2] t2]; simpl;
    now rewrite app_nil_r.
Qed.

Lemma run_rebinding (f : DataFrame -> M W DataFrame) (cs : list (code_cell W))
    (df : DataFrame) (k : DataFrame -> M W unit) :
  (forall df' w, k df' w = finished (run_cells cs (Some df') w)) ->
  forall w, bind (f df) k w = finished (run_cells (rebinding f :: cs) (Some df) w).
Proof.
  intros Hk w. simpl. unfold rebinding, bound, bind, lift, ret.
  destruct (f df w) as [[[df'|e] w1] t1]; simpl; [|reflexivity].
  rewrite Hk. destruct (run_cells cs (Some df') w1) as [[[s'|e] w2] t2]; simpl;
    now rewrite app_nil_r.
Qed.

Lemma run_last (m : M W unit) (s : namespace) (w : W) :
  m w = finished (run_cells [keep m] s w).
Proof.
  simpl. unfold keep, bind, ret.
  destruct (m w) as [[[[]|e] w1] t1]; simpl; [|reflexivity].
  now rewrite !app_nil_r.
Qed.

Lemma bind_assoc {A B C : Type} (m : M W A) (g : A -> M W B) (k : B -> M W C) (w : W) :
  bind m (fun a => bind (g a) k) w = bind (bind m g) k w.
Proof.
  unfold bind. destruct (m w) as [[[a|e] w1] t1]; [|reflexivity].
  destruct (g a w1) as [[[b|e] w2] t2]; [|reflexivity].
  destruct (k b w2) as [[r w3] t3]. now rewrite app_assoc.
Qed.

(** The notebook is its cells, run one after the other. *)
Lemma notebook_as_cells (w : W) :
  notebook env w = finished (run_cells (cells env) None w).
Proof.
  revert w. unfold notebook, cells.
  apply run_keep. apply run_keep. apply run_keep.
  apply run_binding. intros csv.
  apply (run_reading (fun df => emit (Display (ShowFrame (head df))))).
  apply run_rebinding. intros df.
  apply (run_reading (fun df0 => emit (Display (ShowInfo (info df0))))).
  apply run_keep.
  intros w. rewrite bind_assoc. revert w. apply run_keep.
  apply (run_reading (create_collection env)).
  apply (run_reading (create_collection env)).
  apply (run_reading (index_articles env)).
  intros w. rewrite bind_assoc. revert w. apply run_keep.
  apply run_keep.
  intros w. apply run_last.
Qed.

Lemma run_cells_app (pre rest : list (code_cell W)) (s s1 : namespace) (w w1 : W)
    (t1 : trace) :
  run_cells pre s w = (Returned s1, w1, t1) ->
  run_cells (pre ++ rest) s w
  = (let '(r, w2, t2) := run_cells rest s1 w1 in (r, w2, t1 ++ t2)).
Proof.
  revert s w t1. induction pre as [|c pre IH]; intros s w t1 H.
  - simpl in H. unfold ret in H. inversion H. subst.
    simpl. destruct (run_cells rest s1 w1) as [[r w2] t2]. reflexivity.
  - simpl in *. unfold bind in *.
    destruct (c s w) as [[[s0|e] w0] t0]; [|discriminate].
    destruct (run_cells pre s0 w0) as [[r0 w2] t2] eqn:E.
    inversion H. subst.
    rewrite (IH _ _ _ E).
    destruct (run_cells rest s1 w1) as [[r w3] t3]. now rewrite app_assoc.
Qed.

(** A cell that raises ends the notebook. *)
Lemma cell_raises (pre post : list (code_cell W)) (c : code_cell W) (w w1 w2 : W)
    (s1 : namespace) (t1 t2 : trace) (e : exn) :
  cells env = pre ++ c :: post ->
  run_cells pre None w = (Returned s1, w1, t1) ->
  c s1 w1 = (Raised e, w2, t2) ->
  notebook env w = (Raised e, w2, t1 ++ t2).
Proof.
  intros Hcells Hpre Hc.
  rewrite notebook_as_cells, Hcells.
  rewrite (@run_cells_app pre (c :: post) None s1 w w1 t1 Hpre).
  simpl. unfold bind. rewrite Hc. reflexivity.
Qed.

(** *** The cells, operation by operation *)

Lemma apply_cons (f : pyval -> M W pyval) (v : pyval) (rest : list pyval) (w : W) :
  apply f (v :: rest) w
  = match f v w with
    | (Raised e, w1, t1) => (Raised e, w1, t1)
    | (Returned y, w1, t1) =>
        match apply f rest w1 with
        | (Raised e, w2, t2) => (Raised e, w2, t1 ++ t2)
        | (Returned ys, w2, t2) => (Returned (y :: ys), w2, t1 ++ t2)
        end
    end.
Proof.
  simpl. unfold bind, ret.
  destruct (f v w) as [[[y|e] w1] t1]; [|reflexivity].
  destruct (apply f rest w1) as [[[ys|e] w2] t2]; [|reflexivity].
  now rewrite app_nil_r.
Qed.

Lemma parse_vectors_run (df : DataFrame) (w : W) :
  parse_vectors env df w
  = match getattr df "title_vector" with
    | Raised e => (Raised e, w, [])
    | Returned titles =>
    match apply (literal_eval env) titles w with
    | (Raised e, w1, t1) => (Raised e, w1, t1)
    | (Returned parsed_titles, w1, t1) =>
    match getattr (setitem df "title_vector" parsed_titles) "content_vector" with
    | Raised e => (Raised e, w1, t1)
    | Returned contents =>
    match apply (literal_eval env) contents w1 with
    | (Raised e, w2, t2) => (Raised e, w2, t1 ++ t2)
    | (Returned parsed_contents, w2, t2) =>
    match getitem (setitem (setitem df "title_vector" parsed_titles)
                     "content_vector" parsed_contents) "vector_id" with
    | Raised e => (Raised e, w2, t1 ++ t2)
    | Returned ids =>
        (Returned (setitem (setitem (setitem df "title_vector" parsed_titles)
                              "content_vector" parsed_contents)
                     "vector_id" (map (fun v => PyStr (env_str env v)) ids)),
         w2, t1 ++ t2)
    end end end end end.
Proof.
  unfold parse_vectors, bind, lift.
  destruct (getattr df "title_vector") as [titles|e]; [|reflexivity].
  destruct (apply (literal_eval env) titles w) as [[[pt|e] w1] t1]; [|reflexivity].
  destruct (getattr (setitem df "title_vector" pt) "content_vector") as [contents|e];
    [|simpl; now rewrite app_nil_r].
  destruct (apply (literal_eval env) contents w1) as [[[pc|e] w2] t2]; [|reflexivity].
  destruct (getitem (setitem (setitem df "title_vector" pt) "content_vector" pc)
              "vector_id") as [ids|e]; [|simpl; now rewrite app_nil_r].
  rewrite apply_str. unfold ret. simpl. now rewrite app_nil_r.
Qed.

Lemma create_collection_run (df : DataFrame) (w : W) :
  create_collection env df w
  = match getitem df "content_vector" with
    | Raised e => (Raised e, w, [])
    | Returned col =>
    match column_at col 0 with
    | Raised e => (Raised e, w, [])
    | Returned first =>
    match py_len first with
    | Raised e => (Raised e, w, [])
    | Returned vector_size =>
    match env_recreate_collection env qdrant "Articles" (vectors_config_of vector_size) w with
    | (Raised e, w1) =>
        (Raised e, w1,
         [Invoke (recreate_collection qdrant "Articles" (vectors_config_of vector_size));
          Finish (recreate_collection qdrant "Articles" (vectors_config_of vector_size))
            (Some e)])
    | (Returned ok, w1) =>
        (Returned tt, w1,
         [Invoke (recreate_collection qdrant "Articles" (vectors_config_of vector_size));
          Finish (recreate_collection qdrant "Articles" (vectors_config_of vector_size))
            None;
          Display (ShowBool ok)])
    end end end end.
Proof.
  unfold create_collection, bind, lift, invoke, emit.
  destruct (getitem df "content_vector") as [col|e]; [|reflexivity].
  destruct (column_at col 0) as [first|e]; [|reflexivity].
  destruct (py_len first) as [n|e]; [|reflexivity].
  destruct (env_recreate_collection env qdrant "Articles" (vectors_config_of n) w)
    as [[ok|e] w1]; reflexivity.
Qed.

Lemma query_qdrant_run (query collection_name : string) (vector_name : option string)
    (top_k : option Z) (w : W) :
  query_qdrant env query collection_name vector_name top_k w
  = match env_embeddings_create env query EMBEDDING_MODEL w with
    | (Raised e, w1) =>
        (Raised e, w1,
         [Invoke (embeddings_create query EMBEDDING_MODEL);
          Finish (embeddings_create query EMBEDDING_MODEL) (Some e)])
    | (Returned response, w1) =>
    match list_getitem (data response) 0 with
    | Raised e =>
        (Raised e, w1,
         [Invoke (embeddings_create query EMBEDDING_MODEL);
          Finish (embeddings_create query EMBEDDING_MODEL) None])
    | Returned first =>
    match env_search env qdrant collection_name
            (match vector_name with Some n => n | None => "title" end, embedding first)
            (match top_k with Some k => k | None => 20%Z end) None w1 with
    | (r, w2) =>
        (r, w2,
         [Invoke (embeddings_create query EMBEDDING_MODEL);
          Finish (embeddings_create query EMBEDDING_MODEL) None;
          Invoke (search qdrant collection_name
                    (match vector_name with Some n => n | None => "title" end,
                     embedding first)
                    (match top_k with Some k => k | None => 20%Z end) None);
          Finish (search qdrant collection_name
                    (match vector_name with Some n => n | None => "title" end,
                     embedding first)
                    (match top_k with Some k => k | None => 20%Z end) None)
            (raised_of r)])
    end end end.
Proof.
  unfold query_qdrant, bind, invoke, lift, ret.
  destruct (env_embeddings_create env query EMBEDDING_MODEL w) as [[response|e] w1];
    [|reflexivity].
  destruct (list_getitem (data response) 0) as [first|e]; [|reflexivity].
  simpl.
  destruct (env_search env qdrant collection_name
              (match vector_name with Some n => n | None => "title" end, embedding first)
              (match top_k with Some k => k | None => 20%Z end) None w1)
    as [[results|e] w2]; reflexivity.
Qed.

Lemma print_result_run (i : nat) (article : ScoredPoint) (w : W) :
  print_result env i article w
  = match dict_getitem (sp_payload article) "title" with
    | Raised e => (Raised e, w, [])
    | Returned title =>
    match dict_getitem (sp_payload article) "url" with
    | Raised e => (Raised e, w, [])
    | Returned url =>
        (Returned tt, w,
         [Print [Fmt (PyInt (Z.of_nat i + 1)); Lit ". "; Fmt title; Lit ", URL: ";
                 Fmt url; Lit " (Score: ";
                 Fmt (PyFloat (env_round env (score article) 3)); Lit ")"]])
    end end.
Proof.
  unfold print_result, bind, lift, emit.
  destruct (dict_getitem (sp_payload article) "title") as [title|e]; [|reflexivity].
  destruct (dict_getitem (sp_payload article) "url") as [url|e]; reflexivity.
Qed.

Lemma search_cell_run (query vector_name : string) (w : W) :
  search_cell env query vector_name w
  = match query_qdrant env query "Articles" (Some vector_name) None w with
    | (Raised e, w1, t1) => (Raised e, w1, t1)
    | (Returned query_results, w1, t1) =>
        let '(r, w2, t2) :=
          for_each (enumerate query_results)
            (fun ia => print_result env (fst ia) (snd ia)) w1 in
        (r, w2, t1 ++ t2)
    end.
Proof.
  unfold search_cell, bind.
  destruct (query_qdrant env query "Articles" (Some vector_name) None w)
    as [[[results|e] w1] t1]; reflexivity.
Qed.

End CellByCell.

(** A row whose exception is no instance of [Exception] ends the loop. *)
Lemma loop_stops_at_other_exceptions {W : Type} (env : Env W) (df : DataFrame) (w : W)
    (pre post : list (nat * Series)) (k : nat) (v : Series)
    (w1 w2 : W) (t1 t2 : trace) (e : exn) :
  iterrows df = pre ++ (k, v) :: post ->
  for_each pre (attempt env) w = (Returned tt, w1, t1) ->
  upsert_row env k v w1 = (Raised e, w2, t2) ->
  isinstance_Exception e = false ->
  index_articles env df w = (Raised e, w2, t1 ++ t2).
Proof.
  intros Hrows Hpre Hrow He.
  rewrite index_articles_unfold, Hrows.
  rewrite (for_each_app pre ((k, v) :: post) (attempt env) w Hpre).
  rewrite for_each_cons.
  unfold attempt at 1, try_except_Exception. simpl fst. simpl snd.
  rewrite Hrow, He. reflexivity.
Qed.

(** C1, as it holds.  The upsert of each row sits in a handler for
    [Exception]: when the [try] body of a row raises an exception that is an
    instance of [Exception], the run goes on with the two printed lines,
    the failing row and the exception, and then with the remaining rows.
    Nothing else in the notebook has a handler.  An exception that a call
    raises and that handler does not take (the call is outside the [try],
    or the exception is not an instance of [Exception]) is the outcome of
    the run, and the raising call is the last thing that happened; in the
    loop, an exception that is no instance of [Exception] ends the loop
    with the rows before it.  The notebook is its cells run in order, and a
    cell that raises ends the run with that exception.  In each cell
    outside the loop the first operation that raises, a library call or one
    of the notebook's own lookups ([df.title_vector], [df["vector_id"]],
    [df["content_vector"][0]], [len], [data[0]], [payload["title"]],
    [payload["url"]]), gives the outcome of the cell, with nothing run and
    nothing printed after it. *)
Theorem upsert_failures_are_logged_and_skipped :
  forall (W : Type) (env : Env W),
    (forall (df : DataFrame) (w : W)
            (pre post : list (nat * Series)) (k : nat) (v : Series)
            (w1 w2 : W) (t1 t2 : trace) (e : exn),
        iterrows df = pre ++ (k, v) :: post ->
        for_each pre (attempt env) w = (Returned tt, w1, t1) ->
        upsert_row env k v w1 = (Raised e, w2, t2) ->
        isinstance_Exception e = true ->
        index_articles env df w
        = (let '(r, w3, t3) := for_each post (attempt env) w2 in
           (r, w3, t1 ++ t2 ++ failure_lines k v e ++ t3))) /\
    (forall w0 c e0,
        In (Finish c (Some e0)) (trace_of (notebook env w0)) ->
        caught c e0 = false ->
        result_of (notebook env w0) = Raised e0 /\
        exists before, trace_of (notebook env w0) = before ++ [Finish c (Some e0)]) /\
    (forall df0 w0 pre0 post0 k0 v0 w3 w4 t3 t4 e0,
        iterrows df0 = pre0 ++ (k0, v0) :: post0 ->
        for_each pre0 (attempt env) w0 = (Returned tt, w3, t3) ->
        upsert_row env k0 v0 w3 = (Raised e0, w4, t4) ->
        isinstance_Exception e0 = false ->
        index_articles env df0 w0 = (Raised e0, w4, t3 ++ t4)) /\
    (forall w0, notebook env w0 = finished (run_cells (cells env) None w0)) /\
    (forall before c after w0 s w3 t3 e0 w4 t4,
        cells env = before ++ c :: after ->
        run_cells before None w0 = (Returned s, w3, t3) ->
        c s w3 = (Raised e0, w4, t4) ->
        notebook env w0 = (Raised e0, w4, t3 ++ t4)) /\
    (forall df0 w0,
        parse_vectors env df0 w0
        = match getattr df0 "title_vector" with
          | Raised e0 => (Raised e0, w0, [])
          | Returned titles =>
          match apply (literal_eval env) titles w0 with
          | (Raised e0, w3, t3) => (Raised e0, w3, t3)
          | (Returned parsed_titles, w3, t3) =>
          match getattr (setitem df0 "title_vector" parsed_titles) "content_vector" with
          | Raised e0 => (Raised e0, w3, t3)
          | Returned contents =>
          match apply (literal_eval env) contents w3 with
          | (Raised e0, w4, t4) => (Raised e0, w4, t3 ++ t4)
          | (Returned parsed_contents, w4, t4) =>
          match getitem (setitem (setitem df0 "title_vector" parsed_titles)
                           "content_vector" parsed_contents) "vector_id" with
          | Raised e0 => (Raised e0, w4, t3 ++ t4)
          | Returned ids =>
              (Returned (setitem (setitem (setitem df0 "title_vector" parsed_titles)
                                    "content_vector" parsed_contents)
                           "vector_id" (map (fun x => PyStr (env_str env x)) ids)),
               w4, t3 ++ t4)
          end end end end end) /\
    (forall (f : pyval -> M W pyval) x rest w0,
        apply f (x :: rest) w0
        = match f x w0 with
          | (Raised e0, w3, t3) => (Raised e0, w3, t3)
          | (Returned y, w3, t3) =>
              match apply f rest w3 with
              | (Raised e0, w4, t4) => (Raised e0, w4, t3 ++ t4)
              | (Returned ys, w4, t4) => (Returned (y :: ys), w4, t3 ++ t4)
              end
          end) /\
    (forall df0 w0,
        create_collection env df0 w0
        = match getitem df0 "content_vector" with
          | Raised e0 => (Raised e0, w0, [])
          | Returned col =>
          match column_at col 0 with
          | Raised e0 => (Raised e0, w0, [])
          | Returned first =>
          match py_len first with
          | Raised e0 => (Raised e0, w0, [])
          | Returned vector_size =>
          match env_recreate_collection env qdrant "Articles"
                  (vectors_config_of vector_size) w0 with
          | (Raised e0, w3) =>
              (Raised e0, w3,
               [Invoke (recreate_collection qdrant "Articles"
                          (vectors_config_of vector_size));
                Finish (recreate_collection qdrant "Articles"
                          (vectors_config_of vector_size)) (Some e0)])
          | (Returned ok, w3) =>
              (Returned tt, w3,
               [Invoke (recreate_collection qdrant "Articles"
                          (vectors_config_of vector_size));
                Finish (recreate_collection qdrant "Articles"
                          (vectors_config_of vector_size)) None;
                Display (ShowBool ok)])
          end end end end) /\
    (forall query collection_name vector_name top_k w0,
        query_qdrant env query collection_name vector_name top_k w0
        = match env_embeddings_create env query EMBEDDING_MODEL w0 with
          | (Raised e0, w3) =>
              (Raised e0, w3,
               [Invoke (embeddings_create query EMBEDDING_MODEL);
                Finish (embeddings_create query EMBEDDING_MODEL) (Some e0)])
          | (Returned response, w3) =>
          match list_getitem (data response) 0 with
          | Raised e0 =>
              (Raised e0, w3,
               [Invoke (embeddings_create query EMBEDDING_MODEL);
                Finish (embeddings_create query EMBEDDING_MODEL) None])
          | Returned first =>
          match env_search env qdrant collection_name
                  (match vector_name with Some n => n | None => "title" end,
                   embedding first)
                  (match top_k with Some n => n | None => 20%Z end) None w3 with
          | (r, w4) =>
              (r, w4,
               [Invoke (embeddings_create query EMBEDDING_MODEL);
                Finish (embeddings_create query EMBEDDING_MODEL) None;
                Invoke (search qdrant collection_name
                          (match vector_name with Some n => n | None => "title" end,
                           embedding first)
                          (match top_k with Some n => n | None => 20%Z end) None);
                Finish (search qdrant collection_name
                          (match vector_name with Some n => n | None => "title" end,
                           embedding first)
                          (match top_k with Some n => n | None => 20%Z end) None)
                  (raised_of r)])
          end end end) /\
    (forall i article w0,
        print_result env i article w0
        = match dict_getitem (sp_payload article) "title" with
          | Raised e0 => (Raised e0, w0, [])
          | Returned title =>
          match dict_getitem (sp_payload article) "url" with
          | Raised e0 => (Raised e0, w0, [])
          | Returned url =>
              (Returned tt, w0,
               [Print [Fmt (PyInt (Z.of_nat i + 1)); Lit ". "; Fmt title; Lit ", URL: ";
                       Fmt url; Lit " (Score: ";
                       Fmt (PyFloat (env_round env (score article) 3)); Lit ")"]])
          end end) /\
    (forall query vector_name w0,
        search_cell env query vector_name w0
        = match query_qdrant env query "Articles" (Some vector_name) None w0 with
          | (Raised e0, w3, t3) => (Raised e0, w3, t3)
          | (Returned query_results, w3, t3) =>
              let '(r, w4, t4) :=
                for_each (enumerate query_results)
                  (fun ia => print_result env (fst ia) (snd ia)) w3 in
              (r, w4, t3 ++ t4)
          end) /\
    (forall (A : Type) (x : A) (xs : list A) (body : A -> M W unit) w0,
        for_each (x :: xs) body w0
        = match body x w0 with
          | (Returned _, w3, t3) =>
              let '(r, w4, t4) := for_each xs body w3 in (r, w4, t3 ++ t4)
          | (Raised e0, w3, t3) => (Raised e0, w3, t3)
          end).
Proof.
  intros W env.
  split; [|split; [|split; [|split; [|split; [|split; [|split; [|split;
    [|split; [|split; [|split]]]]]]]]]].
  - intros df w pre post k v w1 w2 t1 t2 e Hrows Hpre Hrow He.
    rewrite index_articles_unfold, Hrows.
    rewrite (for_each_app pre ((k, v) :: post) (attempt env) w Hpre).
    rewrite for_each_cons.
    unfold attempt at 1, try_except_Exception. simpl fst. simpl snd.
    rewrite Hrow, He. unfold report_failure, bind, emit. simpl.
    destruct (for_each post (attempt env) w2) as [[r w3] t3].
    unfold failure_lines. now rewrite <- app_assoc.
  - intros w0 c e0 Hin Hun.
    apply uncaught_is_last; [apply propagating_notebook|exact Hin|exact Hun].
  - intros df0 w0 pre0 post0 k0 v0 w3 w4 t3 t4 e0 H1 H2 H3 H4.
    eapply loop_stops_at_other_exceptions; eassumption.
  - intros w0. apply notebook_as_cells.
  - intros before c after w0 s w3 t3 e0 w4 t4 H1 H2 H3.
    eapply cell_raises; eassumption.
  - intros df0 w0. apply parse_vectors_run.
  - intros f x rest w0. apply apply_cons.
  - intros df0 w0. apply create_collection_run.
  - intros query collection_name vector_name top_k w0. apply query_qdrant_run.
  - intros i article w0. apply print_result_run.
  - intros query vector_name w0. apply search_cell_run.
  - intros A x xs body w0. apply for_each_cons.
Qed.

(** The sample with a server that refuses the first row; and that server
    behind a reading of a CSV with no rows, where the first creation cell
    finds no first vector and the run ends there. *)
Lemma upsert_failures_are_logged_and_skipped_witness :
  index_articles Empty.env Sim.sample_df []
  = (let '(r, w3, t3) :=
       for_each [(1, row_at Sim.sample_df 1); (2, row_at Sim.sample_df 2)]
         (attempt Empty.env) [] in
     (r, w3,
      [] ++ upsert_events (article_point Sim.sample_df 0) (Some Sim.ConnectionError)
         ++ failure_lines 0 (row_at Sim.sample_df 0) Sim.ConnectionError ++ t3)) /\
  create_collection Empty.env Empty.no_rows_csv [] = (Raised (KeyError "row label"), [], []) /\
  result_of (notebook Empty.env []) = Raised (KeyError "row label") /\
  trace_of (notebook Empty.env [])
  = trace_of (run_cells (firstn 9 (cells Empty.env)) None []).
Proof.
  destruct (@upsert_failures_are_logged_and_skipped _ Empty.env)
    as (Hloop & _ & _ & _ & Hcell & _ & _ & Hcreate & _).
  split; [|split].
  - apply (Hloop Sim.sample_df []
             [] [(1, row_at Sim.sample_df 1); (2, row_at Sim.sample_df 2)]
             0 (row_at Sim.sample_df 0) [] [] []
             (upsert_events (article_point Sim.sample_df 0) (Some Sim.ConnectionError))
             Sim.ConnectionError); reflexivity.
  - rewrite Hcreate. reflexivity.
  - rewrite (Hcell (firstn 9 (cells Empty.env)) (reading (create_collection Empty.env))
               (skipn 10 (cells Empty.env)) [] (Some Empty.no_rows_csv) []
               (trace_of (run_cells (firstn 9 (cells Empty.env)) None []))
               (KeyError "row label") [] []).
    + split; [reflexivity|]. unfold trace_of at 1. apply app_nil_r.
    + reflexivity.
    + reflexivity.
    + reflexivity.
Defined.
